(** * Real-time gateway of [src/services/websocket.service.js]

    A shallow embedding of the [WebSocketService] class: the device slot,
    the client registry, the device status record, the heartbeat and
    staleness timers, the message router, the sensor-data pipeline and the
    command relay.

    Conventions of the embedding.
    - A [ws] connection object is a mutable JavaScript object shared by the
      registry and by the event handlers closed over it; it is modelled as a
      cell of the socket heap [sockets], named by a [Handle].
    - [this.clients] is a JavaScript [Map]: an association list in insertion
      order, with [Map.set] replacing in place or appending.
    - Every handler is a computation in a state-and-exception monad [M];
      [try { } catch] is [tryCatch].
    - [new Date()] and [Date.now()] inside one handler invocation read the
      instant [now] (milliseconds) that the invocation receives.
    - The calls that leave the process ([ws.send], [ws.close],
      [ws.terminate], [ws.ping], [save()] and [find()] of the sensor model)
      are recorded in [trace]; [logger.warn] and [logger.error] are recorded
      in [logs]; [logger.info] and [logger.debug] are not modelled.
    - What the [ws] library, [JSON.parse] and the sensor store do is not part
      of the repository: the library calls follow the documented behaviour of
      [ws], and the results of parsing and of the store are supplied by the
      environment as part of the event. *)

From stdpp Require Import base list strings gmap pretty.
From Stdlib Require Import ZArith Lia Ascii.

Open Scope string_scope.
Open Scope list_scope.
Open Scope Z_scope.

Set Warnings "-register-all".

(** ** JavaScript values *)

Inductive JValue : Type :=
| JUndefined
| JNull
| JBool (b : bool)
| JNum (n : Z)
| JStr (s : string)
| JDate (t : Z)                        (* a Date object for instant t *)
| JIso (t : Z)                         (* the string new Date(t).toISOString() *)
| JDateOf (arg : JValue)               (* the Date object new Date(arg), its time not evaluated *)
| JArr (xs : list JValue)
| JObj (fields : list (string * JValue)).

(** Truthiness, as used by [||], [!] and [if]. *)
Definition truthy (v : JValue) : bool :=
  match v with
  | JUndefined | JNull => false
  | JBool b => b
  | JNum n => negb (n =? 0)
  | JStr s => negb (String.eqb s "")
  | JDate _ | JIso _ | JDateOf _ | JArr _ | JObj _ => true
  end.

(** [a || b] *)
Definition jor (a b : JValue) : JValue := if truthy a then a else b.

(** Property tables: own properties in insertion order. *)
Fixpoint objGet (k : string) (fs : list (string * JValue)) : option JValue :=
  match fs with
  | [] => None
  | (k', v) :: rest => if String.eqb k' k then Some v else objGet k rest
  end.

Fixpoint objSet (k : string) (v : JValue) (fs : list (string * JValue))
  : list (string * JValue) :=
  match fs with
  | [] => [(k, v)]
  | (k', v') :: rest =>
      if String.eqb k' k then (k', v) :: rest else (k', v') :: objSet k v rest
  end.

(** [v.k] on a value that is neither [null] nor [undefined]. *)
Definition jprop (v : JValue) (k : string) : JValue :=
  match v with
  | JObj fs => default JUndefined (objGet k fs)
  | _ => JUndefined
  end.

(** [{ ...fs, ...src }]: the own properties of [src] are copied in order over
    [fs]. The sources spread in this file are objects or [null]. *)
Definition spread (src : JValue) (fs : list (string * JValue))
  : list (string * JValue) :=
  match src with
  | JObj sfs => foldl (fun acc kv => objSet kv.1 kv.2 acc) fs sfs
  | _ => fs
  end.

(** [v?.k] *)
Definition optChain (v : JValue) (k : string) : JValue :=
  match v with
  | JNull | JUndefined => JUndefined
  | _ => jprop v k
  end.

(** [v === "s"] for a string literal. *)
Definition isStr (v : JValue) (s : string) : bool :=
  match v with
  | JStr t => String.eqb t s
  | _ => false
  end.

(** [String(v)] and [ToPrimitive(v)] succeed. A value parsed from JSON has
    no callable property: an object converts exactly when it has no own
    [toString], so that it inherits the one of [Object.prototype], and an
    array converts through [join], which converts its elements. *)
Fixpoint convertible (v : JValue) : bool :=
  match v with
  | JArr xs => forallb convertible xs
  | JObj fs => match objGet "toString" fs with
               | Some _ => false
               | None => true
               end
  | _ => true
  end.

Definition conversionError : string := "Cannot convert object to primitive value".

(** ** Connection objects *)

Abbreviation Handle := nat (only parsing).
Abbreviation UserId := string (only parsing).

Inductive ReadyState := CONNECTING | OPEN | CLOSING | CLOSED.

Definition isOpen (r : ReadyState) : bool :=
  match r with OPEN => true | _ => false end.

(** The listeners that a connection handler attached with [ws.on]. *)
Inductive Wiring :=
| Unwired
| DeviceSocket
| ClientSocket (userId : UserId).

Record Socket := mkSocket {
  readyState : ReadyState;
  isAlive : option bool;        (* ws.isAlive; None is undefined *)
  sendThrows : bool;            (* fault injected by the environment: send() throws *)
  wiring : Wiring
}.

Definition closedSocket : Socket :=
  {| readyState := CLOSED; isAlive := None; sendThrows := false; wiring := Unwired |}.

(** ** Service state *)

Record Esp32Status := mkStatus {
  connected : bool;
  lastSeen : option Z;
  deviceInfo : JValue;
  sensorTypes : JValue;
  isStreaming : JValue
}.

Inductive Level := LWarn | LError.

Inductive Effect :=
| ESend (h : Handle) (msg : JValue)              (* h.send(JSON.stringify(msg)) went out *)
| EClose (h : Handle) (code : option (Z * string))
| ETerminate (h : Handle)
| EPing (h : Handle)
| ESave (doc : JValue)                           (* new SensorData(doc).save() *)
| EFind (query : JValue) (limit : JValue).       (* SensorData.find(query).sort(..).limit(limit) *)

(** A suspended [handleSensorData]: it awaits the save of [psDoc] and then
    broadcasts [psSensorData]. *)
Record PendingSave := mkPendingSave {
  psSensorData : list (string * JValue);
  psDoc : JValue
}.

(** A suspended [handleGetSensorData]: it awaits the query result. *)
Record PendingQuery := mkPendingQuery {
  pqUser : UserId;
  pqEcho : JValue
}.

Record State := mkState {
  clients : list (UserId * Handle);     (* this.clients *)
  esp32Client : option Handle;          (* this.esp32Client *)
  esp32Status : Esp32Status;            (* this.esp32Status *)
  sockets : gmap Handle Socket;         (* the ws objects *)
  nextHandle : Handle;
  pendingSaves : list PendingSave;
  pendingQueries : list PendingQuery;
  db : list JValue;                     (* readings the store accepted *)
  trace : list Effect;
  logs : list (Level * string)
}.

Definition heartbeatInterval : Z := 30000.
Definition esp32TimeoutInterval : Z := 60000.

(** The constructor. *)
Definition initialState : State :=
  {| clients := [];
     esp32Client := None;
     esp32Status := {| connected := false; lastSeen := None; deviceInfo := JNull;
                       sensorTypes := JArr []; isStreaming := JBool false |};
     sockets := ∅;
     nextHandle := 0%nat;
     pendingSaves := [];
     pendingQueries := [];
     db := [];
     trace := [];
     logs := [] |}.

Definition sockOf (s : State) (h : Handle) : Socket :=
  default closedSocket (sockets s !! h).

(** Field updates. *)
Definition setClients (c : list (UserId * Handle)) (s : State) : State :=
  mkState c (esp32Client s) (esp32Status s) (sockets s) (nextHandle s)
          (pendingSaves s) (pendingQueries s) (db s) (trace s) (logs s).
Definition setEsp32Client (d : option Handle) (s : State) : State :=
  mkState (clients s) d (esp32Status s) (sockets s) (nextHandle s)
          (pendingSaves s) (pendingQueries s) (db s) (trace s) (logs s).
Definition setStatus (st : Esp32Status) (s : State) : State :=
  mkState (clients s) (esp32Client s) st (sockets s) (nextHandle s)
          (pendingSaves s) (pendingQueries s) (db s) (trace s) (logs s).
Definition setSockets (m : gmap Handle Socket) (s : State) : State :=
  mkState (clients s) (esp32Client s) (esp32Status s) m (nextHandle s)
          (pendingSaves s) (pendingQueries s) (db s) (trace s) (logs s).
Definition setNextHandle (n : Handle) (s : State) : State :=
  mkState (clients s) (esp32Client s) (esp32Status s) (sockets s) n
          (pendingSaves s) (pendingQueries s) (db s) (trace s) (logs s).
Definition setPendingSaves (p : list PendingSave) (s : State) : State :=
  mkState (clients s) (esp32Client s) (esp32Status s) (sockets s) (nextHandle s)
          p (pendingQueries s) (db s) (trace s) (logs s).
Definition setPendingQueries (p : list PendingQuery) (s : State) : State :=
  mkState (clients s) (esp32Client s) (esp32Status s) (sockets s) (nextHandle s)
          (pendingSaves s) p (db s) (trace s) (logs s).
Definition setDb (d : list JValue) (s : State) : State :=
  mkState (clients s) (esp32Client s) (esp32Status s) (sockets s) (nextHandle s)
          (pendingSaves s) (pendingQueries s) d (trace s) (logs s).
Definition setTrace (t : list Effect) (s : State) : State :=
  mkState (clients s) (esp32Client s) (esp32Status s) (sockets s) (nextHandle s)
          (pendingSaves s) (pendingQueries s) (db s) t (logs s).
Definition setLogs (l : list (Level * string)) (s : State) : State :=
  mkState (clients s) (esp32Client s) (esp32Status s) (sockets s) (nextHandle s)
          (pendingSaves s) (pendingQueries s) (db s) (trace s) l.

Definition setConnected (b : bool) (st : Esp32Status) : Esp32Status :=
  mkStatus b (lastSeen st) (deviceInfo st) (sensorTypes st) (isStreaming st).
Definition setLastSeen (t : option Z) (st : Esp32Status) : Esp32Status :=
  mkStatus (connected st) t (deviceInfo st) (sensorTypes st) (isStreaming st).
Definition setDeviceInfo (v : JValue) (st : Esp32Status) : Esp32Status :=
  mkStatus (connected st) (lastSeen st) v (sensorTypes st) (isStreaming st).
Definition setSensorTypes (v : JValue) (st : Esp32Status) : Esp32Status :=
  mkStatus (connected st) (lastSeen st) (deviceInfo st) v (isStreaming st).
Definition setIsStreaming (v : JValue) (st : Esp32Status) : Esp32Status :=
  mkStatus (connected st) (lastSeen st) (deviceInfo st) (sensorTypes st) v.

(** The status record as it is serialised inside a message. *)
Definition statusJ (st : Esp32Status) : JValue :=
  JObj [("connected", JBool (connected st));
        ("lastSeen", match lastSeen st with Some t => JDate t | None => JNull end);
        ("deviceInfo", deviceInfo st);
        ("sensorTypes", sensorTypes st);
        ("isStreaming", isStreaming st)].

(** ** The monad of handlers *)

Inductive Outcome (A : Type) : Type :=
| Ret (a : A) (s : State)
| Throw (e : string) (s : State).
Arguments Ret {A} a s.
Arguments Throw {A} e s.

Definition M (A : Type) : Type := State -> Outcome A.

Definition ret {A} (a : A) : M A := fun s => Ret a s.
Definition throw {A} (e : string) : M A := fun s => Throw e s.
Definition bind {A B} (m : M A) (k : A -> M B) : M B :=
  fun s => match m s with
           | Ret a s' => k a s'
           | Throw e s' => Throw e s'
           end.
Definition tryCatch {A} (m : M A) (handler : string -> M A) : M A :=
  fun s => match m s with
           | Ret a s' => Ret a s'
           | Throw e s' => handler e s'
           end.
Definition gets {A} (f : State -> A) : M A := fun s => Ret (f s) s.
Definition modify (f : State -> State) : M unit := fun s => Ret tt (f s).

Notation "x <- m ;; k" := (bind m (fun x => k))
  (at level 100, m at next level, right associativity).
Notation "m ;;; k" := (bind m (fun _ => k))
  (at level 100, right associativity).

Definition finalState {A} (o : Outcome A) : State :=
  match o with Ret _ s => s | Throw _ s => s end.

(** The evaluation of a template literal [`...${v}...`] that is the argument
    of a [logger.info] or [logger.debug] call: its text is not kept, but the
    conversion of [v] to a string can throw. *)
Definition template (v : JValue) : M unit :=
  if convertible v then ret tt else throw conversionError.

Definition emit (e : Effect) : M unit :=
  modify (fun s => setTrace (trace s ++ [e]) s).
Definition logAt (l : Level) (msg : string) : M unit :=
  modify (fun s => setLogs (logs s ++ [(l, msg)]) s).
(** An assignment to a field of the connection object [h]. *)
Definition updSocket (h : Handle) (f : Socket -> Socket) : M unit :=
  modify (fun s => setSockets (alter f h (sockets s)) s).
Definition updStatus (f : Esp32Status -> Esp32Status) : M unit :=
  modify (fun s => setStatus (f (esp32Status s)) s).

(** ** The [ws] library, as the service uses it *)

Definition setReadyState (r : ReadyState) (k : Socket) : Socket :=
  mkSocket r (isAlive k) (sendThrows k) (wiring k).
Definition setIsAlive (a : option bool) (k : Socket) : Socket :=
  mkSocket (readyState k) a (sendThrows k) (wiring k).
Definition setSendThrows (b : bool) (k : Socket) : Socket :=
  mkSocket (readyState k) (isAlive k) b (wiring k).
Definition setWiring (w : Wiring) (k : Socket) : Socket :=
  mkSocket (readyState k) (isAlive k) (sendThrows k) w.

(** [h.send(JSON.stringify(msg))]: throws while connecting, is dropped after
    the closing handshake started, and otherwise goes out unless the
    environment makes it throw. *)
Definition wsSend (h : Handle) (msg : JValue) : M unit :=
  fun s =>
    match readyState (sockOf s h) with
    | CONNECTING => Throw "WebSocket is not open: readyState 0 (CONNECTING)" s
    | OPEN => if sendThrows (sockOf s h) then Throw "send failed" s
              else emit (ESend h msg) s
    | CLOSING | CLOSED => Ret tt s
    end.

Definition startClosing (k : Socket) : Socket :=
  match readyState k with
  | CONNECTING | OPEN => setReadyState CLOSING k
  | CLOSING | CLOSED => k
  end.

(** [h.close(code, reason)] *)
Definition wsClose (h : Handle) (code : option (Z * string)) : M unit :=
  emit (EClose h code) ;;; updSocket h startClosing.

(** [h.terminate()] *)
Definition wsTerminate (h : Handle) : M unit :=
  emit (ETerminate h) ;;; updSocket h startClosing.

(** [h.ping()] *)
Definition wsPing (h : Handle) : M unit :=
  fun s =>
    match readyState (sockOf s h) with
    | CONNECTING => Throw "WebSocket is not open: readyState 0 (CONNECTING)" s
    | OPEN => emit (EPing h) s
    | CLOSING | CLOSED => Ret tt s
    end.

(** ** The client registry ([Map] operations) *)

Fixpoint mapGet (k : UserId) (m : list (UserId * Handle)) : option Handle :=
  match m with
  | [] => None
  | (k', h) :: rest => if String.eqb k' k then Some h else mapGet k rest
  end.

Fixpoint mapSet (k : UserId) (h : Handle) (m : list (UserId * Handle))
  : list (UserId * Handle) :=
  match m with
  | [] => [(k, h)]
  | (k', h') :: rest =>
      if String.eqb k' k then (k', h) :: rest else (k', h') :: mapSet k h rest
  end.

Fixpoint mapDelete (k : UserId) (m : list (UserId * Handle))
  : list (UserId * Handle) :=
  match m with
  | [] => []
  | (k', h') :: rest =>
      if String.eqb k' k then mapDelete k rest else (k', h') :: mapDelete k rest
  end.

Definition addClient (userId : UserId) (ws : Handle) : M unit :=
  old <- gets (fun s => mapGet userId (clients s)) ;;
  match old with
  | Some prev => wsClose prev (Some (1001, "Duplicate connection"))
  | None => ret tt
  end ;;;
  modify (fun s => setClients (mapSet userId ws (clients s)) s).

Definition removeClient (userId : UserId) : M unit :=
  modify (fun s => setClients (mapDelete userId (clients s)) s).

(** ** Utility methods *)

Definition sendToESP32 (message : JValue) : M bool :=
  dev <- gets esp32Client ;;
  match dev with
  | Some h =>
      open <- gets (fun s => isOpen (readyState (sockOf s h))) ;;
      if open then
        tryCatch (wsSend h message ;;; ret true)
                 (fun e => logAt LError ("Error sending to ESP32: " +:+ e) ;;; ret false)
      else ret false
  | None => ret false
  end.

Definition sendToUser (userId : UserId) (data : JValue) : M bool :=
  client <- gets (fun s => mapGet userId (clients s)) ;;
  match client with
  | None => ret false
  | Some h =>
      open <- gets (fun s => isOpen (readyState (sockOf s h))) ;;
      if negb open then ret false
      else
        tryCatch (wsSend h data ;;; ret true)
                 (fun e =>
                    logAt LError ("Send error to " +:+ userId +:+ ": " +:+ e) ;;;
                    removeClient userId ;;;
                    ret false)
  end.

(** The body of [this.clients.forEach] in [broadcastToClients]. The callback
    deletes at most the entry it is visiting, so iterating the entries
    present when the loop starts visits what the live iteration visits. *)
Fixpoint broadcastLoop (data : JValue) (entries : list (UserId * Handle))
                       (successCount : nat) : M nat :=
  match entries with
  | [] => ret successCount
  | (userId, _) :: rest =>
      ok <- sendToUser userId data ;;
      broadcastLoop data rest (if ok then S successCount else successCount)
  end.

Definition broadcastToClients (data : JValue) : M nat :=
  entries <- gets clients ;;
  broadcastLoop data entries 0%nat.

(** ** Inbound frames *)

(** A frame is given by what the handlers observe of it. *)
Record Frame := mkFrame {
  isBuffer : bool;           (* data instanceof Buffer *)
  byteLength : Z;            (* data.length *)
  base64 : string;           (* data.toString("base64") *)
  parsed : option JValue     (* JSON.parse(data.toString()); None when it throws *)
}.

(** ** Device handlers *)

Definition handleDeviceInfo (now : Z) (message : JValue) : M unit :=
  tryCatch
    (updStatus (setDeviceInfo
       (JObj [("deviceName", jor (jprop message "deviceName") (JStr "ESP32-Sensor"));
              ("firmwareVersion", jor (jprop message "firmwareVersion") (JStr "unknown"));
              ("capabilities", jor (jprop message "capabilities") (JArr []));
              ("sensorTypes", jor (jprop message "sensorTypes") (JArr []));
              ("batteryLevel", jprop message "batteryLevel");
              ("signalStrength", jprop message "signalStrength")])) ;;;
     updStatus (setSensorTypes (jor (jprop message "sensorTypes") (JArr []))) ;;;
     info <- gets (fun s => deviceInfo (esp32Status s)) ;;
     broadcastToClients
       (JObj [("type", JStr "esp32-device-info");
              ("deviceInfo", info);
              ("timestamp", JIso now)]) ;;;
     ret tt)
    (fun e => logAt LError ("Error handling device info: " +:+ e)).

(** The object literal at the head of [handleSensorData]. *)
Definition buildSensorData (now : Z) (message : JValue) : list (string * JValue) :=
  spread message
    [("timestamp", JDate now);
     ("sensorType", jor (jprop message "sensorType") (JStr "unknown"));
     ("data", jor (jprop message "data") (JObj []));
     ("deviceId", JStr "esp32-main")].

(** The argument of [new SensorData(...)] in [saveSensorDataToDatabase]. *)
Definition buildReading (st : Esp32Status) (sensorData : list (string * JValue)) : JValue :=
  JObj [("deviceId", jprop (JObj sensorData) "deviceId");
        ("sensorType", jprop (JObj sensorData) "sensorType");
        ("data", jprop (JObj sensorData) "data");
        ("timestamp", jprop (JObj sensorData) "timestamp");
        ("metadata",
         JObj [("batteryLevel", optChain (deviceInfo st) "batteryLevel");
               ("signalStrength", optChain (deviceInfo st) "signalStrength")])].

(** [saveSensorDataToDatabase] up to [await newSensorData.save()]: the call
    is issued and the caller is suspended. *)
Definition saveSensorDataToDatabase (sensorData : list (string * JValue)) : M unit :=
  tryCatch
    (st <- gets esp32Status ;;
     let doc := buildReading st sensorData in
     emit (ESave doc) ;;;
     modify (fun s => setPendingSaves (pendingSaves s ++ [mkPendingSave sensorData doc]) s))
    (fun e => logAt LError ("Failed to save sensor data to database: " +:+ e)).

(** [handleSensorData] up to [await this.saveSensorDataToDatabase(...)]. *)
Definition handleSensorData (now : Z) (message : JValue) : M unit :=
  tryCatch
    (saveSensorDataToDatabase (buildSensorData now message))
    (fun e => logAt LError ("Error handling sensor data: " +:+ e)).

(** The message that [handleSensorData] broadcasts. *)
Definition sensorBroadcast (sensorData : list (string * JValue)) : JValue :=
  JObj (spread (JObj sensorData) [("type", JStr "sensor-data")]).

(** The rest of both functions, run when the save of the [i]-th suspended
    call settles; [failure] is the error of a rejected save. Each function
    ends with a debug line that prints the sensor type of the reading. *)
Definition resumeSensorData (i : nat) (failure : option string) : M unit :=
  p <- gets (fun s => pendingSaves s !! i) ;;
  match p with
  | None => ret tt
  | Some p =>
      let sensorType := jprop (JObj (psSensorData p)) "sensorType" in
      modify (fun s => setPendingSaves (delete i (pendingSaves s)) s) ;;;
      tryCatch
        (match failure with
         | None => modify (fun s => setDb (db s ++ [psDoc p]) s) ;;; template sensorType
         | Some e => throw e
         end)
        (fun e => logAt LError ("Failed to save sensor data to database: " +:+ e)) ;;;
      tryCatch
        (broadcastToClients (sensorBroadcast (psSensorData p)) ;;;
         template sensorType)
        (fun e => logAt LError ("Error handling sensor data: " +:+ e))
  end.

Definition handleStatusUpdate (now : Z) (message : JValue) : M unit :=
  tryCatch
    (updStatus (setIsStreaming (jor (jprop message "isStreaming") (JBool false))) ;;;
     updStatus (fun st =>
       setDeviceInfo
         (JObj (objSet "status" (jor (jprop message "status") (JStr "online"))
                  (objSet "signalStrength" (jprop message "signalStrength")
                     (objSet "batteryLevel" (jprop message "batteryLevel")
                        (spread (deviceInfo st) []))))) st) ;;;
     template message ;;;
     st <- gets esp32Status ;;
     broadcastToClients
       (JObj [("type", JStr "esp32-status-update");
              ("status", statusJ st);
              ("timestamp", JIso now)]) ;;;
     ret tt)
    (fun e => logAt LError ("Error handling status update: " +:+ e)).

Definition handleESP32Disconnect (now : Z) : M unit :=
  modify (setEsp32Client None) ;;;
  updStatus (setConnected false) ;;;
  updStatus (setIsStreaming (JBool false)) ;;;
  broadcastToClients
    (JObj [("type", JStr "esp32-status");
           ("status", JStr "disconnected");
           ("timestamp", JIso now)]) ;;;
  ret tt.

Definition handleESP32Message (now : Z) (data : Frame) : M unit :=
  tryCatch
    (updStatus (setLastSeen (Some now)) ;;;
     if isBuffer data then
       broadcastToClients
         (JObj [("type", JStr "audio-data");
                ("timestamp", JIso now);
                ("dataSize", JNum (byteLength data));
                ("data", JStr (base64 data))]) ;;;
       ret tt
     else
       match parsed data with
       | None => throw "Unexpected token in JSON"
       | Some JNull => throw "Cannot read properties of null (reading 'type')"
       | Some message =>
           let type := jprop message "type" in
           template type ;;;
           if isStr type "device-info" then handleDeviceInfo now message
           else if isStr type "sensor-data" then handleSensorData now message
           else if isStr type "status-update" then handleStatusUpdate now message
           else if isStr type "ping" then
             sendToESP32 (JObj [("type", JStr "pong"); ("timestamp", JNum now)]) ;;; ret tt
           else ret tt
       end)
    (fun e => logAt LError ("ESP32 message handling error: " +:+ e)).

Definition handleESP32Connection (now : Z) (ws : Handle) : M unit :=
  cur <- gets esp32Client ;;
  match cur with
  | Some old =>
      open <- gets (fun s => isOpen (readyState (sockOf s old))) ;;
      if open then
        logAt LWarn "ESP32 already connected, closing previous connection" ;;;
        wsClose old None
      else ret tt
  | None => ret tt
  end ;;;
  modify (setEsp32Client (Some ws)) ;;;
  updStatus (setConnected true) ;;;
  updStatus (setLastSeen (Some now)) ;;;
  sendToESP32 (JObj [("type", JStr "connection-established");
                     ("serverTime", JIso now)]) ;;;
  broadcastToClients
    (JObj [("type", JStr "esp32-status");
           ("status", JStr "connected");
           ("timestamp", JIso now)]) ;;;
  updSocket ws (setWiring DeviceSocket).

(** ** Client handlers *)

Definition handleClientConnection (now : Z) (ws : Handle) (userId : UserId) : M unit :=
  st <- gets esp32Status ;;
  wsSend ws (JObj [("type", JStr "connection");
                   ("status", JStr "authenticated");
                   ("userId", JStr userId);
                   ("esp32Status", statusJ st);
                   ("timestamp", JIso now)]) ;;;
  addClient userId ws ;;;
  updSocket ws (setIsAlive (Some true)) ;;;
  updSocket ws (setWiring (ClientSocket userId)).

(** [new Date(x)]: an object is first converted to a primitive. *)
Definition newDate (x : JValue) : string + JValue :=
  if convertible x then inr (JDateOf x) else inl conversionError.

(** [if (x) range.k = new Date(x)] *)
Definition withDate (x : JValue) (k : string) (range : list (string * JValue))
  : string + list (string * JValue) :=
  if truthy x then
    match newDate x with
    | inl e => inl e
    | inr d => inr (objSet k d range)
    end
  else inr range.

(** The filter built by [handleGetSensorData], or the error thrown while it
    is built. *)
Definition buildQuery (message : JValue) : string + JValue :=
  let sensorType := jprop message "sensorType" in
  let startDate := jprop message "startDate" in
  let endDate := jprop message "endDate" in
  let q0 := [("deviceId", JStr "esp32-main")] in
  let q1 := if truthy sensorType && negb (isStr sensorType "all")
            then objSet "sensorType" sensorType q0 else q0 in
  if truthy startDate || truthy endDate
  then
    match withDate startDate "$gte" [] with
    | inl e => inl e
    | inr t1 =>
        match withDate endDate "$lte" t1 with
        | inl e => inl e
        | inr t2 => inr (JObj (objSet "timestamp" (JObj t2) q1))
        end
    end
  else inr (JObj q1).

Definition queryFailed (userId : UserId) (e : string) : M unit :=
  logAt LError ("Error getting sensor data: " +:+ e) ;;;
  sendToUser userId (JObj [("type", JStr "error");
                           ("message", JStr "Failed to retrieve sensor data")]) ;;;
  ret tt.

(** [handleGetSensorData] up to [await SensorData.find(...)]. *)
Definition handleGetSensorData (userId : UserId) (message : JValue) : M unit :=
  tryCatch
    (let limit := match jprop message "limit" with
                  | JUndefined => JNum 100
                  | v => v
                  end in
     match buildQuery message with
     | inl e => throw e
     | inr query =>
         emit (EFind query limit) ;;;
         modify (fun s =>
           setPendingQueries
             (pendingQueries s ++
                [mkPendingQuery userId
                   (JObj [("sensorType", jprop message "sensorType");
                          ("limit", limit);
                          ("startDate", jprop message "startDate");
                          ("endDate", jprop message "endDate")])]) s)
     end)
    (queryFailed userId).

(** The rest of [handleGetSensorData], run when the [i]-th suspended query
    settles with the found readings or with an error. *)
Definition resumeGetSensorData (i : nat) (result : JValue + string) : M unit :=
  q <- gets (fun s => pendingQueries s !! i) ;;
  match q with
  | None => ret tt
  | Some q =>
      modify (fun s => setPendingQueries (delete i (pendingQueries s)) s) ;;;
      match result with
      | inl found =>
          tryCatch
            (sendToUser (pqUser q)
               (JObj [("type", JStr "sensor-data-history");
                      ("data", found);
                      ("query", pqEcho q)]) ;;;
             ret tt)
            (queryFailed (pqUser q))
      | inr e => queryFailed (pqUser q) e
      end
  end.

Definition handleControlESP32 (now : Z) (userId : UserId) (message : JValue) : M unit :=
  tryCatch
    (let command := jprop message "command" in
     let parameters := jprop message "parameters" in
     dev <- gets esp32Client ;;
     live <- gets (fun s => match dev with
                            | Some h => isOpen (readyState (sockOf s h))
                            | None => false
                            end) ;;
     if negb live then
       sendToUser userId (JObj [("type", JStr "error");
                                ("message", JStr "ESP32 not connected")]) ;;;
       ret tt
     else
       sendToESP32 (JObj [("type", JStr "command");
                          ("command", command);
                          ("parameters", jor parameters (JObj []));
                          ("requestId", JStr ("cmd_" +:+ pretty now));
                          ("fromUserId", JStr userId)]) ;;;
       sendToUser userId (JObj [("type", JStr "command-sent");
                                ("command", command);
                                ("timestamp", JIso now)]) ;;;
       template command)
    (fun e => logAt LError ("Error controlling ESP32: " +:+ e)).

Definition handleClientMessage (now : Z) (ws : Handle) (userId : UserId)
                               (data : Frame) : M unit :=
  tryCatch
    (match parsed data with
     | None => throw "Unexpected token in JSON"
     | Some JNull => throw "Cannot read properties of null (reading 'type')"
     | Some message =>
         let type := jprop message "type" in
         template type ;;;
         if isStr type "ping" then
           wsSend ws (JObj [("type", JStr "pong"); ("timestamp", JNum now)])
         else if isStr type "get-esp32-status" then
           st <- gets esp32Status ;;
           sendToUser userId (JObj [("type", JStr "esp32-status-response");
                                    ("status", statusJ st)]) ;;;
           ret tt
         else if isStr type "get-sensor-data" then handleGetSensorData userId message
         else if isStr type "control-esp32" then handleControlESP32 now userId message
         else ret tt
     end)
    (fun e => logAt LError ("Client message handling error: " +:+ e)).

(** ** Timers *)

Definition checkESP32Status (now : Z) : M unit :=
  st <- gets esp32Status ;;
  match connected st, lastSeen st with
  | true, Some seen =>
      if now - seen >? esp32TimeoutInterval then
        logAt LWarn "ESP32 appears to be offline (timeout)" ;;;
        updStatus (setConnected false) ;;;
        broadcastToClients
          (JObj [("type", JStr "esp32-status");
                 ("status", JStr "offline");
                 ("lastSeen", JDate seen);
                 ("timestamp", JIso now)]) ;;;
        ret tt
      else ret tt
  | _, _ => ret tt
  end.

(** The body of [this.clients.forEach] in the heartbeat callback; it does not
    change the registry. *)
Fixpoint heartbeatLoop (entries : list (UserId * Handle)) : M unit :=
  match entries with
  | [] => ret tt
  | (userId, ws) :: rest =>
      alive <- gets (fun s => isAlive (sockOf s ws)) ;;
      match alive with
      | Some false =>
          logAt LWarn ("Terminating unresponsive client: " +:+ userId) ;;;
          wsTerminate ws
      | _ =>
          updSocket ws (setIsAlive (Some false)) ;;;
          wsPing ws
      end ;;;
      heartbeatLoop rest
  end.

Definition heartbeat : M unit :=
  entries <- gets clients ;;
  heartbeatLoop entries ;;;
  dev <- gets esp32Client ;;
  match dev with
  | Some h =>
      open <- gets (fun s => isOpen (readyState (sockOf s h))) ;;
      if open then wsPing h else ret tt
  | None => ret tt
  end.

(** ** Events of the service *)

Inductive Event :=
| EvConnection (path : string) (user : option UserId)
    (* wss "connection": the request's pathname and request.user?.id *)
| EvMessage (h : Handle) (data : Frame)
| EvPong (h : Handle)
| EvClose (h : Handle)
| EvError (h : Handle) (err : string)
| EvHeartbeat                            (* the pingInterval timer fires *)
| EvStatusCheck                          (* the statusCheckInterval timer fires *)
| EvSaveSettled (i : nat) (failure : option string)
| EvQuerySettled (i : nat) (result : JValue + string)
| EvSendFault (h : Handle) (b : bool).   (* the environment breaks or repairs send() on h *)

(** The "connection" listener of [setupEventHandlers], on a new [ws]. *)
Definition onConnection (now : Z) (path : string) (user : option UserId) : M unit :=
  ws <- gets nextHandle ;;
  modify (fun s =>
    setNextHandle (S ws)
      (setSockets (<[ws := mkSocket OPEN None false Unwired]> (sockets s)) s)) ;;;
  if String.eqb path "/esp32" then handleESP32Connection now ws
  else
    match user with
    | Some userId =>
        if String.eqb userId "" then wsClose ws (Some (1008, "Authentication failed"))
        else handleClientConnection now ws userId
    | None => wsClose ws (Some (1008, "Authentication failed"))
    end.

(** The listeners attached to a socket; a closed socket emits nothing. *)
Definition onSocket (h : Handle) (device : M unit) (client : UserId -> M unit) : M unit :=
  k <- gets (fun s => sockOf s h) ;;
  match readyState k with
  | CLOSED => ret tt
  | _ =>
      match wiring k with
      | Unwired => ret tt
      | DeviceSocket => device
      | ClientSocket userId => client userId
      end
  end.

(** A connection object that is not closed and has no listeners: an
    [error] event on it is thrown by the emitter, and nothing catches it. *)
Definition unheard (k : Socket) : bool :=
  match readyState k, wiring k with
  | CLOSED, _ => false
  | _, Unwired => true
  | _, _ => false
  end.

Definition step (now : Z) (ev : Event) : M unit :=
  match ev with
  | EvConnection path user => onConnection now path user
  | EvMessage h data =>
      onSocket h (handleESP32Message now data)
                 (fun userId => handleClientMessage now h userId data)
  | EvPong h =>
      onSocket h (updStatus (setLastSeen (Some now)))
                 (fun _ => updSocket h (setIsAlive (Some true)))
  | EvClose h =>
      onSocket h (updSocket h (setReadyState CLOSED) ;;; handleESP32Disconnect now)
                 (fun userId => updSocket h (setReadyState CLOSED) ;;; removeClient userId)
  | EvError h err =>
      k <- gets (fun s => sockOf s h) ;;
      if unheard k then throw err
      else
        onSocket h (updSocket h startClosing ;;;
                    logAt LError ("ESP32 error: " +:+ err) ;;;
                    handleESP32Disconnect now)
                   (fun userId =>
                      updSocket h startClosing ;;;
                      logAt LError ("Client error " +:+ userId +:+ ": " +:+ err) ;;;
                      removeClient userId)
  | EvHeartbeat => heartbeat
  | EvStatusCheck => checkESP32Status now
  | EvSaveSettled i failure => resumeSensorData i failure
  | EvQuerySettled i result => resumeGetSensorData i result
  | EvSendFault h b => updSocket h (setSendThrows b)
  end.

(** States of the service: from the constructor, by any events at any
    instants; an event whose handler throws leaves the state it reached.
    The one throw that nothing catches, an [error] event without a
    listener, ends the process; the states after it are kept here, which
    only adds states. *)
Inductive reachable : State -> Prop :=
| reach_init : reachable initialState
| reach_step s now ev : reachable s -> reachable (finalState (step now ev s)).

Fixpoint runEvents (evs : list (Z * Event)) (s : State) : State :=
  match evs with
  | [] => s
  | (now, ev) :: rest => runEvents rest (finalState (step now ev s))
  end.

(** ** The upgrade handshake *)

Module Upgrade.

Record Url := mkUrl {
  pathname : string;
  tokenParam : option string         (* url.searchParams.get("token") *)
}.

Record Request := mkRequest {
  url : option Url;                  (* new URL(request.url, ...); None when it throws *)
  origin : option string;            (* request.headers.origin *)
  secWebsocketProtocol : option string;
  authorization : option string
}.

(** A call to the credential verifier. *)
Inductive VerifierCall :=
| JwtVerify (token : string)
| FindById (id : JValue).

Inductive UpgradeResult :=
| Upgraded (user : option UserId)    (* wss.handleUpgrade, then "connection" *)
| Unauthorized (error : string)      (* socket.end("HTTP/1.1 401 Unauthorized") *)
| Destroyed (error : string).        (* handleUpgrade rejected: socket.destroy() *)

(** What becomes of the request. *)
Inductive Decision :=
| DeviceConnection
| ClientConnection (userId : UserId)
| Rejected.

(** The pieces of [s] between occurrences of [sep]. *)
Fixpoint split (sep : Ascii.ascii) (s : string) : list string :=
  match s with
  | EmptyString => [EmptyString]
  | String c rest =>
      if Ascii.eqb c sep then EmptyString :: split sep rest
      else match split sep rest with
           | [] => [String c EmptyString]
           | p :: ps => String c p :: ps
           end
  end.

Definition nonEmpty (o : option string) : option string :=
  match o with
  | Some s => if String.eqb s "" then None else Some s
  | None => None
  end.

Section Config.
Variable nodeEnv : option string.                    (* process.env.NODE_ENV *)
Variable corsAllowedOrigins : option (list string).  (* config.cors?.allowedOrigins *)
Variable serverHost serverPort : string.             (* config.server *)
Variable jwtVerify : string -> string + JValue.      (* jwt.verify with the secret *)
Variable findById : JValue -> string + option UserId. (* User.findById, then .id *)

Definition allowedOrigins : list string :=
  default [] corsAllowedOrigins ++
  ["http://" +:+ serverHost +:+ ":" +:+ serverPort; "http://localhost:3000"].

Definition includes (x : string) (l : list string) : bool :=
  existsb (String.eqb x) l.

Definition isOriginAllowed (o : option string) : bool :=
  match nonEmpty o with
  | None => true
  | Some org =>
      if bool_decide (nodeEnv = Some "development") then true
      else includes org allowedOrigins || includes "*" allowedOrigins
  end.

Definition extractToken (request : Request) : option string :=
  match url request with
  | None => None
  | Some u =>
      match nonEmpty (tokenParam u) with
      | Some t => Some t
      | None =>
          match nonEmpty (secWebsocketProtocol request) with
          | Some t => Some t
          | None =>
              match authorization request with
              | Some a => nonEmpty (split " "%char a !! 1%nat)
              | None => None
              end
          end
      end
  end.

(** [verifyClient]: the [{ user }] or [{ error }] it resolves to, and the
    calls it made to the verifier. *)
Definition verifyClient (request : Request)
  : (string + option UserId) * list VerifierCall :=
  if negb (isOriginAllowed (origin request)) then (inl "Origin not allowed", [])
  else
    match extractToken request with
    | None => (inl "No token provided", [])
    | Some token =>
        match jwtVerify token with
        | inl e => (inl e, [JwtVerify token])
        | inr decoded =>
            if negb (truthy (optChain decoded "id"))
            then (inl "Invalid token payload", [JwtVerify token])
            else
              match findById (jprop decoded "id") with
              | inl e => (inl e, [JwtVerify token; FindById (jprop decoded "id")])
              | inr user => (inr user, [JwtVerify token; FindById (jprop decoded "id")])
              end
        end
    end.

Definition handleUpgrade (request : Request) : UpgradeResult * list VerifierCall :=
  match url request with
  | None => (Destroyed "Invalid URL", [])
  | Some u =>
      if String.eqb (pathname u) "/esp32" then (Upgraded None, [])
      else
        match verifyClient request with
        | (inl e, calls) => (Unauthorized e, calls)
        | (inr None, calls) => (Unauthorized "undefined", calls)
        | (inr (Some user), calls) => (Upgraded (Some user), calls)
        end
  end.

(** The handshake followed by the "connection" listener's classification. *)
Definition decide_upgrade (request : Request) : Decision :=
  match url request, handleUpgrade request with
  | Some u, (Upgraded user, _) =>
      if String.eqb (pathname u) "/esp32" then DeviceConnection
      else match nonEmpty user with
           | Some userId => ClientConnection userId
           | None => Rejected
           end
  | _, _ => Rejected
  end.

End Config.
End Upgrade.

(** ** Vocabulary of the statements *)

Definition sockAt (σ : gmap Handle Socket) (h : Handle) : Socket :=
  default closedSocket (σ !! h).

(** A registry entry on which [sendToUser] calls [send]: its socket is open. *)
Definition attempted (σ : gmap Handle Socket) (e : UserId * Handle) : bool :=
  isOpen (readyState (sockAt σ e.2)).

(** An entry whose [send] goes out. *)
Definition delivered (σ : gmap Handle Socket) (e : UserId * Handle) : bool :=
  attempted σ e && negb (sendThrows (sockAt σ e.2)).

(** An entry whose [send] throws. *)
Definition failing (σ : gmap Handle Socket) (e : UserId * Handle) : bool :=
  attempted σ e && sendThrows (sockAt σ e.2).

Definition sendErrorLog (e : UserId * Handle) : Level * string :=
  (LError, "Send error to " +:+ e.1 +:+ ": " +:+ "send failed").

(** The state that a broadcast of [data] leaves. *)
Definition afterBroadcast (data : JValue) (s : State) : State :=
  mkState (List.filter (fun e => negb (failing (sockets s) e)) (clients s))
          (esp32Client s) (esp32Status s) (sockets s) (nextHandle s)
          (pendingSaves s) (pendingQueries s) (db s)
          (trace s ++ map (fun e => ESend e.2 data)
                          (List.filter (delivered (sockets s)) (clients s)))
          (logs s ++ map sendErrorLog (List.filter (failing (sockets s)) (clients s))).

(** [m] relates every start state to the state it ends in, whether it
    returns or throws. *)
Definition mrel {A} (R : State -> State -> Prop) (m : M A) : Prop :=
  forall s, R s (finalState (m s)).

(** [m] returns normally, and in a related state. *)
Definition mreturns {A} (R : State -> State -> Prop) (m : M A) : Prop :=
  forall s, exists a s', m s = Ret a s' /\ R s s'.

(** What the send utilities leave alone: they extend the trace and the log
    and may drop registry entries. *)
Record sendFrame (s s' : State) : Prop := mkSendFrame {
  sf_device : esp32Client s' = esp32Client s;
  sf_status : esp32Status s' = esp32Status s;
  sf_sockets : sockets s' = sockets s;
  sf_next : nextHandle s' = nextHandle s;
  sf_saves : pendingSaves s' = pendingSaves s;
  sf_queries : pendingQueries s' = pendingQueries s;
  sf_db : db s' = db s;
  sf_clients : sublist (clients s') (clients s);
  sf_trace : trace s `prefix_of` trace s';
  sf_logs : logs s `prefix_of` logs s'
}.

(** The messages named in the statements. *)
Definition offlineStatus (now seen : Z) : JValue :=
  JObj [("type", JStr "esp32-status");
        ("status", JStr "offline");
        ("lastSeen", JDate seen);
        ("timestamp", JIso now)].

Definition notConnectedError : JValue :=
  JObj [("type", JStr "error"); ("message", JStr "ESP32 not connected")].

Definition commandEnvelope (now : Z) (userId : UserId) (message : JValue) : JValue :=
  JObj [("type", JStr "command");
        ("command", jprop message "command");
        ("parameters", jor (jprop message "parameters") (JObj []));
        ("requestId", JStr ("cmd_" +:+ pretty now));
        ("fromUserId", JStr userId)].

Definition commandSent (now : Z) (message : JValue) : JValue :=
  JObj [("type", JStr "command-sent");
        ("command", jprop message "command");
        ("timestamp", JIso now)].

(** [this.esp32Client && this.esp32Client.readyState === WebSocket.OPEN] *)
Definition deviceOpen (s : State) : bool :=
  match esp32Client s with
  | Some d => isOpen (readyState (sockOf s d))
  | None => false
  end.

(** The status does not become connected. *)
Definition connStays (s s' : State) : Prop :=
  connected (esp32Status s') = true -> connected (esp32Status s) = true.

(** [connected] and [lastSeen] are as before. *)
Definition presenceKept (s s' : State) : Prop :=
  connected (esp32Status s') = connected (esp32Status s) /\
  lastSeen (esp32Status s') = lastSeen (esp32Status s).

(** The events other than a connection on the device path. *)
Definition registersDevice (ev : Event) : bool :=
  match ev with
  | EvConnection path _ => String.eqb path "/esp32"
  | _ => false
  end.

(** The handles held by the device slot. *)
Definition registeredDevices (s : State) : list Handle :=
  match esp32Client s with
  | Some d => [d]
  | None => []
  end.

(** ** Well-formed states *)

(** What relates the registry, the device slot and the connection objects
    in a state of the running service. *)
Record wfState (s : State) : Prop := mkWf {
  wf_users : NoDup (clients s).*1;
  wf_handles : NoDup (clients s).*2;
  wf_clients : forall u h, (u, h) ∈ clients s ->
    exists k, sockets s !! h = Some k /\ wiring k = ClientSocket u /\ readyState k <> CLOSED;
  wf_sockets : forall h k, sockets s !! h = Some k ->
    (h < nextHandle s)%nat /\ readyState k <> CONNECTING;
  wf_device : forall d, esp32Client s = Some d ->
    exists k, sockets s !! d = Some k /\ wiring k = DeviceSocket
}.

(** How a connection object may change while its listeners stay: it keeps
    its wiring, does not go back to connecting and is not closed. *)
Definition socketStep (o o' : option Socket) : Prop :=
  match o, o' with
  | Some k, Some k' =>
      wiring k' = wiring k /\
      (readyState k' = CONNECTING -> readyState k = CONNECTING) /\
      (readyState k' = CLOSED -> readyState k = CLOSED)
  | None, None => True
  | _, _ => False
  end.

Definition socketsStep (σ σ' : gmap Handle Socket) : Prop :=
  forall h, socketStep (σ !! h) (σ' !! h).

(** What every handler does, the connection listener and the close
    listeners apart: entries may leave the registry, the device slot may be
    emptied, and connection objects change as [socketStep] allows. *)
Record quiet (s s' : State) : Prop := mkQuiet {
  q_clients : sublist (clients s') (clients s);
  q_next : nextHandle s' = nextHandle s;
  q_device : esp32Client s' = esp32Client s \/ esp32Client s' = None;
  q_sockets : socketsStep (sockets s) (sockets s')
}.

(** [new ws] in the "connection" listener. *)
Definition allocated (s : State) : State :=
  setNextHandle (S (nextHandle s))
    (setSockets (<[nextHandle s := mkSocket OPEN None false Unwired]> (sockets s)) s).

(** ** One heartbeat cycle, entry by entry *)

(** What the cycle does to the connection object of a registry entry. *)
Definition heartbeatSocket (k : Socket) : Socket :=
  match isAlive k with
  | Some false => startClosing k
  | _ => setIsAlive (Some false) k
  end.

(** What the cycle sends for a registry entry. *)
Definition heartbeatEffects (σ : gmap Handle Socket) (e : UserId * Handle) : list Effect :=
  match isAlive (sockAt σ e.2) with
  | Some false => [ETerminate e.2]
  | _ => if isOpen (readyState (sockAt σ e.2)) then [EPing e.2] else []
  end.

Definition heartbeatLogs (σ : gmap Handle Socket) (e : UserId * Handle)
  : list (Level * string) :=
  match isAlive (sockAt σ e.2) with
  | Some false => [(LWarn, "Terminating unresponsive client: " +:+ e.1)]
  | _ => []
  end.

Definition afterHeartbeatLoop (l : list (UserId * Handle)) (s : State) : State :=
  mkState (clients s) (esp32Client s) (esp32Status s)
          (foldl (fun σ e => alter heartbeatSocket e.2 σ) (sockets s) l)
          (nextHandle s) (pendingSaves s) (pendingQueries s) (db s)
          (trace s ++ flat_map (heartbeatEffects (sockets s)) l)
          (logs s ++ flat_map (heartbeatLogs (sockets s)) l).

(** ** Vocabulary of the further statements *)

(** The [case] labels of the two routers. *)
Definition knownDeviceType (v : JValue) : bool :=
  isStr v "device-info" || isStr v "sensor-data" || isStr v "status-update" || isStr v "ping".

Definition knownClientType (v : JValue) : bool :=
  isStr v "ping" || isStr v "get-esp32-status" || isStr v "get-sensor-data"
  || isStr v "control-esp32".

(** A frame that a router drops: it does not parse, parses to [null], or
    has a type that is no [case] label. *)
Definition droppedBy (known : JValue -> bool) (data : Frame) : Prop :=
  match parsed data with
  | None | Some JNull => True
  | Some message => known (jprop message "type") = false
  end.

Definition audioMessage (now : Z) (data : Frame) : JValue :=
  JObj [("type", JStr "audio-data");
        ("timestamp", JIso now);
        ("dataSize", JNum (byteLength data));
        ("data", JStr (base64 data))].

(** What a client frame leaves alone. *)
Record clientFrame (s s' : State) : Prop := mkClientFrame {
  cf_device : esp32Client s' = esp32Client s;
  cf_status : esp32Status s' = esp32Status s;
  cf_sockets : sockets s' = sockets s;
  cf_next : nextHandle s' = nextHandle s;
  cf_saves : pendingSaves s' = pendingSaves s;
  cf_db : db s' = db s;
  cf_clients : sublist (clients s') (clients s)
}.

(** The greeting of [handleClientConnection]. *)
Definition greeting (now : Z) (userId : UserId) (st : Esp32Status) : JValue :=
  JObj [("type", JStr "connection");
        ("status", JStr "authenticated");
        ("userId", JStr userId);
        ("esp32Status", statusJ st);
        ("timestamp", JIso now)].

Definition duplicateClose : option (Z * string) := Some (1001, "Duplicate connection").

(** The record that [handleDeviceInfo] stores for a message. *)
Definition deviceInfoOf (message : JValue) : JValue :=
  JObj [("deviceName", jor (jprop message "deviceName") (JStr "ESP32-Sensor"));
        ("firmwareVersion", jor (jprop message "firmwareVersion") (JStr "unknown"));
        ("capabilities", jor (jprop message "capabilities") (JArr []));
        ("sensorTypes", jor (jprop message "sensorTypes") (JArr []));
        ("batteryLevel", jprop message "batteryLevel");
        ("signalStrength", jprop message "signalStrength")].

Definition deviceInfoMessage (now : Z) (info : JValue) : JValue :=
  JObj [("type", JStr "esp32-device-info");
        ("deviceInfo", info);
        ("timestamp", JIso now)].

Definition statusUpdateMessage (now : Z) (st : Esp32Status) : JValue :=
  JObj [("type", JStr "esp32-status-update");
        ("status", statusJ st);
        ("timestamp", JIso now)].

(** A device-info record as the handlers leave it: [null] or an object. *)
Definition infoShaped (v : JValue) : Prop :=
  match v with
  | JNull => True
  | JObj fs => NoDup fs.*1
  | _ => False
  end.

(** [limit = 100] in the destructuring of [handleGetSensorData]. *)
Definition limitOf (message : JValue) : JValue :=
  match jprop message "limit" with
  | JUndefined => JNum 100
  | v => v
  end.

Definition queryEcho (message : JValue) : JValue :=
  JObj [("sensorType", jprop message "sensorType");
        ("limit", limitOf message);
        ("startDate", jprop message "startDate");
        ("endDate", jprop message "endDate")].

Definition historyReply (found echo : JValue) : JValue :=
  JObj [("type", JStr "sensor-data-history"); ("data", found); ("query", echo)].

Definition historyError : JValue :=
  JObj [("type", JStr "error"); ("message", JStr "Failed to retrieve sensor data")].

(** A string without the character [c]. *)
Fixpoint lacks (c : Ascii.ascii) (s : string) : bool :=
  match s with
  | EmptyString => true
  | String d rest => negb (Ascii.eqb d c) && lacks c rest
  end.

(** [lastSeen] is not reset to [null]. *)
Definition seenStays (s s' : State) : Prop :=
  is_Some (lastSeen (esp32Status s)) -> is_Some (lastSeen (esp32Status s')).

Definition disconnectedStatus (now : Z) : JValue :=
  JObj [("type", JStr "esp32-status");
        ("status", JStr "disconnected");
        ("timestamp", JIso now)].

(** ** Cleanup *)

(** The body of [this.clients.forEach] in [shutdown]. *)
Fixpoint closeLoop (entries : list (UserId * Handle)) : M unit :=
  match entries with
  | [] => ret tt
  | (_, client) :: rest => wsClose client None ;;; closeLoop rest
  end.

(** [shutdown]. Its two [clearInterval] calls end the timer events, which
    come from outside the state; what it does to the state is the close
    calls. *)
Definition shutdown : M unit :=
  dev <- gets esp32Client ;;
  match dev with
  | Some d => wsClose d None
  | None => ret tt
  end ;;;
  entries <- gets clients ;;
  closeLoop entries.

(** The [close()] calls of [shutdown], in order. *)
Definition shutdownCloses (s : State) : list Effect :=
  match esp32Client s with
  | Some d => [EClose d None]
  | None => []
  end ++ map (fun e => EClose e.2 None) (clients s).

(** A connection object that [shutdown] closes. *)
Definition closedByShutdown (s : State) (h : Handle) : Prop :=
  esp32Client s = Some h \/ h ∈ (clients s).*2.

(** ** Accounting of the saves *)

Definition isSave (e : Effect) : bool :=
  match e with
  | ESave _ => true
  | _ => false
  end.

(** The [save()] calls made so far. *)
Definition savesIssued (s : State) : nat := length (List.filter isSave (trace s)).

(** The saves that the state holds: stored readings and saves still awaited. *)
Definition savesHeld (s : State) : nat := (length (db s) + length (pendingSaves s))%nat.

(** From [s] to [s'] the state took up no more saves than were issued. *)
Definition savesCover (s s' : State) : Prop :=
  (savesHeld s' + savesIssued s <= savesHeld s + savesIssued s')%nat.

(** The sends of the broadcast that a settled save [p] brings about, and
    what it stores. *)
Definition settledSends (s : State) (p : PendingSave) : list Effect :=
  map (fun e => ESend e.2 (sensorBroadcast (psSensorData p)))
      (List.filter (delivered (sockets s)) (clients s)).

Definition settledStore (failure : option string) (p : PendingSave) : list JValue :=
  match failure with
  | None => [psDoc p]
  | Some _ => []
  end.

(** ** Deliveries *)

(** What a reply to [userId] through the registry sends: the message on the
    connection registered for the user, when that connection is open and
    its send goes out. *)
Definition registryDelivery (s : State) (userId : UserId) (msg : JValue) : list Effect :=
  match mapGet userId (clients s) with
  | Some h =>
      if isOpen (readyState (sockOf s h)) && negb (sendThrows (sockOf s h))
      then [ESend h msg] else []
  | None => []
  end.

(** What a send to the device sends: the message on the connection in the
    slot, when that connection is open and its send goes out. *)
Definition deviceDelivery (s : State) (msg : JValue) : list Effect :=
  match esp32Client s with
  | Some d =>
      if isOpen (readyState (sockOf s d)) && negb (sendThrows (sockOf s d))
      then [ESend d msg] else []
  | None => []
  end.

(** * Properties *)

(** ** Registry and property-table lemmas *)

Lemma mapGet_head u h m : mapGet u ((u, h) :: m) = Some h.
Proof. simpl. by rewrite String.eqb_refl. Qed.

Lemma mapGet_app_fresh u (kept m : list (UserId * Handle)) :
  u ∉ kept.*1 -> mapGet u (kept ++ m) = mapGet u m.
Proof.
  induction kept as [|[k h] kept IH]; simpl; [done|].
  intros Hn. apply not_elem_of_cons in Hn as [Hne Hn].
  destruct (String.eqb_spec k u); [congruence | auto].
Qed.

Lemma mapGet_None u (m : list (UserId * Handle)) :
  mapGet u m = None <-> u ∉ m.*1.
Proof.
  induction m as [|[k h] m IH]; simpl.
  - split; [intros _; apply not_elem_of_nil | done].
  - destruct (String.eqb_spec k u) as [->|Hne].
    + split; [done | intros Hn; exfalso; apply Hn; left].
    + rewrite IH, not_elem_of_cons. intuition congruence.
Qed.

Lemma mapGet_Some_elem u h (m : list (UserId * Handle)) :
  mapGet u m = Some h -> (u, h) ∈ m.
Proof.
  induction m as [|[k h'] m IH]; simpl; [done|].
  destruct (String.eqb_spec k u) as [->|Hne].
  - intros [= ->]. left.
  - intros H. right. auto.
Qed.

Lemma mapGet_elem u h (m : list (UserId * Handle)) :
  NoDup m.*1 -> (u, h) ∈ m -> mapGet u m = Some h.
Proof.
  induction m as [|[k h'] m IH]; simpl; intros Hnd Hin.
  - by apply elem_of_nil in Hin.
  - apply NoDup_cons in Hnd as [Hk Hnd].
    apply elem_of_cons in Hin as [[= <- <-]|Hin].
    + by rewrite String.eqb_refl.
    + destruct (String.eqb_spec k u) as [->|Hne]; [|auto].
      exfalso. apply Hk. change u with ((u, h).1). by apply list_elem_of_fmap_2.
Qed.

Lemma mapDelete_fresh u (m : list (UserId * Handle)) :
  u ∉ m.*1 -> mapDelete u m = m.
Proof.
  induction m as [|[k h] m IH]; simpl; [done|].
  intros Hn. apply not_elem_of_cons in Hn as [Hne Hn].
  destruct (String.eqb_spec k u); [congruence|]. by rewrite IH.
Qed.

Lemma mapDelete_app u (m1 m2 : list (UserId * Handle)) :
  mapDelete u (m1 ++ m2) = (mapDelete u m1 ++ mapDelete u m2)%list.
Proof.
  induction m1 as [|[k h] m1 IH]; simpl; [done|].
  destruct (String.eqb k u); simpl; by rewrite IH.
Qed.

Lemma mapDelete_sublist u (m : list (UserId * Handle)) : sublist (mapDelete u m) m.
Proof.
  induction m as [|[k h] m IH]; simpl; [constructor|].
  destruct (String.eqb k u); by constructor.
Qed.

Lemma mapGet_mapDelete u (m : list (UserId * Handle)) : mapGet u (mapDelete u m) = None.
Proof.
  induction m as [|[k h] m IH]; simpl; [done|].
  destruct (String.eqb_spec k u) as [->|Hne]; [done|].
  simpl. destruct (String.eqb_spec k u); [congruence | done].
Qed.

Lemma mapGet_mapDelete_ne u v (m : list (UserId * Handle)) :
  u <> v -> mapGet v (mapDelete u m) = mapGet v m.
Proof.
  intros Hne. induction m as [|[k h] m IH]; simpl; [done|].
  destruct (String.eqb_spec k u) as [->|Hku].
  - destruct (String.eqb_spec u v); [congruence | done].
  - simpl. by rewrite IH.
Qed.

Lemma mapGet_mapSet u h (m : list (UserId * Handle)) : mapGet u (mapSet u h m) = Some h.
Proof.
  induction m as [|[k h'] m IH]; simpl.
  - by rewrite String.eqb_refl.
  - destruct (String.eqb_spec k u) as [->|Hne]; simpl.
    + by rewrite String.eqb_refl.
    + destruct (String.eqb_spec k u); [congruence | done].
Qed.

Lemma objGet_objSet k v fs : objGet k (objSet k v fs) = Some v.
Proof.
  induction fs as [|[k' v'] fs IH]; simpl.
  - by rewrite String.eqb_refl.
  - destruct (String.eqb_spec k' k) as [->|Hne]; simpl.
    + by rewrite String.eqb_refl.
    + destruct (String.eqb_spec k' k); [congruence | done].
Qed.

Lemma objGet_objSet_ne k k' v fs : k' <> k -> objGet k (objSet k' v fs) = objGet k fs.
Proof.
  intros Hne. induction fs as [|[k1 v1] fs IH]; simpl.
  - destruct (String.eqb_spec k' k); [congruence | done].
  - destruct (String.eqb_spec k1 k') as [->|Hk]; simpl.
    + destruct (String.eqb_spec k' k); [congruence | done].
    + by rewrite IH.
Qed.

(** Copying the properties of [src] over [fs]: a key that [src] does not
    have keeps its value. *)
Lemma objGet_spread_absent k src fs :
  k ∉ src.*1 -> objGet k (spread (JObj src) fs) = objGet k fs.
Proof.
  simpl. revert fs. induction src as [|[k1 v1] src IH]; simpl; intros fs Hn; [done|].
  apply not_elem_of_cons in Hn as [Hne Hn].
  rewrite IH by done. apply objGet_objSet_ne. congruence.
Qed.

(** A key that [src] has takes the value it has in [src]. *)
Lemma objGet_spread_present k v src fs :
  NoDup src.*1 -> objGet k src = Some v -> objGet k (spread (JObj src) fs) = Some v.
Proof.
  simpl. revert fs. induction src as [|[k1 v1] src IH]; simpl; intros fs Hnd Hg; [done|].
  apply NoDup_cons in Hnd as [Hk Hnd].
  destruct (String.eqb_spec k1 k) as [->|Hne].
  - injection Hg as ->.
    pose proof (objGet_spread_absent k src (objSet k v fs) Hk) as Ha. simpl in Ha.
    rewrite Ha. apply objGet_objSet.
  - by apply IH.
Qed.

Lemma objGet_None k (fs : list (string * JValue)) : objGet k fs = None <-> k ∉ fs.*1.
Proof.
  induction fs as [|[k1 v1] fs IH]; simpl.
  - split; [intros _; apply not_elem_of_nil | done].
  - destruct (String.eqb_spec k1 k) as [->|Hne].
    + split; [done | intros Hn; exfalso; apply Hn; left].
    + rewrite IH, not_elem_of_cons. intuition congruence.
Qed.

(** ** The monad *)

Section Relational.
Context (R : State -> State -> Prop) `{!PreOrder R}.

Lemma mrel_ret {A} (a : A) : mrel R (ret a).
Proof. intros s. simpl. reflexivity. Qed.

Lemma mrel_throw {A} e : mrel R (@throw A e).
Proof. intros s. simpl. reflexivity. Qed.

Lemma mrel_gets {A} (f : State -> A) : mrel R (gets f).
Proof. intros s. simpl. reflexivity. Qed.

Lemma mrel_modify f : (forall s, R s (f s)) -> mrel R (modify f).
Proof. intros H s. apply H. Qed.

Lemma mrel_bind {A B} (m : M A) (k : A -> M B) :
  mrel R m -> (forall a, mrel R (k a)) -> mrel R (bind m k).
Proof.
  intros Hm Hk s. unfold bind. specialize (Hm s).
  destruct (m s) as [a s'|e s']; simpl in *; [|done].
  etransitivity; [exact Hm | apply Hk].
Qed.

Lemma mrel_tryCatch {A} (m : M A) (handler : string -> M A) :
  mrel R m -> (forall e, mrel R (handler e)) -> mrel R (tryCatch m handler).
Proof.
  intros Hm Hh s. unfold tryCatch. specialize (Hm s).
  destruct (m s) as [a s'|e s']; simpl in *; [done|].
  etransitivity; [exact Hm | apply Hh].
Qed.

Lemma mreturns_mrel {A} (m : M A) : mreturns R m -> mrel R m.
Proof. intros H s. destruct (H s) as (a & s' & -> & Hr). exact Hr. Qed.

Lemma mreturns_ret {A} (a : A) : mreturns R (ret a).
Proof. intros s. exists a, s. split; [done | reflexivity]. Qed.

Lemma mreturns_gets {A} (f : State -> A) : mreturns R (gets f).
Proof. intros s. exists (f s), s. split; [done | reflexivity]. Qed.

Lemma mreturns_modify f : (forall s, R s (f s)) -> mreturns R (modify f).
Proof. intros H s. exists tt, (f s). split; [done | apply H]. Qed.

Lemma mreturns_bind {A B} (m : M A) (k : A -> M B) :
  mreturns R m -> (forall a, mreturns R (k a)) -> mreturns R (bind m k).
Proof.
  intros Hm Hk s. unfold bind.
  destruct (Hm s) as (a & s1 & -> & H1).
  destruct (Hk a s1) as (b & s2 & -> & H2).
  exists b, s2. split; [done | by etransitivity].
Qed.

Lemma mreturns_tryCatch {A} (m : M A) (handler : string -> M A) :
  mrel R m -> (forall e, mreturns R (handler e)) -> mreturns R (tryCatch m handler).
Proof.
  intros Hm Hh s. unfold tryCatch. specialize (Hm s).
  destruct (m s) as [a s'|e s']; simpl in *.
  - by exists a, s'.
  - destruct (Hh e s') as (b & s2 & -> & H2).
    exists b, s2. split; [done | by etransitivity].
Qed.
End Relational.

Global Instance sendFrame_preorder : PreOrder sendFrame.
Proof.
  split.
  - intros s. by split.
  - intros s1 s2 s3 [] []. split; try congruence; by etransitivity.
Qed.

(** ** The send utilities *)

Lemma sockOf_setTrace t s h : sockOf (setTrace t s) h = sockOf s h.
Proof. reflexivity. Qed.

Lemma sockOf_setPendingQueries q s h : sockOf (setPendingQueries q s) h = sockOf s h.
Proof. reflexivity. Qed.

Lemma sockOf_setLogs l s h : sockOf (setLogs l s) h = sockOf s h.
Proof. reflexivity. Qed.

Lemma sendToUser_eq userId data s :
  sendToUser userId data s =
  match mapGet userId (clients s) with
  | None => Ret false s
  | Some h =>
      if isOpen (readyState (sockOf s h)) then
        if sendThrows (sockOf s h) then
          Ret false (setClients (mapDelete userId (clients s))
                       (setLogs (logs s ++ [sendErrorLog (userId, h)]) s))
        else Ret true (setTrace (trace s ++ [ESend h data]) s)
      else Ret false s
  end.
Proof.
  unfold sendToUser, bind, gets. destruct (mapGet userId (clients s)) as [h|]; [|done].
  unfold tryCatch, wsSend, bind, emit, logAt, removeClient, modify, ret. simpl.
  destruct (readyState (sockOf s h)) eqn:Hr; simpl; rewrite ?Hr; try done.
  by destruct (sendThrows (sockOf s h)).
Qed.

Lemma sendToESP32_eq message s :
  sendToESP32 message s =
  match esp32Client s with
  | Some h =>
      if isOpen (readyState (sockOf s h)) then
        if sendThrows (sockOf s h) then
          Ret false (setLogs (logs s ++ [(LError, "Error sending to ESP32: send failed")]) s)
        else Ret true (setTrace (trace s ++ [ESend h message]) s)
      else Ret false s
  | None => Ret false s
  end.
Proof.
  unfold sendToESP32, bind, gets. destruct (esp32Client s) as [h|]; [|done].
  unfold tryCatch, wsSend, bind, emit, logAt, removeClient, modify, ret. simpl.
  destruct (readyState (sockOf s h)) eqn:Hr; simpl; rewrite ?Hr; try done.
  by destruct (sendThrows (sockOf s h)).
Qed.

Lemma sendToUser_frame userId data : mreturns sendFrame (sendToUser userId data).
Proof.
  intros s. rewrite sendToUser_eq.
  destruct (mapGet userId (clients s)) as [h|]; [|by eexists _, _].
  destruct (isOpen _); [|by eexists _, _].
  destruct (sendThrows _); eexists _, _; (split; [done|]); split; simpl; try done.
  - apply mapDelete_sublist.
  - by apply prefix_app_r.
  - by apply prefix_app_r.
Qed.

Lemma broadcastLoop_frame data entries :
  forall successCount, mreturns sendFrame (broadcastLoop data entries successCount).
Proof.
  induction entries as [|[u h] rest IH]; intros cnt; simpl.
  - apply mreturns_ret. apply _.
  - apply mreturns_bind; [apply _ | apply sendToUser_frame | intros ok; apply IH].
Qed.

Lemma broadcastToClients_frame data : mreturns sendFrame (broadcastToClients data).
Proof.
  unfold broadcastToClients.
  apply mreturns_bind; [apply _ | apply mreturns_gets; apply _ |].
  intros entries. apply broadcastLoop_frame.
Qed.

Lemma sendToESP32_frame message : mreturns sendFrame (sendToESP32 message).
Proof.
  intros s. rewrite sendToESP32_eq.
  destruct (esp32Client s) as [h|]; [|by eexists _, _].
  destruct (isOpen _); [|by eexists _, _].
  destruct (sendThrows _); eexists _, _; (split; [done|]); split; simpl; try done;
    by apply prefix_app_r.
Qed.

(** The broadcast loop over the entries [l] that are still to be visited,
    [kept] being the entries before them. *)
Lemma broadcastLoop_spec data l :
  forall kept s successCount,
    clients s = (kept ++ l)%list ->
    NoDup (kept ++ l).*1 ->
    broadcastLoop data l successCount s =
    Ret (successCount + length (List.filter (delivered (sockets s)) l))%nat
        (mkState (kept ++ List.filter (fun e => negb (failing (sockets s) e)) l)
                 (esp32Client s) (esp32Status s) (sockets s) (nextHandle s)
                 (pendingSaves s) (pendingQueries s) (db s)
                 (trace s ++ map (fun e => ESend e.2 data)
                                 (List.filter (delivered (sockets s)) l))
                 (logs s ++ map sendErrorLog (List.filter (failing (sockets s)) l))).
Proof.
  induction l as [|[u h] l IH]; intros kept s cnt Hc Hnd.
  - simpl. unfold ret. rewrite Nat.add_0_r, !app_nil_r. rewrite app_nil_r in Hc.
    destruct s; simpl in *; by subst.
  - assert (Hfresh : (u ∉ kept.*1) /\ (u ∉ l.*1)).
    { rewrite fmap_app in Hnd. apply NoDup_app in Hnd as (_ & Hk & Hl).
      simpl in Hl. apply NoDup_cons in Hl as [Hu _]. split; [|done].
      intros Hin. apply (Hk u Hin). left. }
    destruct Hfresh as [Hk Hl].
    assert (Hget : mapGet u (clients s) = Some h).
    { rewrite Hc, mapGet_app_fresh by done. apply mapGet_head. }
    assert (Hd : delivered (sockets s) (u, h) =
                 isOpen (readyState (sockOf s h)) && negb (sendThrows (sockOf s h)))
      by reflexivity.
    assert (Hf : failing (sockets s) (u, h) =
                 isOpen (readyState (sockOf s h)) && sendThrows (sockOf s h))
      by reflexivity.
    simpl broadcastLoop. unfold bind at 1. rewrite sendToUser_eq, Hget.
    simpl List.filter. rewrite Hd, Hf. clear Hd Hf.
    destruct (isOpen (readyState (sockOf s h))) eqn:Hopen;
      [destruct (sendThrows (sockOf s h)) eqn:Hthrows|]; simpl.
    + rewrite (IH kept); simpl.
      * by rewrite <- app_assoc.
      * rewrite Hc, mapDelete_app, (mapDelete_fresh u kept) by done. simpl.
        rewrite String.eqb_refl. by rewrite mapDelete_fresh.
      * rewrite fmap_app in Hnd |- *. simpl in Hnd.
        apply NoDup_app in Hnd as (H1 & H2 & H3). apply NoDup_cons in H3 as [_ H3].
        apply NoDup_app. split_and!; [done | | done].
        intros x Hx Hx'. apply (H2 x Hx). by right.
    + rewrite (IH (kept ++ [(u, h)])); simpl.
      * rewrite <- !app_assoc. simpl. f_equal. lia.
      * by rewrite Hc, <- app_assoc.
      * by rewrite <- app_assoc.
    + rewrite (IH (kept ++ [(u, h)])); simpl.
      * by rewrite <- !app_assoc.
      * by rewrite Hc, <- app_assoc.
      * by rewrite <- app_assoc.
Qed.

Lemma broadcastToClients_spec data s :
  NoDup (clients s).*1 ->
  broadcastToClients data s =
  Ret (length (List.filter (delivered (sockets s)) (clients s))) (afterBroadcast data s).
Proof.
  intros Hnd. unfold broadcastToClients, bind, gets.
  by rewrite (broadcastLoop_spec data (clients s) [] s 0%nat).
Qed.

Lemma filter_all (A : Type) (f : A -> bool) (l : list A) :
  (forall x, x ∈ l -> f x = true) -> List.filter f l = l.
Proof.
  induction l as [|x l IH]; simpl; intros H; [done|].
  rewrite (H x) by left. f_equal. apply IH. intros y Hy. apply H. by right.
Qed.

Lemma filter_none (A : Type) (f : A -> bool) (l : list A) :
  (forall x, x ∈ l -> f x = false) -> List.filter f l = [].
Proof.
  induction l as [|x l IH]; simpl; intros H; [done|].
  rewrite (H x) by left. apply IH. intros y Hy. apply H. by right.
Qed.

Lemma delivered_not_failing σ e : delivered σ e = true -> failing σ e = false.
Proof.
  unfold delivered, failing. destruct (attempted σ e); simpl; [|done].
  by destruct (sendThrows _).
Qed.

Lemma failing_not_delivered σ e : failing σ e = true -> delivered σ e = false.
Proof.
  unfold delivered, failing. destruct (attempted σ e); simpl; [|done].
  by destruct (sendThrows _).
Qed.

(** ** Broadcast under a failing client *)

(** C5. A broadcast to a registry of N clients in which the send of one
    client [(u, h)] throws and the sends of the N-1 others go out: the
    broadcast returns normally with the count N-1, every other client was
    sent the message, in registry order, and exactly the failing client has
    left the registry. *)
Theorem broadcast_one_failing_client data s pre u h post :
  NoDup (clients s).*1 ->
  clients s = pre ++ (u, h) :: post ->
  failing (sockets s) (u, h) = true ->
  (forall e, e ∈ pre ++ post -> delivered (sockets s) e = true) ->
  exists s',
    broadcastToClients data s = Ret (length pre + length post)%nat s' /\
    trace s' = trace s ++ map (fun e => ESend e.2 data) (pre ++ post) /\
    clients s' = pre ++ post /\
    logs s' = logs s ++ [sendErrorLog (u, h)] /\
    sockets s' = sockets s.
Proof.
  intros Hnd Hc Hfail Hok.
  assert (Hpre : forall e, e ∈ pre -> delivered (sockets s) e = true).
  { intros e He. apply Hok, elem_of_app. by left. }
  assert (Hpost : forall e, e ∈ post -> delivered (sockets s) e = true).
  { intros e He. apply Hok, elem_of_app. by right. }
  exists (afterBroadcast data s).
  rewrite broadcastToClients_spec by done. unfold afterBroadcast. simpl.
  rewrite Hc, !List.filter_app. simpl.
  rewrite Hfail, (failing_not_delivered _ _ Hfail). simpl.
  rewrite !(filter_all _ (delivered (sockets s))) by done.
  rewrite !(filter_all _ (fun e => negb (failing (sockets s) e)))
    by (intros e He; rewrite delivered_not_failing; auto).
  rewrite !(filter_none _ (failing (sockets s)))
    by (intros e He; apply delivered_not_failing; auto).
  rewrite length_app. done.
Qed.

Lemma broadcast_one_failing_client_witness :
  let s := setSockets
             (<[0%nat := mkSocket OPEN (Some true) false (ClientSocket "a")]>
                (<[1%nat := mkSocket OPEN (Some true) true (ClientSocket "b")]>
                   (<[2%nat := mkSocket OPEN (Some true) false (ClientSocket "c")]> ∅)))
             (setClients [("a", 0%nat); ("b", 1%nat); ("c", 2%nat)] initialState) in
  exists s',
    broadcastToClients (JStr "hello") s = Ret 2%nat s' /\
    trace s' = [ESend 0%nat (JStr "hello"); ESend 2%nat (JStr "hello")] /\
    clients s' = [("a", 0%nat); ("c", 2%nat)] /\
    logs s' = [sendErrorLog ("b", 1%nat)] /\
    sockets s' = sockets s.
Proof.
  intros s.
  apply (broadcast_one_failing_client (JStr "hello") s [("a", 0%nat)] "b" 1%nat
           [("c", 2%nat)]).
  - simpl. apply (bool_decide_unpack _). vm_compute. reflexivity.
  - reflexivity.
  - vm_compute. reflexivity.
  - intros e He. simpl in He.
    apply elem_of_cons in He as [->|He]; [vm_compute; reflexivity|].
    apply elem_of_cons in He as [->|He]; [vm_compute; reflexivity|].
    by apply elem_of_nil in He.
Defined.

(** ** The sensor-data pipeline *)

Lemma objSet_keys k v (fs : list (string * JValue)) :
  (objSet k v fs).*1 = if bool_decide (k ∈ fs.*1) then fs.*1 else fs.*1 ++ [k].
Proof.
  induction fs as [|[k1 v1] fs IH]; [done|].
  cbn [objSet]. destruct (String.eqb_spec k1 k) as [->|Hne]; rewrite !fmap_cons; cbn [fst].
  - rewrite bool_decide_eq_true_2; [done | left].
  - rewrite IH. destruct (bool_decide (k ∈ fs.*1)) eqn:Hd.
    + apply bool_decide_eq_true_1 in Hd. rewrite bool_decide_eq_true_2; [done | by right].
    + apply bool_decide_eq_false_1 in Hd. rewrite bool_decide_eq_false_2; [done|].
      rewrite not_elem_of_cons. split; [congruence | done].
Qed.

Lemma objSet_NoDup k v (fs : list (string * JValue)) :
  NoDup fs.*1 -> NoDup (objSet k v fs).*1.
Proof.
  intros Hnd. rewrite objSet_keys. case_bool_decide as Hk; [done|].
  apply NoDup_app. split_and!; [done | | apply NoDup_singleton].
  intros x Hx Hx'. apply list_elem_of_singleton in Hx' as ->. done.
Qed.

Lemma spread_NoDup src fs : NoDup fs.*1 -> NoDup (spread src fs).*1.
Proof.
  destruct src; simpl; try done. revert fs.
  induction fields as [|[k v] src IH]; simpl; intros fs Hnd; [done|].
  apply IH. by apply objSet_NoDup.
Qed.

(** The broadcast message is tagged [sensor-data]. *)
Lemma sensorBroadcast_type now fs :
  NoDup fs.*1 ->
  objGet "type" fs = Some (JStr "sensor-data") ->
  jprop (sensorBroadcast (buildSensorData now (JObj fs))) "type" = JStr "sensor-data".
Proof.
  intros Hnd Hty. unfold sensorBroadcast, jprop.
  erewrite objGet_spread_present; [done | |].
  - unfold buildSensorData. apply spread_NoDup. simpl.
    apply (bool_decide_unpack _). by vm_compute.
  - unfold buildSensorData. by apply objGet_spread_present.
Qed.

(** What the continuation of [handleSensorData] does when the save of the
    suspended call [p] settles. *)
Lemma resumeSensorData_spec i failure p s :
  pendingSaves s !! i = Some p ->
  NoDup (clients s).*1 ->
  exists s',
    resumeSensorData i failure s = Ret tt s' /\
    trace s' = trace s ++ settledSends s p /\
    db s' = db s ++ settledStore failure p /\
    pendingSaves s' = delete i (pendingSaves s) /\
    clients s' = List.filter (fun e => negb (failing (sockets s) e)) (clients s) /\
    sockets s' = sockets s /\
    forall e, failure = Some e ->
      (LError, "Failed to save sensor data to database: " +:+ e) ∈ logs s'.
Proof.
  intros Hi Hnd.
  unfold resumeSensorData, bind at 1, gets. rewrite Hi. cbv zeta.
  unfold modify, tryCatch, bind, logAt, modify, template, throw, ret, jprop.
  destruct (convertible _) eqn:Hconv; destruct failure as [e|]; simpl;
    rewrite broadcastToClients_spec by done; simpl; rewrite ?Hconv;
    (eexists; split; [reflexivity|]); simpl; unfold settledSends; simpl;
    rewrite ?app_nil_r; split_and!; try done.
  all: intros e' [= <-]; rewrite !elem_of_app, !list_elem_of_singleton; naive_solver.
Qed.

(** C1. A structured device message of type [sensor-data] issues exactly one
    save of one reading to the store and suspends; when that save settles,
    whether it succeeded or failed, the suspended call broadcasts the
    [sensor-data] message exactly once, to every client whose send goes out.
    A failed save is logged, persists nothing and is not issued again. *)
Theorem sensor_data_saved_once_and_broadcast now data fs s :
  isBuffer data = false ->
  parsed data = Some (JObj fs) ->
  NoDup fs.*1 ->
  objGet "type" fs = Some (JStr "sensor-data") ->
  let sensorData := buildSensorData now (JObj fs) in
  let doc := buildReading (setLastSeen (Some now) (esp32Status s)) sensorData in
  let suspended := mkPendingSave sensorData doc in
  exists s1,
    handleESP32Message now data s = Ret tt s1 /\
    trace s1 = trace s ++ [ESave doc] /\
    pendingSaves s1 = pendingSaves s ++ [suspended] /\
    db s1 = db s /\
    clients s1 = clients s /\
    jprop (sensorBroadcast sensorData) "type" = JStr "sensor-data" /\
    forall s2 i failure,
      pendingSaves s2 !! i = Some suspended ->
      NoDup (clients s2).*1 ->
      exists s3,
        resumeSensorData i failure s2 = Ret tt s3 /\
        trace s3 = trace s2 ++
                   map (fun e => ESend e.2 (sensorBroadcast sensorData))
                       (List.filter (delivered (sockets s2)) (clients s2)) /\
        db s3 = db s2 ++ match failure with None => [doc] | Some _ => [] end /\
        pendingSaves s3 = delete i (pendingSaves s2) /\
        forall e, failure = Some e ->
          (LError, "Failed to save sensor data to database: " +:+ e) ∈ logs s3.
Proof.
  intros Hbuf Hparsed Hnd Hty sensorData doc suspended.
  eexists. split; [|split_and!].
  - unfold handleESP32Message, tryCatch, bind, updStatus, modify. simpl.
    rewrite Hbuf, Hparsed. unfold jprop. rewrite Hty. simpl. reflexivity.
  - done.
  - done.
  - done.
  - done.
  - by apply sensorBroadcast_type.
  - intros s2 i failure Hi Hnd2.
    destruct (resumeSensorData_spec i failure suspended s2 Hi Hnd2)
      as (s3 & Hrun & Ht & Hdb & Hp & _ & _ & Hlog).
    exists s3. split_and!; done.
Qed.

Lemma sensor_data_saved_once_and_broadcast_witness :
  let fs := [("type", JStr "sensor-data"); ("sensorType", JStr "temp");
             ("data", JObj [("v", JNum 21)])] in
  let data := mkFrame false 0 "" (Some (JObj fs)) in
  let s := finalState (step 1 (EvConnection "/esp32" None)
             (finalState (step 0 (EvConnection "/ws" (Some "alice")) initialState))) in
  let doc := JObj [("deviceId", JStr "esp32-main"); ("sensorType", JStr "temp");
                   ("data", JObj [("v", JNum 21)]); ("timestamp", JDate 5);
                   ("metadata", JObj [("batteryLevel", JUndefined);
                                      ("signalStrength", JUndefined)])] in
  exists s1,
    step 5 (EvMessage 1%nat data) s = Ret tt s1 /\
    trace s1 = trace s ++ [ESave doc] /\
    (forall failure, exists s3,
       step 6 (EvSaveSettled 0%nat failure) s1 = Ret tt s3 /\
       trace s3 = trace s1 ++ [ESend 0%nat (sensorBroadcast (buildSensorData 5 (JObj fs)))] /\
       db s3 = match failure with None => [doc] | Some _ => [] end).
Proof.
  intros fs data s doc.
  destruct (sensor_data_saved_once_and_broadcast 5 data fs s eq_refl eq_refl)
    as (s1 & Hrun & Htrace & Hpending & Hdb & Hclients & _ & Hresume).
  - apply (bool_decide_unpack _). vm_compute. exact I.
  - reflexivity.
  - exists s1. split; [exact Hrun|]. split; [exact Htrace|].
    intros failure.
    destruct (Hresume s1 0%nat failure) as (s3 & Hr & Ht & Hd & _).
    + rewrite Hpending. reflexivity.
    + rewrite Hclients. apply (bool_decide_unpack _). vm_compute. exact I.
    + exists s3. split; [exact Hr|]. split.
      * rewrite Ht, Hclients.
        assert (Hs : sockets s1 = sockets s).
        { injection Hrun as <-. reflexivity. }
        rewrite Hs. reflexivity.
      * rewrite Hd, Hdb. reflexivity.
Defined.


(** ** The staleness check *)

(** C4. When the status says connected and the last device frame is older
    than the timeout, the staleness check returns with [connected] false and
    has sent the offline status to every client whose send goes out; the
    device slot and every connection object, the device's included, are as
    before, and nothing but those sends left the process. *)
Theorem staleness_marks_offline now seen s :
  connected (esp32Status s) = true ->
  lastSeen (esp32Status s) = Some seen ->
  now - seen > esp32TimeoutInterval ->
  NoDup (clients s).*1 ->
  exists s',
    step now EvStatusCheck s = Ret tt s' /\
    connected (esp32Status s') = false /\
    trace s' = trace s ++
               map (fun e => ESend e.2 (offlineStatus now seen))
                   (List.filter (delivered (sockets s)) (clients s)) /\
    esp32Client s' = esp32Client s /\
    sockets s' = sockets s.
Proof.
  intros Hconn Hseen Hstale Hnd.
  unfold step, checkESP32Status, bind, gets. rewrite Hconn, Hseen.
  assert (Hgt : (now - seen >? esp32TimeoutInterval) = true) by (apply Z.gtb_lt; lia).
  rewrite Hgt. unfold logAt, updStatus, modify. simpl.
  rewrite broadcastToClients_spec by done.
  eexists. split; [reflexivity|]. simpl. done.
Qed.

Lemma staleness_marks_offline_witness :
  let s := finalState (step 0 (EvConnection "/esp32" None)
             (finalState (step 0 (EvConnection "/ws" (Some "alice")) initialState))) in
  exists s',
    step 60001 EvStatusCheck s = Ret tt s' /\
    connected (esp32Status s') = false /\
    trace s' = trace s ++ [ESend 0%nat (offlineStatus 60001 0)] /\
    esp32Client s' = Some 1%nat /\
    sockets s' = sockets s.
Proof.
  intros s.
  apply (staleness_marks_offline 60001 0 s).
  - reflexivity.
  - reflexivity.
  - vm_compute. reflexivity.
  - apply (bool_decide_unpack _). vm_compute. exact I.
Defined.

(** ** The command relay *)

(** C8. A [control-esp32] message. A reply to the requester goes through
    the registry: it is sent on the connection registered for the
    requesting user, when that connection is open and its send goes out, and
    is sent to nobody otherwise. While no device connection is open, nothing
    is sent but the error reply. While one is open, the command envelope,
    carrying the identifier [cmd_<now>] and the requester's identity, is
    sent to the device, when the device send goes out, and then the
    [command-sent] acknowledgment is sent as a reply. No connection object
    and no registration of the device is changed. *)
Theorem control_esp32_relay now ws userId data fs s :
  parsed data = Some (JObj fs) ->
  objGet "type" fs = Some (JStr "control-esp32") ->
  exists s',
    handleClientMessage now ws userId data s = Ret tt s' /\
    trace s' = trace s ++
               (if deviceOpen s
                then deviceDelivery s (commandEnvelope now userId (JObj fs)) ++
                     registryDelivery s userId (commandSent now (JObj fs))
                else registryDelivery s userId notConnectedError) /\
    sockets s' = sockets s /\
    esp32Client s' = esp32Client s /\
    esp32Status s' = esp32Status s.
Proof.
  intros Hparsed Hty.
  assert (Hdispatch :
    handleClientMessage now ws userId data s =
    tryCatch (handleControlESP32 now userId (JObj fs))
             (fun e => logAt LError ("Client message handling error: " +:+ e)) s).
  { unfold handleClientMessage, tryCatch. rewrite Hparsed.
    unfold jprop. rewrite Hty. reflexivity. }
  rewrite Hdispatch. clear Hdispatch.
  unfold handleControlESP32, tryCatch, bind, gets.
  unfold deviceOpen, deviceDelivery, registryDelivery.
  fold (commandEnvelope now userId (JObj fs)). fold (commandSent now (JObj fs)).
  fold notConnectedError.
  destruct (esp32Client s) as [d|] eqn:Hd;
    [destruct (isOpen (readyState (sockOf s d))) eqn:Hdo|]; cbn [negb].
  - rewrite sendToESP32_eq, Hd, Hdo.
    destruct (sendThrows (sockOf s d)); cbn [negb andb];
      rewrite sendToUser_eq; cbn [clients setTrace setLogs];
      (destruct (mapGet userId (clients s)) as [h|];
         rewrite ?sockOf_setTrace, ?sockOf_setLogs;
         [destruct (isOpen (readyState (sockOf s h)));
            [destruct (sendThrows (sockOf s h))|]|]);
      unfold template, ret, throw, logAt, modify;
      destruct (convertible _);
      (eexists; split; [reflexivity|]); simpl;
      rewrite ?app_nil_r, <- ?app_assoc; done.
  - rewrite sendToUser_eq.
    destruct (mapGet userId (clients s)) as [h|];
      [destruct (isOpen (readyState (sockOf s h)));
         [destruct (sendThrows (sockOf s h))|]|];
      (eexists; split; [reflexivity|]); simpl; rewrite ?app_nil_r; done.
  - rewrite sendToUser_eq.
    destruct (mapGet userId (clients s)) as [h|];
      [destruct (isOpen (readyState (sockOf s h)));
         [destruct (sendThrows (sockOf s h))|]|];
      (eexists; split; [reflexivity|]); simpl; rewrite ?app_nil_r; done.
Qed.

Lemma control_esp32_relay_witness :
  let fs := [("type", JStr "control-esp32"); ("command", JStr "led-on")] in
  let data := mkFrame false 0 "" (Some (JObj fs)) in
  let s0 := finalState (step 0 (EvConnection "/ws" (Some "alice")) initialState) in
  let s1 := finalState (step 1 (EvConnection "/esp32" None) s0) in
  (exists s', handleClientMessage 2 0%nat "alice" data s0 = Ret tt s' /\
              trace s' = trace s0 ++ [ESend 0%nat notConnectedError]) /\
  (exists s', handleClientMessage 2 0%nat "alice" data s1 = Ret tt s' /\
              trace s' = trace s1 ++
                [ESend 1%nat
                   (JObj [("type", JStr "command"); ("command", JStr "led-on");
                          ("parameters", JObj []); ("requestId", JStr "cmd_2");
                          ("fromUserId", JStr "alice")]);
                 ESend 0%nat
                   (JObj [("type", JStr "command-sent"); ("command", JStr "led-on");
                          ("timestamp", JIso 2)])]).
Proof.
  intros fs data s0 s1. split.
  - destruct (control_esp32_relay 2 0%nat "alice" data fs s0 eq_refl eq_refl)
      as (s' & Hrun & Ht & _).
    exists s'. split; [exact Hrun|]. rewrite Ht. reflexivity.
  - destruct (control_esp32_relay 2 0%nat "alice" data fs s1 eq_refl eq_refl)
      as (s' & Hrun & Ht & _).
    exists s'. split; [exact Hrun|]. rewrite Ht. reflexivity.
Defined.

(** ** Relations kept by every handler *)

Lemma mrel_weaken {A} (R1 R2 : State -> State -> Prop) (m : M A) :
  (forall s s', R1 s s' -> R2 s s') -> mrel R1 m -> mrel R2 m.
Proof. intros Hsub Hm s. apply Hsub, Hm. Qed.

Lemma mrel_wsSend R `{!Reflexive R} h msg :
  (forall s, R s (setTrace (trace s ++ [ESend h msg]) s)) -> mrel R (wsSend h msg).
Proof.
  intros H s. unfold wsSend.
  destruct (readyState (sockOf s h)); simpl; try reflexivity.
  destruct (sendThrows (sockOf s h)); simpl; [reflexivity | apply H].
Qed.

Lemma mrel_wsPing R `{!Reflexive R} h :
  (forall s, R s (setTrace (trace s ++ [EPing h]) s)) -> mrel R (wsPing h).
Proof.
  intros H s. unfold wsPing.
  destruct (readyState (sockOf s h)); simpl; try reflexivity. apply H.
Qed.

(** A relation that contains [sendFrame] is kept by the send utilities. *)
Section AboveSendFrame.
Context (R : State -> State -> Prop) (HR : forall s s', sendFrame s s' -> R s s').

Lemma mrel_sendToUser u data : mrel R (sendToUser u data).
Proof. eapply mrel_weaken; [exact HR|]. apply mreturns_mrel, sendToUser_frame. Qed.

Lemma mrel_broadcastToClients data : mrel R (broadcastToClients data).
Proof. eapply mrel_weaken; [exact HR|]. apply mreturns_mrel, broadcastToClients_frame. Qed.

Lemma mrel_sendToESP32 message : mrel R (sendToESP32 message).
Proof. eapply mrel_weaken; [exact HR|]. apply mreturns_mrel, sendToESP32_frame. Qed.
End AboveSendFrame.

(** Decomposition of a handler along its control structure; [leaf] closes
    the goals about single state updates. *)
Ltac mrel_step leaf :=
  match goal with
  | |- PreOrder _ => typeclasses eauto
  | |- Reflexive _ => typeclasses eauto
  | |- mrel _ (ret _) => apply mrel_ret
  | |- mrel _ (gets _) => apply mrel_gets
  | |- mrel _ (throw _) => apply mrel_throw
  | |- mrel _ (bind _ _) => eapply mrel_bind; [.. | intros ?]
  | |- mrel _ (tryCatch _ _) => eapply mrel_tryCatch; [.. | intros ?]
  | |- mrel _ (modify _) => eapply mrel_modify; [.. | intros ?; leaf]
  | |- mrel _ (emit _) => unfold emit
  | |- mrel _ (template _) => unfold template
  | |- mrel _ (logAt _ _) => unfold logAt
  | |- mrel _ (updSocket _ _) => unfold updSocket
  | |- mrel _ (updStatus _) => unfold updStatus
  | |- mrel _ (removeClient _) => unfold removeClient
  | |- mrel _ (wsClose _ _) => unfold wsClose
  | |- mrel _ (wsTerminate _) => unfold wsTerminate
  | |- mrel _ (wsSend _ _) => eapply mrel_wsSend; [.. | intros ?; leaf]
  | |- mrel _ (wsPing _) => eapply mrel_wsPing; [.. | intros ?; leaf]
  | |- mrel _ (sendToUser _ _) => apply mrel_sendToUser; leaf
  | |- mrel _ (broadcastToClients _) => apply mrel_broadcastToClients; leaf
  | |- mrel _ (sendToESP32 _) => apply mrel_sendToESP32; leaf
  | |- mrel _ (match ?x with _ => _ end) => destruct x
  | |- mrel _ (let _ := _ in _) => cbv zeta
  end.

Ltac mrel_go leaf := repeat (mrel_step leaf).

Global Instance connStays_preorder : PreOrder connStays.
Proof. split; unfold connStays; [intros s | intros s1 s2 s3]; auto. Qed.

Global Instance presenceKept_preorder : PreOrder presenceKept.
Proof.
  split; unfold presenceKept; [intros s | intros s1 s2 s3]; [done|].
  intros [] []. split; congruence.
Qed.

Lemma sendFrame_presenceKept s s' : sendFrame s s' -> presenceKept s s'.
Proof. intros []. split; congruence. Qed.

Lemma presenceKept_connStays s s' : presenceKept s s' -> connStays s s'.
Proof. intros [H _]. unfold connStays. congruence. Qed.

Ltac presence_leaf :=
  first [ apply sendFrame_presenceKept; assumption
        | intros; apply sendFrame_presenceKept; assumption
        | unfold presenceKept; simpl; done ].

Ltac conn_leaf :=
  first [ intros; apply presenceKept_connStays, sendFrame_presenceKept; assumption
        | unfold connStays; simpl; done ].

(** The handlers of structured device messages leave [connected] and
    [lastSeen] alone. *)
Lemma handleDeviceInfo_presence now message : mrel presenceKept (handleDeviceInfo now message).
Proof. unfold handleDeviceInfo. mrel_go presence_leaf. Qed.

Lemma handleSensorData_presence now message : mrel presenceKept (handleSensorData now message).
Proof. unfold handleSensorData, saveSensorDataToDatabase. mrel_go presence_leaf. Qed.

Lemma handleStatusUpdate_presence now message :
  mrel presenceKept (handleStatusUpdate now message).
Proof. unfold handleStatusUpdate. mrel_go presence_leaf. Qed.

Lemma heartbeatLoop_connStays entries : mrel connStays (heartbeatLoop entries).
Proof.
  induction entries as [|[u h] rest IH]; simpl; [apply mrel_ret; apply _|].
  mrel_go conn_leaf. exact IH.
Qed.

Lemma handleESP32Message_presence now data s :
  presenceKept (setStatus (setLastSeen (Some now) (esp32Status s)) s)
               (finalState (handleESP32Message now data s)).
Proof.
  assert (H : mrel presenceKept
    (if isBuffer data then
       broadcastToClients
         (JObj [("type", JStr "audio-data");
                ("timestamp", JIso now);
                ("dataSize", JNum (byteLength data));
                ("data", JStr (base64 data))]) ;;;
       ret tt
     else
       match parsed data with
       | None => throw "Unexpected token in JSON"
       | Some JNull => throw "Cannot read properties of null (reading 'type')"
       | Some message =>
           let type := jprop message "type" in
           template type ;;;
           if isStr type "device-info" then handleDeviceInfo now message
           else if isStr type "sensor-data" then handleSensorData now message
           else if isStr type "status-update" then handleStatusUpdate now message
           else if isStr type "ping" then
             sendToESP32 (JObj [("type", JStr "pong"); ("timestamp", JNum now)]) ;;; ret tt
           else ret tt
       end)).
  { mrel_go presence_leaf;
      lazymatch goal with
      | |- mrel _ (handleDeviceInfo _ _) => apply handleDeviceInfo_presence
      | |- mrel _ (handleSensorData _ _) => apply handleSensorData_presence
      | |- mrel _ (handleStatusUpdate _ _) => apply handleStatusUpdate_presence
      end. }
  unfold handleESP32Message, tryCatch, bind at 1, updStatus, modify.
  specialize (H (setStatus (setLastSeen (Some now) (esp32Status s)) s)).
  match goal with
  | H : presenceKept _ (finalState ?o) |- context [match ?o' with _ => _ end] =>
      change o' with o; destruct o as [a s'|e s']
  end; simpl in *; exact H.
Qed.

Lemma handleESP32Message_connStays now data : mrel connStays (handleESP32Message now data).
Proof.
  intros s. transitivity (setStatus (setLastSeen (Some now) (esp32Status s)) s).
  - unfold connStays. simpl. done.
  - apply presenceKept_connStays, handleESP32Message_presence.
Qed.

Lemma handleClientMessage_connStays now ws userId data :
  mrel connStays (handleClientMessage now ws userId data).
Proof.
  unfold handleClientMessage, handleGetSensorData, queryFailed, handleControlESP32.
  mrel_go conn_leaf.
Qed.

Lemma step_connStays now ev : registersDevice ev = false -> mrel connStays (step now ev).
Proof.
  intros Hev. destruct ev; simpl in Hev; unfold step.
  - unfold onConnection. rewrite Hev.
    unfold handleClientConnection, addClient. mrel_go conn_leaf.
  - unfold onSocket. mrel_go conn_leaf;
      first [apply handleESP32Message_connStays | apply handleClientMessage_connStays].
  - unfold onSocket. mrel_go conn_leaf.
  - unfold onSocket, handleESP32Disconnect. mrel_go conn_leaf.
  - unfold onSocket, handleESP32Disconnect. mrel_go conn_leaf.
  - unfold heartbeat. mrel_go conn_leaf. apply heartbeatLoop_connStays.
  - unfold checkESP32Status. mrel_go conn_leaf.
  - unfold resumeSensorData. mrel_go conn_leaf.
  - unfold resumeGetSensorData, queryFailed. mrel_go conn_leaf.
  - mrel_go conn_leaf.
Qed.

Lemma reachable_runEvents evs s : reachable s -> reachable (runEvents evs s).
Proof.
  revert s. induction evs as [|[now ev] evs IH]; simpl; intros s Hs; [done|].
  apply IH. by constructor.
Qed.

Lemma runEvents_connStays evs s :
  Forall (fun e => registersDevice e.2 = false) evs ->
  connStays s (runEvents evs s).
Proof.
  revert s. induction evs as [|[now ev] evs IH]; simpl; intros s Hall; [reflexivity|].
  apply Forall_cons in Hall as [Hev Hall]. simpl in Hev.
  etransitivity; [apply (step_connStays now ev Hev) | by apply IH].
Qed.

Lemma device_frame_step now h data s :
  wiring (sockOf s h) = DeviceSocket ->
  readyState (sockOf s h) <> CLOSED ->
  step now (EvMessage h data) s = handleESP32Message now data s.
Proof.
  intros Hw Hr. unfold step, onSocket, bind, gets. rewrite Hw.
  by destruct (readyState (sockOf s h)).
Qed.

Lemma device_pong_step now h s :
  wiring (sockOf s h) = DeviceSocket ->
  readyState (sockOf s h) <> CLOSED ->
  step now (EvPong h) s = Ret tt (setStatus (setLastSeen (Some now) (esp32Status s)) s).
Proof.
  intros Hw Hr. unfold step, onSocket, bind, gets. rewrite Hw.
  by destruct (readyState (sockOf s h)).
Qed.

(** ** Presence of the device *)

(** C10. From a state whose status says disconnected, no sequence of events
    without a connection on the device path makes the status connected
    again; in the state so reached, a frame or a keepalive acknowledgment
    arriving on a device socket sets [lastSeen] to the instant of arrival and
    leaves the status disconnected. *)
Theorem connected_only_by_registration evs s now h data :
  connected (esp32Status s) = false ->
  Forall (fun e => registersDevice e.2 = false) evs ->
  wiring (sockOf (runEvents evs s) h) = DeviceSocket ->
  readyState (sockOf (runEvents evs s) h) <> CLOSED ->
  connected (esp32Status (runEvents evs s)) = false /\
  lastSeen (esp32Status (finalState (step now (EvMessage h data) (runEvents evs s))))
    = Some now /\
  connected (esp32Status (finalState (step now (EvMessage h data) (runEvents evs s))))
    = false /\
  lastSeen (esp32Status (finalState (step now (EvPong h) (runEvents evs s)))) = Some now /\
  connected (esp32Status (finalState (step now (EvPong h) (runEvents evs s)))) = false.
Proof.
  intros Hoff Hevs Hw Hr.
  assert (Hoff1 : connected (esp32Status (runEvents evs s)) = false).
  { pose proof (runEvents_connStays evs s Hevs) as Hc. unfold connStays in Hc.
    destruct (connected (esp32Status (runEvents evs s))); [|done].
    rewrite Hc in Hoff; done. }
  split; [exact Hoff1|].
  rewrite device_frame_step, device_pong_step by done. simpl.
  destruct (handleESP32Message_presence now data (runEvents evs s)) as [Hc Hl].
  simpl in Hc, Hl. rewrite Hc, Hl. done.
Qed.

Lemma connected_only_by_registration_witness :
  let tick := mkFrame false 0 "" (Some (JObj [("type", JStr "ping")])) in
  let s := runEvents [(0, EvConnection "/esp32" None); (60001, EvStatusCheck)]
                     initialState in
  let evs := [(60002, EvMessage 0%nat tick); (60003, EvHeartbeat)] in
  connected (esp32Status (runEvents evs s)) = false /\
  lastSeen (esp32Status (finalState (step 60004 (EvMessage 0%nat tick) (runEvents evs s))))
    = Some 60004 /\
  connected (esp32Status (finalState (step 60004 (EvMessage 0%nat tick) (runEvents evs s))))
    = false /\
  lastSeen (esp32Status (finalState (step 60004 (EvPong 0%nat) (runEvents evs s))))
    = Some 60004 /\
  connected (esp32Status (finalState (step 60004 (EvPong 0%nat) (runEvents evs s)))) = false.
Proof.
  intros tick s evs.
  apply (connected_only_by_registration evs s 60004 0%nat tick).
  - reflexivity.
  - repeat constructor.
  - reflexivity.
  - vm_compute. discriminate.
Defined.

(** ** Streaming flag *)

(** C9. The device connects, reports [isStreaming: true] in a status update,
    and falls silent; the staleness check then leaves a reachable state in
    which [connected] is false and [isStreaming] is still true. *)
Theorem streaming_outlives_staleness :
  let update := mkFrame false 0 ""
                  (Some (JObj [("type", JStr "status-update"); ("isStreaming", JBool true)])) in
  let s := runEvents [(0, EvConnection "/esp32" None);
                      (1, EvMessage 0%nat update);
                      (60002, EvStatusCheck)] initialState in
  reachable s /\
  connected (esp32Status s) = false /\
  isStreaming (esp32Status s) = JBool true /\
  esp32Client s = Some 0%nat /\
  readyState (sockOf s 0%nat) = OPEN.
Proof.
  intros update s. split; [apply reachable_runEvents, reach_init|].
  vm_compute. done.
Qed.

(** ** The reading that is stored *)

(** C6. A [sensor-data] message that carries [deviceId] and [timestamp]
    fields of its own, handled at instant 1000: the reading handed to the
    store has the message's [deviceId] and [timestamp], not the fixed
    identifier and not the instant of handling. *)
Theorem reading_takes_message_deviceId_and_timestamp :
  let fs := [("type", JStr "sensor-data"); ("sensorType", JStr "temp");
             ("deviceId", JStr "other"); ("timestamp", JNum 5)] in
  let s := finalState (step 0 (EvConnection "/esp32" None) initialState) in
  exists doc,
    trace (finalState (step 1000 (EvMessage 0%nat (mkFrame false 0 "" (Some (JObj fs)))) s))
      = trace s ++ [ESave doc] /\
    doc = buildReading (setLastSeen (Some 1000) (esp32Status s))
                       (buildSensorData 1000 (JObj fs)) /\
    jprop doc "deviceId" = JStr "other" /\
    jprop doc "timestamp" = JNum 5 /\
    jprop doc "sensorType" = JStr "temp".
Proof.
  intros fs s. eexists. split; [vm_compute; reflexivity|]. vm_compute. done.
Qed.

(** Where the message has no [timestamp] and no [deviceId] of its own, the
    reading is stamped with the instant of handling and the fixed
    identifier, carries the declared sensor type, or ["unknown"] when there
    is none, and the battery and signal figures of the device status. *)
Lemma reading_of_plain_message now st fs :
  "timestamp" ∉ fs.*1 ->
  "deviceId" ∉ fs.*1 ->
  NoDup fs.*1 ->
  let doc := buildReading st (buildSensorData now (JObj fs)) in
  jprop doc "timestamp" = JDate now /\
  jprop doc "deviceId" = JStr "esp32-main" /\
  jprop doc "sensorType" = match objGet "sensorType" fs with
                           | Some v => v
                           | None => JStr "unknown"
                           end /\
  jprop doc "metadata" = JObj [("batteryLevel", optChain (deviceInfo st) "batteryLevel");
                               ("signalStrength", optChain (deviceInfo st) "signalStrength")].
Proof.
  intros Hts Hid Hnd doc. unfold doc, buildReading, buildSensorData.
  cbn [jprop objGet String.eqb Ascii.eqb Bool.eqb default]. unfold id.
  rewrite (objGet_spread_absent "timestamp") by done.
  rewrite (objGet_spread_absent "deviceId") by done.
  split_and!; try done.
  destruct (objGet "sensorType" fs) as [v|] eqn:Hst.
  - by erewrite objGet_spread_present.
  - pose proof Hst as Hn. apply objGet_None in Hn.
    by rewrite objGet_spread_absent.
Qed.

(** ** The handshake *)

Lemma includes_elem x l : Upgrade.includes x l = true <-> x ∈ l.
Proof.
  unfold Upgrade.includes. rewrite existsb_exists. split.
  - intros (y & Hin & Heq). apply String.eqb_eq in Heq as ->. by apply list_elem_of_In.
  - intros Hin. exists x. split; [by apply list_elem_of_In | apply String.eqb_refl].
Qed.

(** C7, as the code has it. A request for the device path is upgraded and
    becomes the device connection whatever its origin and whatever the
    verifier would answer, and no call to the verifier is made. The origin
    policy, which [verifyClient] applies to the other paths, allows an absent
    or empty origin, and allows a non-empty origin exactly in development
    mode, or when the allow-list (the configured origins, the server's own
    address and http://localhost:3000) contains it or contains "*". *)
Theorem device_path_upgraded_without_checks
    nodeEnv corsAllowedOrigins serverHost serverPort jwtVerify findById request u :
  Upgrade.url request = Some u ->
  Upgrade.pathname u = "/esp32" ->
  Upgrade.handleUpgrade nodeEnv corsAllowedOrigins serverHost serverPort jwtVerify findById
    request = (Upgrade.Upgraded None, []) /\
  Upgrade.decide_upgrade nodeEnv corsAllowedOrigins serverHost serverPort jwtVerify findById
    request = Upgrade.DeviceConnection /\
  Upgrade.isOriginAllowed nodeEnv corsAllowedOrigins serverHost serverPort None = true /\
  Upgrade.isOriginAllowed nodeEnv corsAllowedOrigins serverHost serverPort (Some "") = true /\
  forall org, org <> "" ->
    (Upgrade.isOriginAllowed nodeEnv corsAllowedOrigins serverHost serverPort (Some org)
       = false <->
     nodeEnv <> Some "development" /\
     (org ∉ Upgrade.allowedOrigins corsAllowedOrigins serverHost serverPort) /\
     ("*" ∉ Upgrade.allowedOrigins corsAllowedOrigins serverHost serverPort)).
Proof.
  intros Hurl Hpath. split_and!.
  - unfold Upgrade.handleUpgrade. by rewrite Hurl, Hpath.
  - unfold Upgrade.decide_upgrade, Upgrade.handleUpgrade. by rewrite Hurl, Hpath.
  - done.
  - done.
  - intros org Hne. unfold Upgrade.isOriginAllowed, Upgrade.nonEmpty.
    destruct (String.eqb_spec org ""); [done|].
    case_bool_decide as Hdev.
    + split; [done | intros [Hn _]; done].
    + rewrite orb_false_iff.
      rewrite <- !not_true_iff_false, !includes_elem. tauto.
Qed.

Lemma device_path_upgraded_without_checks_witness :
  let request := Upgrade.mkRequest (Some (Upgrade.mkUrl "/esp32" None))
                                   (Some "http://elsewhere.example") None None in
  let rejectAll := fun _ : string => @inl string JValue "invalid signature" in
  let noUser := fun _ : JValue => @inr string (option string) None in
  Upgrade.handleUpgrade (Some "production") None "localhost" "8080" rejectAll noUser
    request = (Upgrade.Upgraded None, []) /\
  Upgrade.decide_upgrade (Some "production") None "localhost" "8080" rejectAll noUser
    request = Upgrade.DeviceConnection.
Proof.
  intros request rejectAll noUser.
  destruct (device_path_upgraded_without_checks (Some "production") None "localhost" "8080"
              rejectAll noUser request (Upgrade.mkUrl "/esp32" None) eq_refl eq_refl)
    as (H1 & H2 & _).
  split; [exact H1 | exact H2].
Defined.

(** C7, as the specification words it, fails twice: in production, with no
    configured origins, a request for the device path whose origin the
    policy rejects is upgraded all the same; and in development mode the
    policy allows an origin that is not in the allow-list, which has no "*". *)
Lemma device_path_not_conditioned_on_origin :
  let request := Upgrade.mkRequest (Some (Upgrade.mkUrl "/esp32" None))
                                   (Some "http://elsewhere.example") None None in
  let rejectAll := fun _ : string => @inl string JValue "invalid signature" in
  let noUser := fun _ : JValue => @inr string (option string) None in
  Upgrade.isOriginAllowed (Some "production") None "localhost" "8080"
    (Upgrade.origin request) = false /\
  Upgrade.decide_upgrade (Some "production") None "localhost" "8080" rejectAll noUser
    request = Upgrade.DeviceConnection /\
  Upgrade.isOriginAllowed (Some "development") None "localhost" "8080"
    (Some "http://elsewhere.example") = true /\
  Upgrade.includes "http://elsewhere.example"
    (Upgrade.allowedOrigins None "localhost" "8080") = false /\
  Upgrade.includes "*" (Upgrade.allowedOrigins None "localhost" "8080") = false.
Proof. intros request rejectAll noUser. split_and!; vm_compute; reflexivity. Qed.

(** ** Registration of the device *)

Lemma sockAt_open_Some σ h :
  readyState (sockAt σ h) = OPEN -> exists k, σ !! h = Some k /\ readyState k = OPEN.
Proof.
  unfold sockAt. destruct (σ !! h) as [k|]; simpl; [eauto | done].
Qed.

Lemma handleESP32Connection_spec now ws s :
  exists s',
    handleESP32Connection now ws s = Ret tt s' /\
    esp32Client s' = Some ws /\
    connected (esp32Status s') = true /\
    lastSeen (esp32Status s') = Some now /\
    trace s `prefix_of` trace s' /\
    sublist (clients s') (clients s) /\
    nextHandle s' = nextHandle s /\
    sockets s' =
      alter (setWiring DeviceSocket) ws
        (match esp32Client s with
         | Some old => if isOpen (readyState (sockOf s old))
                       then alter startClosing old (sockets s) else sockets s
         | None => sockets s
         end) /\
    forall old,
      esp32Client s = Some old -> readyState (sockOf s old) = OPEN ->
      EClose old None ∈ trace s'.
Proof.
  unfold handleESP32Connection.
  match goal with
  | |- context [bind (modify (setEsp32Client (Some ws))) ?k] =>
      set (tail := bind (modify (setEsp32Client (Some ws))) k)
  end.
  assert (Htail : forall s0,
    exists s',
      tail s0 = Ret tt s' /\
      esp32Client s' = Some ws /\
      connected (esp32Status s') = true /\
      lastSeen (esp32Status s') = Some now /\
      trace s0 `prefix_of` trace s' /\
      sublist (clients s') (clients s0) /\
      nextHandle s' = nextHandle s0 /\
      sockets s' = alter (setWiring DeviceSocket) ws (sockets s0)).
  { intros s0. unfold tail, bind, modify, updStatus, updSocket. simpl.
    match goal with
    | |- context [sendToESP32 ?m ?st] =>
        destruct (sendToESP32_frame m st) as (b & s2 & -> & Hf2)
    end.
    match goal with
    | |- context [broadcastToClients ?m ?st] =>
        destruct (broadcastToClients_frame m st) as (n & s3 & -> & Hf3)
    end.
    destruct Hf2, Hf3. simpl in *.
    eexists. split; [reflexivity|]. simpl.
    split_and!; try congruence.
    - by rewrite sf_status1, sf_status0.
    - by rewrite sf_status1, sf_status0.
    - by etransitivity.
    - by etransitivity. }
  clearbody tail. unfold bind, gets.
  destruct (esp32Client s) as [old|] eqn:Hold.
  - destruct (isOpen (readyState (sockOf s old))) eqn:Hopen.
    + unfold logAt, wsClose, bind, emit, updSocket, modify. simpl.
      match goal with
      | |- context [tail ?st] =>
          destruct (Htail st) as (s' & Hrun & H1 & H2 & H3 & H4 & H5 & H6 & H7)
      end.
      simpl in *. exists s'. split; [exact Hrun|]. split_and!; try done.
      * etransitivity; [|exact H4]. by apply prefix_app_r.
      * intros old' [= <-] _. destruct H4 as [k ->].
        apply elem_of_app. left. apply elem_of_app. right. left.
    + destruct (Htail s) as (s' & Hrun & H1 & H2 & H3 & H4 & H5 & H6 & H7).
      simpl. exists s'. split; [exact Hrun|]. split_and!; try done.
      intros old' [= <-] Hr. by rewrite Hr in Hopen.
  - destruct (Htail s) as (s' & Hrun & H1 & H2 & H3 & H4 & H5 & H6 & H7).
    simpl. exists s'. split; [exact Hrun|]. split_and!; done.
Qed.

(** ** Well-formedness of the reachable states *)

Lemma socketStep_refl o : socketStep o o.
Proof. destruct o; simpl; auto. Qed.

Lemma socketStep_trans o1 o2 o3 : socketStep o1 o2 -> socketStep o2 o3 -> socketStep o1 o3.
Proof.
  destruct o1, o2, o3; simpl; try done.
  intros (H1 & H2 & H3) (H4 & H5 & H6). split_and!; [congruence | auto | auto].
Qed.

Global Instance socketsStep_preorder : PreOrder socketsStep.
Proof.
  split.
  - intros σ h. apply socketStep_refl.
  - intros σ1 σ2 σ3 H1 H2 h. eapply socketStep_trans; [apply H1 | apply H2].
Qed.

Global Instance quiet_preorder : PreOrder quiet.
Proof.
  split.
  - intros s. split; [done | done | by left | reflexivity].
  - intros s1 s2 s3 [] []. split.
    + by etransitivity.
    + congruence.
    + destruct q_device1 as [Hd | Hd]; rewrite Hd; [done | by right].
    + by etransitivity.
Qed.

Lemma sendFrame_quiet s s' : sendFrame s s' -> quiet s s'.
Proof.
  intros []. split; [done | done | by left |].
  rewrite sf_sockets0. reflexivity.
Qed.

Lemma socketsStep_alter f h σ :
  (forall k, wiring (f k) = wiring k /\
             (readyState (f k) = CONNECTING -> readyState k = CONNECTING) /\
             (readyState (f k) = CLOSED -> readyState k = CLOSED)) ->
  socketsStep σ (alter f h σ).
Proof.
  intros Hf h'. rewrite lookup_alter. case_decide as Hd.
  - subst. destruct (σ !! h') as [k|]; simpl; [apply Hf | done].
  - apply socketStep_refl.
Qed.

Lemma startClosing_step k :
  wiring (startClosing k) = wiring k /\
  (readyState (startClosing k) = CONNECTING -> readyState k = CONNECTING) /\
  (readyState (startClosing k) = CLOSED -> readyState k = CLOSED).
Proof. unfold startClosing. destruct (readyState k) eqn:Hr; simpl; rewrite ?Hr; done. Qed.

Lemma quiet_sockets s σ :
  socketsStep (sockets s) σ -> quiet s (setSockets σ s).
Proof. intros H. split; simpl; [done | done | by left | done]. Qed.

Ltac quiet_leaf :=
  first
    [ intros; apply sendFrame_quiet; assumption
    | apply quiet_sockets, socketsStep_alter; intros ?;
      first [ apply startClosing_step | simpl; done ]
    | split; simpl;
      [ first [ reflexivity | apply mapDelete_sublist ]
      | reflexivity
      | first [ left; reflexivity | right; reflexivity ]
      | reflexivity ] ].

Lemma heartbeatLoop_quiet entries : mrel quiet (heartbeatLoop entries).
Proof.
  induction entries as [|[u h] rest IH]; simpl; [apply mrel_ret; apply _|].
  mrel_go quiet_leaf. exact IH.
Qed.

Lemma handleESP32Message_quiet now data : mrel quiet (handleESP32Message now data).
Proof.
  unfold handleESP32Message, handleDeviceInfo, handleSensorData, saveSensorDataToDatabase,
    handleStatusUpdate.
  mrel_go quiet_leaf.
Qed.

Lemma handleClientMessage_quiet now ws userId data :
  mrel quiet (handleClientMessage now ws userId data).
Proof.
  unfold handleClientMessage, handleGetSensorData, queryFailed, handleControlESP32.
  mrel_go quiet_leaf.
Qed.

Lemma handleESP32Disconnect_quiet now : mrel quiet (handleESP32Disconnect now).
Proof. unfold handleESP32Disconnect. mrel_go quiet_leaf. Qed.

(** The events whose handlers are quiet throughout. *)
Lemma step_quiet now ev :
  match ev with EvConnection _ _ | EvClose _ => False | _ => True end ->
  mrel quiet (step now ev).
Proof.
  intros Hev. destruct ev; try done; unfold step.
  - unfold onSocket. mrel_go quiet_leaf;
      first [apply handleESP32Message_quiet | apply handleClientMessage_quiet].
  - unfold onSocket. mrel_go quiet_leaf.
  - unfold onSocket, handleESP32Disconnect. mrel_go quiet_leaf.
  - unfold heartbeat. mrel_go quiet_leaf. apply heartbeatLoop_quiet.
  - unfold checkESP32Status. mrel_go quiet_leaf.
  - unfold resumeSensorData. mrel_go quiet_leaf.
  - unfold resumeGetSensorData, queryFailed. mrel_go quiet_leaf.
  - mrel_go quiet_leaf.
Qed.

Lemma wf_quiet s s' : wfState s -> quiet s s' -> wfState s'.
Proof.
  intros [Hu Hh Hc Hs Hd] [Qc Qn Qd Qs]. unfold socketsStep in Qs. split.
  - eapply sublist_NoDup; [exact Hu | by apply fmap_sublist].
  - eapply sublist_NoDup; [exact Hh | by apply fmap_sublist].
  - intros u h Hin. destruct (Hc u h) as (k & Hk & Hw & Hr).
    { eapply elem_of_sublist; eauto. }
    specialize (Qs h). rewrite Hk in Qs.
    destruct (sockets s' !! h) as [k'|]; simpl in Qs; [|done].
    destruct Qs as (Q1 & Q2 & Q3). exists k'. split_and!; [done | congruence | auto].
  - intros h k' Hk'. specialize (Qs h). rewrite Hk' in Qs.
    destruct (sockets s !! h) as [k|] eqn:Hk; simpl in Qs; [|done].
    destruct Qs as (Q1 & Q2 & Q3). destruct (Hs h k Hk) as [Hlt Hnc].
    split; [lia | auto].
  - intros d Hd'. destruct Qd as [Qd|Qd]; [|congruence].
    destruct (Hd d) as (k & Hk & Hw); [congruence|].
    specialize (Qs d). rewrite Hk in Qs.
    destruct (sockets s' !! d) as [k'|]; simpl in Qs; [|done].
    destruct Qs as (Q1 & Q2 & Q3). exists k'. split; [done | congruence].
Qed.

Lemma wf_handle_bound s u h : wfState s -> (u, h) ∈ clients s -> (h < nextHandle s)%nat.
Proof.
  intros Hwf Hin. destruct (wf_clients s Hwf u h Hin) as (k & Hk & _).
  by destruct (wf_sockets s Hwf h k Hk).
Qed.

Lemma wf_allocated s : wfState s -> wfState (allocated s).
Proof.
  intros Hwf. pose proof Hwf as [Hu Hh Hc Hs Hd]. unfold allocated. split; simpl.
  - done.
  - done.
  - intros u h Hin. destruct (Hc u h Hin) as (k & Hk & Hw & Hr).
    exists k. split; [|done]. rewrite lookup_insert_ne; [done|].
    destruct (Hs h k Hk). lia.
  - intros h k Hk. apply lookup_insert_Some in Hk as [[<- <-]|[Hne Hk]].
    + simpl. split; [lia | done].
    + destruct (Hs h k Hk). split; [lia | done].
  - intros d Hd'. destruct (Hd d Hd') as (k & Hk & Hw).
    exists k. split; [|done]. rewrite lookup_insert_ne; [done|].
    destruct (Hs d k Hk). lia.
Qed.

Lemma allocated_fresh s :
  wfState s ->
  (nextHandle s ∉ (clients (allocated s)).*2) /\
  sockets (allocated s) !! nextHandle s = Some (mkSocket OPEN None false Unwired).
Proof.
  intros Hwf. split; simpl.
  - intros Hin. apply list_elem_of_fmap_1 in Hin as ([u h] & Heq & Hin). simpl in Heq. subst.
    pose proof (wf_handle_bound s u _ Hwf Hin). lia.
  - apply lookup_insert_eq.
Qed.

(** The close listeners: the socket is closed and no entry of the registry
    that remains holds it. *)
Lemma wf_closed s h c' :
  wfState s ->
  sublist c' (clients s) ->
  (forall u, (u, h) ∉ c') ->
  wfState (setClients c' (setSockets (alter (setReadyState CLOSED) h (sockets s)) s)).
Proof.
  intros [Hu Hh Hc Hs Hd] Hsub Hnot. split; simpl.
  - eapply sublist_NoDup; [exact Hu | by apply fmap_sublist].
  - eapply sublist_NoDup; [exact Hh | by apply fmap_sublist].
  - intros u h' Hin. destruct (Hc u h') as (k & Hk & Hw & Hr).
    { eapply elem_of_sublist; eauto. }
    exists k. split; [|done]. rewrite lookup_alter_ne; [done|].
    intros ->. by apply (Hnot u).
  - intros h' k' Hk'. apply lookup_alter_Some in Hk' as [[-> (k & Hk & ->)]|[Hne Hk]].
    + destruct (Hs h' k Hk). simpl. split; [done | done].
    + by apply Hs.
  - intros d Hd'. destruct (Hd d Hd') as (k & Hk & Hw).
    destruct (decide (h = d)) as [->|Hne].
    + exists (setReadyState CLOSED k). split; [|done].
      by rewrite lookup_alter_eq, Hk.
    + exists k. split; [|done]. by rewrite lookup_alter_ne.
Qed.

Lemma elem_of_mapDelete u u' h (m : list (UserId * Handle)) :
  (u', h) ∈ mapDelete u m -> u' <> u /\ (u', h) ∈ m.
Proof.
  induction m as [|[k h1] m IH]; simpl; [intros H; by apply elem_of_nil in H|].
  destruct (String.eqb_spec k u) as [->|Hne].
  - intros H. destruct (IH H). split; [done | by right].
  - intros H. apply elem_of_cons in H as [[= -> ->]|H].
    + split; [done | left].
    + destruct (IH H). split; [done | by right].
Qed.

Lemma elem_of_mapSet u h u' h' (m : list (UserId * Handle)) :
  (u', h') ∈ mapSet u h m -> (u', h') = (u, h) \/ (u', h') ∈ m.
Proof.
  induction m as [|[k h1] m IH]; simpl.
  - intros H. apply list_elem_of_singleton in H. by left.
  - destruct (String.eqb_spec k u) as [->|Hne].
    + intros H. apply elem_of_cons in H as [H|H]; [by left | right; by right].
    + intros H. apply elem_of_cons in H as [H|H]; [right; rewrite H; left|].
      destruct (IH H) as [?|?]; [by left | right; by right].
Qed.

Lemma mapSet_keys u h (m : list (UserId * Handle)) :
  (mapSet u h m).*1 = if bool_decide (u ∈ m.*1) then m.*1 else m.*1 ++ [u].
Proof.
  induction m as [|[k1 v1] m IH]; [done|].
  cbn [mapSet]. destruct (String.eqb_spec k1 u) as [->|Hne]; rewrite !fmap_cons; cbn [fst].
  - rewrite bool_decide_eq_true_2; [done | left].
  - rewrite IH. destruct (bool_decide (u ∈ m.*1)) eqn:Hd.
    + apply bool_decide_eq_true_1 in Hd. rewrite bool_decide_eq_true_2; [done | by right].
    + apply bool_decide_eq_false_1 in Hd. rewrite bool_decide_eq_false_2; [done|].
      rewrite not_elem_of_cons. split; [congruence | done].
Qed.

Lemma mapSet_users_NoDup u h (m : list (UserId * Handle)) :
  NoDup m.*1 -> NoDup (mapSet u h m).*1.
Proof.
  intros Hnd. rewrite mapSet_keys. case_bool_decide as Hk; [done|].
  apply NoDup_app. split_and!; [done | | apply NoDup_singleton].
  intros x Hx Hx'. apply list_elem_of_singleton in Hx' as ->. done.
Qed.

Lemma mapSet_handles_NoDup u h (m : list (UserId * Handle)) :
  NoDup m.*2 -> h ∉ m.*2 -> NoDup (mapSet u h m).*2.
Proof.
  induction m as [|[k1 h1] m IH]; intros Hnd Hfresh.
  - simpl. apply NoDup_singleton.
  - rewrite fmap_cons in Hnd, Hfresh. cbn [snd] in *.
    apply NoDup_cons in Hnd as [Hh1 Hnd]. apply not_elem_of_cons in Hfresh as [Hne Hfresh].
    cbn [mapSet]. destruct (String.eqb k1 u); rewrite fmap_cons; cbn [snd].
    + apply NoDup_cons. split; done.
    + apply NoDup_cons. split; [|by apply IH].
      intros Hin. apply list_elem_of_fmap_1 in Hin as ([u2 h2] & Heq & Hin).
      simpl in Heq. subst h2.
      apply elem_of_mapSet in Hin as [[= _ ->]|Hin]; [done|].
      apply Hh1. change h1 with ((u2, h1).2). by apply list_elem_of_fmap_2.
Qed.

(** [handleClientConnection] after its greeting: the new socket enters the
    registry under [u] and gets its listeners. *)
Lemma wf_registered_client s u ws k :
  wfState s ->
  ws ∉ (clients s).*2 ->
  sockets s !! ws = Some k ->
  readyState k <> CLOSED ->
  (esp32Client s = Some ws -> False) ->
  wfState (setSockets
             (alter (setWiring (ClientSocket u)) ws
                (alter (setIsAlive (Some true)) ws (sockets s)))
             (setClients (mapSet u ws (clients s)) s)).
Proof.
  intros [Hu Hh Hc Hs Hd] Hfresh Hk Hr Hdev. split; simpl.
  - by apply mapSet_users_NoDup.
  - by apply mapSet_handles_NoDup.
  - intros u' h' Hin. apply elem_of_mapSet in Hin as [[= -> ->]|Hin].
    + exists (setWiring (ClientSocket u) (setIsAlive (Some true) k)).
      split; [|done]. by rewrite !lookup_alter_eq, Hk.
    + destruct (Hc u' h' Hin) as (k' & Hk' & Hw & Hr').
      assert (h' <> ws).
      { intros ->. apply Hfresh. change ws with ((u', ws).2). by apply list_elem_of_fmap_2. }
      exists k'. split; [|done]. by rewrite !lookup_alter_ne.
  - intros h' k' Hk'.
    apply lookup_alter_Some in Hk' as [[-> (k1 & Hk1 & ->)]|[Hne Hk']].
    + apply lookup_alter_Some in Hk1 as [[_ (k2 & Hk2 & ->)]|[Hne _]]; [|done].
      simpl. by apply Hs.
    + rewrite lookup_alter_ne in Hk' by done. by apply Hs.
  - intros d Hd'. destruct (Hd d Hd') as (k' & Hk' & Hw).
    exists k'. split; [|done]. rewrite !lookup_alter_ne; [done | |]; by intros ->.
Qed.

(** [handleESP32Connection]: the new socket takes the slot and gets its
    listeners, after the handlers in between changed the state quietly. *)
Lemma wf_registered_device s σ c ws :
  wfState s ->
  ws ∉ (clients s).*2 ->
  is_Some (sockets s !! ws) ->
  socketsStep (sockets s) σ ->
  sublist c (clients s) ->
  wfState (mkState c (Some ws) (esp32Status s)
                   (alter (setWiring DeviceSocket) ws σ) (nextHandle s)
                   (pendingSaves s) (pendingQueries s) (db s) (trace s) (logs s)).
Proof.
  intros [Hu Hh Hc Hs Hd] Hfresh [k0 Hk0] Hstep Hsub. split; simpl.
  - eapply sublist_NoDup; [exact Hu | by apply fmap_sublist].
  - eapply sublist_NoDup; [exact Hh | by apply fmap_sublist].
  - intros u h Hin. assert (Hin' : (u, h) ∈ clients s) by (eapply elem_of_sublist; eauto).
    destruct (Hc u h Hin') as (k & Hk & Hw & Hr).
    assert (h <> ws).
    { intros ->. apply Hfresh. change ws with ((u, ws).2). by apply list_elem_of_fmap_2. }
    rewrite lookup_alter_ne by done.
    specialize (Hstep h). rewrite Hk in Hstep.
    destruct (σ !! h) as [k'|]; simpl in Hstep; [|done].
    destruct Hstep as (Q1 & Q2 & Q3). exists k'. split_and!; [done | congruence | auto].
  - intros h k' Hk'.
    assert (Hpre : exists k1, σ !! h = Some k1 /\ readyState k' = readyState k1).
    { apply lookup_alter_Some in Hk' as [[-> (k1 & Hk1 & ->)]|[Hne Hk']]; eauto. }
    destruct Hpre as (k1 & Hk1 & ->).
    specialize (Hstep h). rewrite Hk1 in Hstep.
    destruct (sockets s !! h) as [k|] eqn:Hk; simpl in Hstep; [|done].
    destruct Hstep as (Q1 & Q2 & Q3). destruct (Hs h k Hk). split; [done | auto].
  - intros d [= <-]. specialize (Hstep ws). rewrite Hk0 in Hstep.
    destruct (σ !! ws) as [k'|] eqn:Hk'; simpl in Hstep; [|done].
    exists (setWiring DeviceSocket k'). split; [|done].
    by rewrite lookup_alter_eq, Hk'.
Qed.

Lemma wf_ext s1 s2 :
  wfState s1 ->
  clients s2 = clients s1 -> esp32Client s2 = esp32Client s1 ->
  sockets s2 = sockets s1 -> nextHandle s2 = nextHandle s1 ->
  wfState s2.
Proof.
  intros [Hu Hh Hc Hs Hd] E1 E2 E3 E4.
  split; rewrite ?E1, ?E2, ?E3, ?E4; done.
Qed.

Lemma sockOf_allocated s :
  sockOf (allocated s) (nextHandle s) = mkSocket OPEN None false Unwired.
Proof. unfold sockOf, allocated. simpl. by rewrite lookup_insert_eq. Qed.

Lemma onConnection_eq now path user s :
  onConnection now path user s =
  (if String.eqb path "/esp32" then handleESP32Connection now (nextHandle s)
   else
     match user with
     | Some userId =>
         if String.eqb userId ""
         then wsClose (nextHandle s) (Some (1008, "Authentication failed"))
         else handleClientConnection now (nextHandle s) userId
     | None => wsClose (nextHandle s) (Some (1008, "Authentication failed"))
     end) (allocated s).
Proof. reflexivity. Qed.

Lemma wf_no_entry_for s h :
  wfState s ->
  (forall u, wiring (sockOf s h) <> ClientSocket u) ->
  forall u, (u, h) ∉ clients s.
Proof.
  intros Hwf Hw u Hin. destruct (wf_clients s Hwf u h Hin) as (k & Hk & Hwk & _).
  apply (Hw u). unfold sockOf. by rewrite Hk.
Qed.

Lemma wf_device_not_fresh s : wfState s -> esp32Client s <> Some (nextHandle s).
Proof.
  intros Hwf Hd. destruct (wf_device s Hwf _ Hd) as (k & Hk & _).
  destruct (wf_sockets s Hwf _ k Hk). lia.
Qed.

Lemma handleClientConnection_wf now u s :
  wfState s ->
  wfState (finalState (handleClientConnection now (nextHandle s) u (allocated s))).
Proof.
  intros Hwf.
  pose proof (wf_allocated s Hwf) as Hwfa.
  destruct (allocated_fresh s Hwf) as [Hfresh Hsock].
  pose proof (wf_device_not_fresh s Hwf) as Hdev.
  unfold handleClientConnection, bind, gets, wsSend. rewrite sockOf_allocated. simpl.
  unfold addClient, bind, gets, emit, modify. simpl.
  destruct (mapGet u (clients s)) as [prev|] eqn:Hprev; simpl.
  - unfold wsClose, bind, emit, updSocket, modify. simpl.
    match goal with
    | |- wfState (setSockets _ (setSockets _ (setClients _ ?s1))) =>
        pose proof (wf_quiet (allocated s) s1 Hwfa) as Hwf1
    end.
    assert (Hq : socketsStep (sockets (allocated s))
                   (alter startClosing prev (sockets (allocated s)))).
    { apply socketsStep_alter. apply startClosing_step. }
    pose proof (Hq (nextHandle s)) as Hws. rewrite Hsock in Hws.
    destruct (alter startClosing prev (sockets (allocated s)) !! nextHandle s)
      as [k|] eqn:Hk; simpl in Hws; [|done].
    destruct Hws as (W1 & W2 & W3).
    eapply wf_ext; [eapply (wf_registered_client _ u (nextHandle s) k) | ..].
    + apply Hwf1. split; simpl; [done | done | by left | exact Hq].
    + exact Hfresh.
    + exact Hk.
    + intros Hc. by apply W3 in Hc.
    + exact Hdev.
    + reflexivity.
    + reflexivity.
    + reflexivity.
    + reflexivity.
  - unfold updSocket, modify. simpl.
    eapply wf_ext;
      [eapply (wf_registered_client (allocated s) u (nextHandle s) _ Hwfa Hfresh Hsock) | ..];
      try reflexivity; [done | exact Hdev].
Qed.

Lemma handleESP32Connection_wf now s :
  wfState s ->
  wfState (finalState (handleESP32Connection now (nextHandle s) (allocated s))).
Proof.
  intros Hwf.
  pose proof (wf_allocated s Hwf) as Hwfa.
  destruct (allocated_fresh s Hwf) as [Hfresh Hsock].
  destruct (handleESP32Connection_spec now (nextHandle s) (allocated s))
    as (s' & -> & Hdev & _ & _ & _ & Hsub & Hnext & Hsockets & _).
  simpl finalState.
  eapply wf_ext;
    [eapply (wf_registered_device (allocated s) _ (clients s') (nextHandle s) Hwfa Hfresh)
    | reflexivity | exact Hdev | exact Hsockets | exact Hnext]; [by eexists | | exact Hsub].
  destruct (esp32Client (allocated s)) as [old|]; [|reflexivity].
  destruct (isOpen _); [|reflexivity].
  apply socketsStep_alter, startClosing_step.
Qed.

Lemma step_wf now ev s : wfState s -> wfState (finalState (step now ev s)).
Proof.
  intros Hwf. destruct ev as [path user|h data|h|h|h err| | |i failure|i result|h b];
    try (by eapply wf_quiet; [exact Hwf | apply step_quiet]).
  - (* connection *)
    unfold step. rewrite onConnection_eq.
    destruct (String.eqb path "/esp32"); [by apply handleESP32Connection_wf|].
    assert (Hclose :
      wfState (finalState (wsClose (nextHandle s) (Some (1008, "Authentication failed"))
                             (allocated s)))).
    { eapply wf_quiet; [by apply wf_allocated|].
      assert (H : mrel quiet (wsClose (nextHandle s) (Some (1008, "Authentication failed"))))
        by mrel_go quiet_leaf.
      apply H. }
    destruct user as [u|]; [|exact Hclose].
    destruct (String.eqb u ""); [exact Hclose | by apply handleClientConnection_wf].
  - (* close *)
    unfold step, onSocket, bind, gets.
    destruct (readyState (sockOf s h)) eqn:Hr; try exact Hwf;
      destruct (wiring (sockOf s h)) eqn:Hw; try exact Hwf.
    all: unfold updSocket, removeClient, modify; simpl.
    all: try (eapply wf_quiet; [|apply handleESP32Disconnect_quiet];
              apply (wf_closed s h (clients s) Hwf); [reflexivity|];
              apply wf_no_entry_for; [exact Hwf | intros u; by rewrite Hw]).
    all: apply (wf_closed s h (mapDelete userId (clients s)) Hwf);
           [apply mapDelete_sublist|];
           intros u Hin; apply elem_of_mapDelete in Hin as [Hne Hin];
           destruct (wf_clients s Hwf u h Hin) as (k & Hk & Hwk & _);
           unfold sockOf in Hw; rewrite Hk in Hw; simpl in Hw; congruence.
Qed.

(** Every reachable state is well formed. *)
Lemma reachable_wf s : reachable s -> wfState s.
Proof.
  induction 1 as [|s now ev Hs IH].
  - split; simpl.
    + apply NoDup_nil_2.
    + apply NoDup_nil_2.
    + intros u h Hin. by apply elem_of_nil in Hin.
    + intros h k Hk. by rewrite lookup_empty in Hk.
    + intros d Hd. discriminate.
  - by apply step_wf.
Qed.

(** ** The heartbeat cycle *)

Lemma flat_map_agree {A B} (f g : A -> list B) (l : list A) :
  (forall x, x ∈ l -> f x = g x) -> flat_map f l = flat_map g l.
Proof.
  induction l as [|x l IH]; simpl; intros H; [done|].
  rewrite (H x) by left. f_equal. apply IH. intros y Hy. apply H. by right.
Qed.

Lemma sockAt_alter_ne f h σ h' : h <> h' -> sockAt (alter f h σ) h' = sockAt σ h'.
Proof. intros Hne. unfold sockAt. by rewrite lookup_alter_ne. Qed.

Lemma heartbeatLoop_spec l :
  forall s,
    NoDup l.*2 ->
    (forall e, e ∈ l -> readyState (sockAt (sockets s) e.2) <> CONNECTING) ->
    heartbeatLoop l s = Ret tt (afterHeartbeatLoop l s).
Proof.
  induction l as [|[u h] l IH]; intros s Hnd Hnc.
  - simpl. unfold ret, afterHeartbeatLoop. simpl. rewrite !app_nil_r. by destruct s.
  - rewrite fmap_cons in Hnd. cbn [snd] in Hnd. apply NoDup_cons in Hnd as [Hh Hnd].
    assert (Hrest : forall e, e ∈ l -> h <> e.2).
    { intros e He ->. apply Hh. by apply list_elem_of_fmap_2. }
    assert (Hhead : readyState (sockOf s h) <> CONNECTING) by (apply (Hnc (u, h)); left).
    assert (Hstep : exists s1,
      match isAlive (sockOf s h) with
      | Some false =>
          logAt LWarn ("Terminating unresponsive client: " +:+ u) ;;;
          wsTerminate h
      | _ =>
          updSocket h (setIsAlive (Some false)) ;;;
          wsPing h
      end s = Ret tt s1 /\
      s1 = mkState (clients s) (esp32Client s) (esp32Status s)
                   (alter heartbeatSocket h (sockets s))
                   (nextHandle s) (pendingSaves s) (pendingQueries s) (db s)
                   (trace s ++ heartbeatEffects (sockets s) (u, h))
                   (logs s ++ heartbeatLogs (sockets s) (u, h))).
    { unfold heartbeatEffects, heartbeatLogs. cbn [snd fst].
      change (sockAt (sockets s) h) with (sockOf s h).
      assert (Halter : alter heartbeatSocket h (sockets s) =
                       alter (match isAlive (sockOf s h) with
                              | Some false => startClosing
                              | _ => setIsAlive (Some false)
                              end) h (sockets s)).
      { apply map_eq. intros i. rewrite !lookup_alter. case_decide as Hi; [|done].
        subst i. unfold sockOf, heartbeatSocket.
        destruct (sockets s !! h) as [k|]; simpl; [|done].
        by destruct (isAlive k) as [[]|]. }
      rewrite Halter.
      destruct (isAlive (sockOf s h)) as [[]|] eqn:Halive; unfold bind.
      - unfold updSocket, modify, wsPing. simpl.
        assert (Hrs : readyState (sockOf (setSockets
                        (alter (setIsAlive (Some false)) h (sockets s)) s) h)
                      = readyState (sockOf s h)).
        { unfold sockOf. simpl. rewrite lookup_alter_eq. by destruct (sockets s !! h). }
        rewrite Hrs. destruct (readyState (sockOf s h)) eqn:Hr; simpl; try done.
        all: eexists; split; [reflexivity|]; unfold emit, modify; simpl;
             rewrite ?app_nil_r; reflexivity.
      - unfold logAt, wsTerminate, bind, emit, updSocket, modify. simpl.
        eexists; split; reflexivity.
      - unfold updSocket, modify, wsPing. simpl.
        assert (Hrs : readyState (sockOf (setSockets
                        (alter (setIsAlive (Some false)) h (sockets s)) s) h)
                      = readyState (sockOf s h)).
        { unfold sockOf. simpl. rewrite lookup_alter_eq. by destruct (sockets s !! h). }
        rewrite Hrs. destruct (readyState (sockOf s h)) eqn:Hr; simpl; try done.
        all: eexists; split; [reflexivity|]; unfold emit, modify; simpl;
             rewrite ?app_nil_r; reflexivity. }
    destruct Hstep as (s1 & Hrun & Hs1).
    cbn [heartbeatLoop]. unfold bind at 1. unfold gets. unfold bind at 1. rewrite Hrun.
    rewrite IH; [|done|].
    + f_equal. unfold afterHeartbeatLoop. subst s1. cbn.
      rewrite (flat_map_agree (heartbeatEffects (alter heartbeatSocket h (sockets s)))
                 (heartbeatEffects (sockets s)) l).
      2: { intros e He. unfold heartbeatEffects. by rewrite sockAt_alter_ne by auto. }
      rewrite (flat_map_agree (heartbeatLogs (alter heartbeatSocket h (sockets s)))
                 (heartbeatLogs (sockets s)) l).
      2: { intros e He. unfold heartbeatLogs. by rewrite sockAt_alter_ne by auto. }
      by rewrite <- !app_assoc.
    + intros e He. subst s1. cbn. rewrite sockAt_alter_ne by auto.
      apply Hnc. by right.
Qed.

Lemma lookup_heartbeat (l : list (string * nat)) :
  forall (σ : gmap nat Socket) (h : nat),
    NoDup l.*2 ->
    foldl (fun σ e => alter heartbeatSocket e.2 σ) σ l !! h =
    if bool_decide (h ∈ l.*2) then heartbeatSocket <$> σ !! h else σ !! h.
Proof.
  induction l as [|[u h1] l IH]; intros σ h Hnd; [done|].
  rewrite fmap_cons in Hnd |- *. cbn [snd] in *.
  apply NoDup_cons in Hnd as [Hh1 Hnd].
  cbn [foldl snd]. rewrite IH by done.
  destruct (decide (h = h1)) as [->|Hne].
  - rewrite (bool_decide_eq_false_2 (h1 ∈ l.*2)) by done.
    rewrite bool_decide_eq_true_2 by left. apply lookup_alter_eq.
  - rewrite lookup_alter_ne by done.
    destruct (bool_decide (h ∈ l.*2)) eqn:Hd.
    + apply bool_decide_eq_true_1 in Hd. rewrite bool_decide_eq_true_2; [done | by right].
    + apply bool_decide_eq_false_1 in Hd. rewrite bool_decide_eq_false_2; [done|].
      rewrite not_elem_of_cons. done.
Qed.

Lemma wf_not_connecting s h : wfState s -> readyState (sockOf s h) <> CONNECTING.
Proof.
  intros Hwf. unfold sockOf. destruct (sockets s !! h) as [k|] eqn:Hk; simpl; [|done].
  by destruct (wf_sockets s Hwf h k Hk).
Qed.

Lemma heartbeat_spec s :
  wfState s ->
  exists extra,
    heartbeat s =
    Ret tt (setTrace (trace (afterHeartbeatLoop (clients s) s) ++ extra)
                     (afterHeartbeatLoop (clients s) s)).
Proof.
  intros Hwf. unfold heartbeat, bind, gets.
  rewrite heartbeatLoop_spec; [|by apply wf_handles | intros e _; by apply wf_not_connecting].
  destruct (esp32Client (afterHeartbeatLoop (clients s) s)) as [d|].
  - destruct (isOpen (readyState (sockOf (afterHeartbeatLoop (clients s) s) d))) eqn:Hopen.
    + exists [EPing d]. unfold wsPing.
      destruct (readyState (sockOf (afterHeartbeatLoop (clients s) s) d)); done.
    + exists []. unfold ret. f_equal. rewrite app_nil_r.
      by destruct (afterHeartbeatLoop (clients s) s).
  - exists []. unfold ret. f_equal. rewrite app_nil_r.
    by destruct (afterHeartbeatLoop (clients s) s).
Qed.

Lemma client_pong_step now h u s :
  wiring (sockOf s h) = ClientSocket u ->
  readyState (sockOf s h) <> CLOSED ->
  step now (EvPong h) s = Ret tt (setSockets (alter (setIsAlive (Some true)) h (sockets s)) s).
Proof.
  intros Hw Hr. unfold step, onSocket, bind, gets. rewrite Hw.
  by destruct (readyState (sockOf s h)).
Qed.

Lemma client_close_step now h u s :
  wiring (sockOf s h) = ClientSocket u ->
  readyState (sockOf s h) <> CLOSED ->
  step now (EvClose h) s =
  Ret tt (setClients (mapDelete u (clients s))
            (setSockets (alter (setReadyState CLOSED) h (sockets s)) s)).
Proof.
  intros Hw Hr. unfold step, onSocket, bind, gets. rewrite Hw.
  by destruct (readyState (sockOf s h)).
Qed.

(** C3. One heartbeat cycle in a reachable state, seen from a registered
    client [(u, h)]. If its flag is not false, the cycle sets it to false
    and, the connection being open, pings it. A pong arriving afterwards
    sets the flag to true. If the flag is still false when the cycle starts,
    the cycle terminates the connection, which starts closing, and the close
    event of that connection removes the client from the registry. *)
Theorem heartbeat_cycle s now u h :
  reachable s ->
  (u, h) ∈ clients s ->
  exists s1 new,
    step now EvHeartbeat s = Ret tt s1 /\
    trace s1 = trace s ++ new /\
    (u, h) ∈ clients s1 /\
    (isAlive (sockOf s h) <> Some false ->
       isAlive (sockOf s1 h) = Some false /\
       (readyState (sockOf s h) = OPEN -> EPing h ∈ new)) /\
    (forall now',
       isAlive (sockOf (finalState (step now' (EvPong h) s1)) h) = Some true) /\
    (isAlive (sockOf s h) = Some false ->
       ETerminate h ∈ new /\
       readyState (sockOf s1 h) = CLOSING /\
       forall now', mapGet u (clients (finalState (step now' (EvClose h) s1))) = None).
Proof.
  intros Hreach Hin.
  pose proof (reachable_wf s Hreach) as Hwf.
  destruct (wf_clients s Hwf u h Hin) as (k & Hk & Hw & Hr).
  destruct (wf_sockets s Hwf h k Hk) as [_ Hnc].
  destruct (heartbeat_spec s Hwf) as (extra & Hrun).
  set (s1 := setTrace (trace (afterHeartbeatLoop (clients s) s) ++ extra)
                      (afterHeartbeatLoop (clients s) s)) in *.
  assert (Hreach1 : reachable s1).
  { change s1 with (finalState (Ret tt s1)). rewrite <- Hrun.
    apply (reach_step s now EvHeartbeat Hreach). }
  pose proof (reachable_wf s1 Hreach1) as Hwf1.
  assert (Hin1 : (u, h) ∈ clients s1) by exact Hin.
  destruct (wf_clients s1 Hwf1 u h Hin1) as (k1 & Hk1 & Hw1 & Hr1).
  assert (Hk1' : k1 = heartbeatSocket k).
  { assert (Hl : sockets s1 !! h = Some (heartbeatSocket k)).
    { unfold s1. cbn. rewrite lookup_heartbeat by apply Hwf.
      rewrite bool_decide_eq_true_2, Hk; [done|].
      change h with ((u, h).2). by apply list_elem_of_fmap_2. }
    congruence. }
  subst k1.
  assert (Hs : sockOf s h = k) by (unfold sockOf; by rewrite Hk).
  assert (Hs1 : sockOf s1 h = heartbeatSocket k) by (unfold sockOf; by rewrite Hk1).
  assert (Heff : forall e, e ∈ heartbeatEffects (sockets s) (u, h) ->
                           e ∈ flat_map (heartbeatEffects (sockets s)) (clients s) ++ extra).
  { intros e He. apply elem_of_app. left. apply list_elem_of_In, in_flat_map.
    exists (u, h). split; by apply list_elem_of_In. }
  exists s1, (flat_map (heartbeatEffects (sockets s)) (clients s) ++ extra).
  split; [exact Hrun|]. split; [unfold s1; cbn; by rewrite app_assoc|].
  split; [exact Hin1|]. rewrite Hs, Hs1. split_and!.
  - intros Halive. unfold heartbeatSocket.
    split.
    + by destruct (isAlive k) as [[]|].
    + intros Hopen. apply Heff. unfold heartbeatEffects. cbn [snd].
      change (sockAt (sockets s) h) with (sockOf s h). rewrite Hs, Hopen.
      destruct (isAlive k) as [[]|]; try done; left.
  - intros now'. rewrite (client_pong_step now' h u s1) by (by rewrite Hs1).
    unfold sockOf. cbn [finalState sockets setSockets].
    by rewrite lookup_alter_eq, Hk1.
  - intros Halive. split_and!.
    + apply Heff. unfold heartbeatEffects. cbn [snd].
      change (sockAt (sockets s) h) with (sockOf s h). rewrite Hs, Halive. left.
    + unfold heartbeatSocket, startClosing. rewrite Halive.
      destruct (readyState k) eqn:Hrk; simpl; congruence.
    + intros now'. rewrite (client_close_step now' h u s1) by (by rewrite Hs1).
      simpl. apply mapGet_mapDelete.
Qed.

Lemma heartbeat_cycle_witness :
  let s := runEvents [(0, EvConnection "/ws" (Some "alice")); (30000, EvHeartbeat)]
                     initialState in
  exists s1 new,
    step 60000 EvHeartbeat s = Ret tt s1 /\
    trace s1 = trace s ++ new /\
    ETerminate 0%nat ∈ new /\
    readyState (sockOf s1 0%nat) = CLOSING /\
    mapGet "alice" (clients (finalState (step 60001 (EvClose 0%nat) s1))) = None.
Proof.
  intros s.
  destruct (heartbeat_cycle s 60000 "alice" 0%nat)
    as (s1 & new & Hrun & Htrace & _ & _ & _ & Hevict).
  - apply reachable_runEvents, reach_init.
  - vm_compute. left.
  - destruct Hevict as (Hterm & Hclosing & Hremoved); [reflexivity|].
    exists s1, new. split_and!; [exact Hrun | exact Htrace | exact Hterm | exact Hclosing |].
    apply Hremoved.
Defined.

(** ** The device slot *)

Lemma sockOf_allocated_ne s h : h <> nextHandle s -> sockOf (allocated s) h = sockOf s h.
Proof. intros Hne. unfold sockOf, allocated. simpl. by rewrite lookup_insert_ne. Qed.

(** C2. In a reachable state the device slot holds at most one handle, and
    the handle it holds has the device listeners. A connection on the
    device path is registered under a new handle, which is open and alone in
    the slot afterwards, with [connected] true and [lastSeen] the instant of
    registration; a previous handle that was open had [close()] called on it
    and is closing. *)
Theorem device_slot_last_writer_wins s now user :
  reachable s ->
  (length (registeredDevices s) <= 1)%nat /\
  (forall d, esp32Client s = Some d -> wiring (sockOf s d) = DeviceSocket) /\
  exists s',
    step now (EvConnection "/esp32" user) s = Ret tt s' /\
    registeredDevices s' = [nextHandle s] /\
    readyState (sockOf s' (nextHandle s)) = OPEN /\
    connected (esp32Status s') = true /\
    lastSeen (esp32Status s') = Some now /\
    forall old,
      esp32Client s = Some old ->
      readyState (sockOf s old) = OPEN ->
      EClose old None ∈ trace s' /\ readyState (sockOf s' old) = CLOSING.
Proof.
  intros Hreach. pose proof (reachable_wf s Hreach) as Hwf. split_and!.
  - unfold registeredDevices. destruct (esp32Client s); simpl; lia.
  - intros d Hd. destruct (wf_device s Hwf d Hd) as (k & Hk & Hw).
    unfold sockOf. by rewrite Hk.
  - unfold step. rewrite onConnection_eq. cbn [String.eqb Ascii.eqb Bool.eqb].
    destruct (handleESP32Connection_spec now (nextHandle s) (allocated s))
      as (s' & Hrun & Hdev & Hconn & Hseen & _ & _ & _ & Hsockets & Hclose).
    destruct (allocated_fresh s Hwf) as [_ Hsock].
    pose proof (wf_device_not_fresh s Hwf) as Hfresh.
    change (esp32Client (allocated s)) with (esp32Client s) in *.
    assert (Hold : forall old, esp32Client s = Some old ->
                     old <> nextHandle s /\ sockOf (allocated s) old = sockOf s old).
    { intros old Ho. assert (old <> nextHandle s) by congruence.
      split; [done | by apply sockOf_allocated_ne]. }
    exists s'. split; [exact Hrun|]. split_and!; try done.
    + unfold registeredDevices. by rewrite Hdev.
    + unfold sockOf. rewrite Hsockets, lookup_alter_eq.
      destruct (esp32Client s) as [old|] eqn:Ho.
      * destruct (Hold old eq_refl) as [Hne _].
        destruct (isOpen _); [rewrite lookup_alter_ne by done|]; by rewrite Hsock.
      * by rewrite Hsock.
    + intros old Ho Hopen. destruct (Hold old Ho) as [Hne Heq].
      split; [apply Hclose; [done | by rewrite Heq]|].
      unfold sockOf. rewrite Hsockets, Ho, Heq, Hopen. simpl.
      rewrite lookup_alter_ne by done. rewrite lookup_alter_eq.
      unfold allocated. simpl. rewrite lookup_insert_ne by done.
      apply sockAt_open_Some in Hopen as (k & Hk & Hrk). rewrite Hk. simpl.
      unfold startClosing. by rewrite Hrk.
Qed.

Lemma device_slot_last_writer_wins_witness :
  let s := runEvents [(0, EvConnection "/esp32" None)] initialState in
  (length (registeredDevices s) <= 1)%nat /\
  exists s',
    step 5 (EvConnection "/esp32" None) s = Ret tt s' /\
    registeredDevices s' = [1%nat] /\
    connected (esp32Status s') = true /\
    lastSeen (esp32Status s') = Some 5 /\
    EClose 0%nat None ∈ trace s' /\
    readyState (sockOf s' 0%nat) = CLOSING.
Proof.
  intros s.
  destruct (device_slot_last_writer_wins s 5 None)
    as (Hone & _ & s' & Hrun & Hreg & _ & Hconn & Hseen & Hold).
  - apply reachable_runEvents, reach_init.
  - split; [exact Hone|]. exists s'.
    destruct (Hold 0%nat eq_refl eq_refl) as [Hclose Hclosing].
    split_and!; [exact Hrun | exact Hreg | exact Hconn | exact Hseen | exact Hclose
                | exact Hclosing].
Defined.

(** The close event of the replaced connection runs the same disconnect
    handler as any other: it empties the slot and clears [connected] while
    the connection registered last is still open. *)
Lemma replaced_connection_close_empties_slot :
  let s := runEvents [(0, EvConnection "/esp32" None);
                      (1, EvConnection "/esp32" None);
                      (2, EvClose 0%nat)] initialState in
  reachable s /\
  esp32Client s = None /\
  connected (esp32Status s) = false /\
  wiring (sockOf s 1%nat) = DeviceSocket /\
  readyState (sockOf s 1%nat) = OPEN.
Proof.
  intros s. split; [apply reachable_runEvents, reach_init|]. vm_compute. done.
Qed.

(** The registry of a reachable state has one entry per user, which is what
    the broadcast statements assume. *)
Lemma reachable_clients_NoDup s : reachable s -> NoDup (clients s).*1.
Proof. intros Hs. apply wf_users. by apply reachable_wf. Qed.

(** ** The command relay after a reconnection *)

(** C8, as the specification words it, fails in a reachable state. A user
    connects, connects again, and the close event of the replaced
    connection arrives: its listener removes the user's registry entry
    although the connection opened last is open and has the user's
    listeners. A command arriving on that connection while the device is
    connected is forwarded to the device, and no acknowledgment is sent to
    anybody. *)
Lemma command_reply_lost_after_reconnect :
  let fs := [("type", JStr "control-esp32"); ("command", JStr "led-on")] in
  let data := mkFrame false 0 "" (Some (JObj fs)) in
  let s := runEvents [(0, EvConnection "/ws" (Some "alice"));
                      (1, EvConnection "/ws" (Some "alice"));
                      (2, EvConnection "/esp32" None);
                      (3, EvClose 0%nat)] initialState in
  reachable s /\
  wiring (sockOf s 1%nat) = ClientSocket "alice" /\
  readyState (sockOf s 1%nat) = OPEN /\
  sendThrows (sockOf s 1%nat) = false /\
  deviceOpen s = true /\
  step 4 (EvMessage 1%nat data) s =
  Ret tt (setTrace (trace s ++ [ESend 2%nat (commandEnvelope 4 "alice" (JObj fs))]) s).
Proof.
  intros fs data s. split; [apply reachable_runEvents, reach_init|].
  split_and!; vm_compute; reflexivity.
Qed.

(** * Further properties of the service *)

(** ** The routers *)

(** X1. The device router returns normally on every frame, in every state:
    no frame makes [handleESP32Message] throw, and it always refreshes
    [lastSeen] and leaves [connected] as it was. *)
Theorem device_router_total now data s :
  exists s',
    handleESP32Message now data s = Ret tt s' /\
    lastSeen (esp32Status s') = Some now /\
    connected (esp32Status s') = connected (esp32Status s).
Proof.
  destruct (handleESP32Message_presence now data s) as [Hc Hl]. simpl in Hc, Hl.
  assert (Hret : exists s', handleESP32Message now data s = Ret tt s').
  { unfold handleESP32Message, tryCatch.
    match goal with
    | |- context [match ?m with Ret _ _ => _ | Throw _ _ => _ end] =>
        destruct m as [[] s1|e s1]
    end; eexists; reflexivity. }
  destruct Hret as (s' & Hret). rewrite Hret in Hc, Hl. simpl in Hc, Hl.
  exists s'. done.
Qed.

(** X2. A text frame that the device router drops (malformed, [null], or of
    no known type) sends nothing, saves nothing and changes neither the
    registry nor the connection objects: only [lastSeen] is refreshed. *)
Theorem device_router_drops_frame now data s :
  isBuffer data = false ->
  droppedBy knownDeviceType data ->
  exists s',
    handleESP32Message now data s = Ret tt s' /\
    esp32Status s' = setLastSeen (Some now) (esp32Status s) /\
    trace s' = trace s /\
    clients s' = clients s /\
    sockets s' = sockets s /\
    pendingSaves s' = pendingSaves s /\
    db s' = db s.
Proof.
  intros Hbuf Hdrop. unfold droppedBy in Hdrop.
  unfold handleESP32Message, tryCatch, bind, updStatus, modify, template, throw, logAt,
    modify, ret.
  rewrite Hbuf.
  destruct (parsed data) as [m|]; [|eexists; split; [reflexivity | done]].
  destruct m; try (eexists; split; [reflexivity | done]);
    unfold knownDeviceType in Hdrop;
    apply orb_false_iff in Hdrop as [Hdrop H4];
    apply orb_false_iff in Hdrop as [Hdrop H3];
    apply orb_false_iff in Hdrop as [H1 H2];
    cbv zeta; rewrite H1, H2, H3, H4;
    destruct (convertible _);
    eexists; (split; [reflexivity | done]).
Qed.

Lemma device_router_drops_frame_witness :
  let data := mkFrame false 0 "" (Some (JObj [("type", JStr "reboot")])) in
  let s := runEvents [(0, EvConnection "/ws" (Some "alice"));
                      (1, EvConnection "/esp32" None)] initialState in
  exists s',
    handleESP32Message 7 data s = Ret tt s' /\
    esp32Status s' = setLastSeen (Some 7) (esp32Status s) /\
    trace s' = trace s /\
    clients s' = clients s /\
    sockets s' = sockets s /\
    pendingSaves s' = pendingSaves s /\
    db s' = db s.
Proof.
  intros data s. apply (device_router_drops_frame 7 data s); reflexivity.
Defined.

Global Instance clientFrame_preorder : PreOrder clientFrame.
Proof.
  split.
  - intros s. by split.
  - intros s1 s2 s3 [] []. split; try congruence. by etransitivity.
Qed.

Lemma sendFrame_clientFrame s s' : sendFrame s s' -> clientFrame s s'.
Proof. intros []. by split. Qed.

Ltac client_leaf :=
  first [ intros; apply sendFrame_clientFrame; assumption
        | split; simpl; done ].

Lemma handleClientMessage_clientFrame now ws userId data :
  mrel clientFrame (handleClientMessage now ws userId data).
Proof.
  unfold handleClientMessage, handleGetSensorData, queryFailed, handleControlESP32.
  mrel_go client_leaf.
Qed.

(** X3. The client router returns normally on every frame, in every state,
    also when the socket it answers on throws; and no client frame changes
    the device status, the device slot, a connection object, the suspended
    saves or the store. *)
Theorem client_router_total_and_harmless now ws userId data s :
  exists s',
    handleClientMessage now ws userId data s = Ret tt s' /\
    esp32Status s' = esp32Status s /\
    esp32Client s' = esp32Client s /\
    sockets s' = sockets s /\
    pendingSaves s' = pendingSaves s /\
    db s' = db s.
Proof.
  pose proof (handleClientMessage_clientFrame now ws userId data s) as Hf.
  assert (Hret : exists s', handleClientMessage now ws userId data s = Ret tt s').
  { unfold handleClientMessage, tryCatch.
    match goal with
    | |- context [match ?m with Ret _ _ => _ | Throw _ _ => _ end] =>
        destruct m as [[] s1|e s1]
    end; eexists; reflexivity. }
  destruct Hret as (s' & Hret). rewrite Hret in Hf. simpl in Hf. destruct Hf.
  exists s'. done.
Qed.

(** X4. A client frame that the client router drops changes nothing but
    the error log. The log is unchanged as well when the frame parses to a
    value other than [null] whose [type] converts to a string; when the
    [type] does not convert, the debug line of the router throws and the
    error is logged. *)
Theorem client_router_drops_frame now ws userId data s :
  droppedBy knownClientType data ->
  exists s',
    handleClientMessage now ws userId data s = Ret tt s' /\
    s' = setLogs (logs s') s /\
    (forall message,
       parsed data = Some message -> message <> JNull ->
       if convertible (jprop message "type")
       then s' = s
       else logs s' =
            logs s ++ [(LError, "Client message handling error: " +:+ conversionError)]).
Proof.
  intros Hdrop. unfold droppedBy in Hdrop.
  unfold handleClientMessage, tryCatch, bind, template, throw, logAt, modify, ret.
  destruct (parsed data) as [m|].
  2: { eexists. split; [reflexivity|]. split; [by destruct s | done]. }
  destruct m;
    try (eexists; split; [reflexivity|]; split;
         [by destruct s | by intros ? [= <-] ?]);
    unfold knownClientType in Hdrop;
    apply orb_false_iff in Hdrop as [Hdrop H4];
    apply orb_false_iff in Hdrop as [Hdrop H3];
    apply orb_false_iff in Hdrop as [H1 H2];
    cbv zeta; rewrite H1, H2, H3, H4;
    destruct (convertible (jprop (JObj fields) "type")) eqn:Hconv;
    eexists; (split; [reflexivity|]); (split; [by destruct s|]);
    intros ? [= <-] _; by rewrite Hconv.
Qed.

Lemma client_router_drops_frame_witness :
  let data := mkFrame false 0 "" (Some (JObj [("type", JObj [("toString", JNum 1)])])) in
  let s := runEvents [(0, EvConnection "/ws" (Some "alice"))] initialState in
  exists s',
    handleClientMessage 3 0%nat "alice" data s = Ret tt s' /\
    s' = setLogs (logs s') s /\
    logs s' = logs s ++ [(LError, "Client message handling error: " +:+ conversionError)].
Proof.
  intros data s.
  destruct (client_router_drops_frame 3 0%nat "alice" data s eq_refl)
    as (s' & Hrun & Hlog & Hmsg).
  exists s'. split_and!; [exact Hrun | exact Hlog |].
  exact (Hmsg _ eq_refl ltac:(discriminate)).
Defined.

(** X5. A binary device frame is broadcast as an [audio-data] message, with
    its size and its base64 text, to every client whose send goes out; no
    save is issued and the store is untouched, whatever the bytes would
    parse to. *)
Theorem binary_frame_broadcast_not_saved now data s :
  isBuffer data = true ->
  NoDup (clients s).*1 ->
  exists s',
    handleESP32Message now data s = Ret tt s' /\
    trace s' = trace s ++
               map (fun e => ESend e.2 (audioMessage now data))
                   (List.filter (delivered (sockets s)) (clients s)) /\
    lastSeen (esp32Status s') = Some now /\
    pendingSaves s' = pendingSaves s /\
    db s' = db s.
Proof.
  intros Hbuf Hnd.
  unfold handleESP32Message, tryCatch, bind, updStatus, modify. rewrite Hbuf.
  fold (audioMessage now data).
  rewrite broadcastToClients_spec by done.
  eexists. split; [reflexivity|]. done.
Qed.

Lemma binary_frame_broadcast_not_saved_witness :
  let data := mkFrame true 3 "AQID"
                (Some (JObj [("type", JStr "sensor-data")])) in
  let s := runEvents [(0, EvConnection "/ws" (Some "alice"));
                      (1, EvConnection "/esp32" None)] initialState in
  exists s',
    handleESP32Message 7 data s = Ret tt s' /\
    trace s' = trace s ++ [ESend 0%nat (audioMessage 7 data)] /\
    lastSeen (esp32Status s') = Some 7 /\
    pendingSaves s' = pendingSaves s /\
    db s' = db s.
Proof.
  intros data s. apply (binary_frame_broadcast_not_saved 7 data s).
  - reflexivity.
  - apply (bool_decide_unpack _). vm_compute. exact I.
Defined.

(** ** Client connections *)

Lemma mapGet_mapSet_ne u v h (m : list (string * nat)) :
  u <> v -> mapGet v (mapSet u h m) = mapGet v m.
Proof.
  intros Hne. induction m as [|[k h1] m IH]; simpl.
  - destruct (String.eqb_spec u v); [congruence | done].
  - destruct (String.eqb_spec k u) as [->|Hku]; simpl.
    + destruct (String.eqb_spec u v); [congruence | done].
    + by rewrite IH.
Qed.

Lemma length_mapSet u h (m : list (string * nat)) :
  length (mapSet u h m) =
  match mapGet u m with Some _ => length m | None => S (length m) end.
Proof.
  induction m as [|[k h1] m IH]; simpl; [done|].
  destruct (String.eqb k u); simpl; [done|]. rewrite IH.
  by destruct (mapGet u m).
Qed.

(** The "connection" listener on an authenticated request, field by field. *)
Lemma client_connection_spec now path u s :
  String.eqb path "/esp32" = false ->
  u <> "" ->
  exists s',
    step now (EvConnection path (Some u)) s = Ret tt s' /\
    clients s' = mapSet u (nextHandle s) (clients s) /\
    sockets s' =
      alter (setWiring (ClientSocket u)) (nextHandle s)
        (alter (setIsAlive (Some true)) (nextHandle s)
           (match mapGet u (clients s) with
            | Some prev => alter startClosing prev (sockets (allocated s))
            | None => sockets (allocated s)
            end)) /\
    trace s' = trace s ++ [ESend (nextHandle s) (greeting now u (esp32Status s))] ++
               match mapGet u (clients s) with
               | Some prev => [EClose prev duplicateClose]
               | None => []
               end /\
    esp32Client s' = esp32Client s /\
    esp32Status s' = esp32Status s /\
    nextHandle s' = S (nextHandle s).
Proof.
  intros Hpath Hu. unfold step. rewrite onConnection_eq, Hpath.
  destruct (String.eqb_spec u ""); [done|].
  unfold handleClientConnection, bind, gets, wsSend. rewrite sockOf_allocated. simpl.
  unfold addClient, bind, gets, emit, modify. simpl.
  destruct (mapGet u (clients s)) as [prev|] eqn:Hprev; simpl.
  - unfold wsClose, bind, emit, updSocket, modify. simpl.
    eexists. split; [reflexivity|]. simpl. split_and!; try done.
    by rewrite <- app_assoc.
  - unfold updSocket, modify. simpl.
    eexists. split; [reflexivity|]. simpl. done.
Qed.

(** X6. An authenticated connection in a reachable state: the new socket is
    greeted with the current device status, enters the registry under its
    user with its alive flag set, and every other user keeps their entry. If
    the user was registered already, the previous socket had
    [close(1001, "Duplicate connection")] called on it and is closing, and
    the registry does not grow. *)
Theorem client_connection_replaces_previous now path u s :
  reachable s ->
  String.eqb path "/esp32" = false ->
  u <> "" ->
  exists s',
    step now (EvConnection path (Some u)) s = Ret tt s' /\
    mapGet u (clients s') = Some (nextHandle s) /\
    (forall v, v <> u -> mapGet v (clients s') = mapGet v (clients s)) /\
    sockOf s' (nextHandle s) = mkSocket OPEN (Some true) false (ClientSocket u) /\
    trace s' = trace s ++ [ESend (nextHandle s) (greeting now u (esp32Status s))] ++
               match mapGet u (clients s) with
               | Some prev => [EClose prev duplicateClose]
               | None => []
               end /\
    length (clients s') =
      match mapGet u (clients s) with
      | Some _ => length (clients s)
      | None => S (length (clients s))
      end /\
    forall prev, mapGet u (clients s) = Some prev ->
                 readyState (sockOf s' prev) = CLOSING.
Proof.
  intros Hreach Hpath Hu. pose proof (reachable_wf s Hreach) as Hwf.
  destruct (client_connection_spec now path u s Hpath Hu)
    as (s' & Hrun & Hc & Hs & Ht & _ & _ & _).
  destruct (allocated_fresh s Hwf) as [_ Hsock].
  assert (Hprev : forall prev, mapGet u (clients s) = Some prev ->
            prev <> nextHandle s /\
            exists k, sockets s !! prev = Some k /\ readyState k <> CLOSED /\
                      readyState k <> CONNECTING).
  { intros prev Hp. apply mapGet_Some_elem in Hp.
    destruct (wf_clients s Hwf u prev Hp) as (k & Hk & _ & Hr).
    destruct (wf_sockets s Hwf prev k Hk) as [Hlt Hnc].
    split; [lia | eauto]. }
  exists s'. split; [exact Hrun|]. split_and!.
  - rewrite Hc. apply mapGet_mapSet.
  - intros v Hv. rewrite Hc. by apply mapGet_mapSet_ne.
  - unfold sockOf. rewrite Hs, !lookup_alter_eq.
    destruct (mapGet u (clients s)) as [prev|] eqn:Hp.
    + destruct (Hprev prev eq_refl) as [Hne _].
      rewrite lookup_alter_ne by done. by rewrite Hsock.
    + by rewrite Hsock.
  - exact Ht.
  - rewrite Hc. apply length_mapSet.
  - intros prev Hp. destruct (Hprev prev Hp) as (Hne & k & Hk & Hr & Hnc).
    unfold sockOf. rewrite Hs, Hp.
    rewrite !(lookup_alter_ne _ _ (nextHandle s) prev) by done.
    rewrite lookup_alter_eq. unfold allocated. simpl.
    rewrite lookup_insert_ne by done. rewrite Hk. simpl.
    unfold startClosing. destruct (readyState k) eqn:Hrk; simpl; congruence.
Qed.

Lemma client_connection_replaces_previous_witness :
  let s := runEvents [(0, EvConnection "/ws" (Some "alice"));
                      (1, EvConnection "/ws" (Some "bob"))] initialState in
  exists s',
    step 2 (EvConnection "/ws" (Some "alice")) s = Ret tt s' /\
    mapGet "alice" (clients s') = Some 2%nat /\
    mapGet "bob" (clients s') = Some 1%nat /\
    length (clients s') = 2%nat /\
    readyState (sockOf s' 0%nat) = CLOSING.
Proof.
  intros s.
  destruct (client_connection_replaces_previous 2 "/ws" "alice" s)
    as (s' & Hrun & Hnew & Hothers & _ & _ & Hlen & Hprev).
  - apply reachable_runEvents, reach_init.
  - reflexivity.
  - discriminate.
  - exists s'. split_and!.
    + exact Hrun.
    + exact Hnew.
    + rewrite Hothers; [reflexivity | discriminate].
    + exact Hlen.
    + by apply Hprev.
Defined.

(** X7. After a user reconnected, the close event of the replaced socket
    runs [removeClient] for the user: the registry then has no entry for the
    user, although the socket registered last is open and has the user's
    listeners. *)
Theorem replaced_client_close_unregisters_user now now' path u prev s :
  reachable s ->
  String.eqb path "/esp32" = false ->
  u <> "" ->
  mapGet u (clients s) = Some prev ->
  exists s1 s2,
    step now (EvConnection path (Some u)) s = Ret tt s1 /\
    step now' (EvClose prev) s1 = Ret tt s2 /\
    mapGet u (clients s1) = Some (nextHandle s) /\
    mapGet u (clients s2) = None /\
    sockOf s2 (nextHandle s) = mkSocket OPEN (Some true) false (ClientSocket u).
Proof.
  intros Hreach Hpath Hu Hp. pose proof (reachable_wf s Hreach) as Hwf.
  destruct (client_connection_spec now path u s Hpath Hu)
    as (s1 & Hrun & Hc & Hs & _ & _ & _ & _).
  rewrite Hp in Hs.
  destruct (allocated_fresh s Hwf) as [_ Hsock].
  pose proof (mapGet_Some_elem _ _ _ Hp) as Hin.
  destruct (wf_clients s Hwf u prev Hin) as (k & Hk & Hw & Hr).
  destruct (wf_sockets s Hwf prev k Hk) as [Hlt Hnc].
  assert (Hne : nextHandle s <> prev) by lia.
  assert (Hprev1 : sockOf s1 prev = startClosing k).
  { unfold sockOf. rewrite Hs. rewrite !(lookup_alter_ne _ _ (nextHandle s) prev) by done.
    rewrite lookup_alter_eq. unfold allocated. simpl.
    rewrite lookup_insert_ne by done. by rewrite Hk. }
  assert (Hnew1 : sockOf s1 (nextHandle s) = mkSocket OPEN (Some true) false (ClientSocket u)).
  { unfold sockOf. rewrite Hs, !lookup_alter_eq, lookup_alter_ne by done. by rewrite Hsock. }
  exists s1. eexists. split; [exact Hrun|]. split.
  - apply (client_close_step now' prev u s1).
    + rewrite Hprev1. by destruct (startClosing_step k) as [-> _].
    + rewrite Hprev1. destruct (startClosing_step k) as (_ & _ & H3). auto.
  - split_and!.
    + rewrite Hc. apply mapGet_mapSet.
    + simpl. apply mapGet_mapDelete.
    + unfold sockOf. simpl. rewrite lookup_alter_ne by done.
      exact Hnew1.
Qed.

Lemma replaced_client_close_unregisters_user_witness :
  let s := runEvents [(0, EvConnection "/ws" (Some "alice"))] initialState in
  exists s1 s2,
    step 1 (EvConnection "/ws" (Some "alice")) s = Ret tt s1 /\
    step 2 (EvClose 0%nat) s1 = Ret tt s2 /\
    mapGet "alice" (clients s1) = Some 1%nat /\
    mapGet "alice" (clients s2) = None /\
    sockOf s2 1%nat = mkSocket OPEN (Some true) false (ClientSocket "alice").
Proof.
  intros s.
  apply (replaced_client_close_unregisters_user 1 2 "/ws" "alice" 0%nat s).
  - apply reachable_runEvents, reach_init.
  - reflexivity.
  - discriminate.
  - reflexivity.
Defined.



(** ** Device information and status updates *)

(** X9. A [device-info] message replaces the stored device record by the
    one built from the message alone (defaults for what is missing), makes
    the status's sensor types those of the record, and broadcasts the record
    to every client whose send goes out; [connected] and [isStreaming] are
    as before. *)
Theorem device_info_recorded_and_broadcast now data fs s :
  isBuffer data = false ->
  parsed data = Some (JObj fs) ->
  objGet "type" fs = Some (JStr "device-info") ->
  NoDup (clients s).*1 ->
  exists s',
    handleESP32Message now data s = Ret tt s' /\
    deviceInfo (esp32Status s') = deviceInfoOf (JObj fs) /\
    sensorTypes (esp32Status s') = jprop (deviceInfoOf (JObj fs)) "sensorTypes" /\
    trace s' = trace s ++
               map (fun e => ESend e.2 (deviceInfoMessage now (deviceInfoOf (JObj fs))))
                   (List.filter (delivered (sockets s)) (clients s)) /\
    connected (esp32Status s') = connected (esp32Status s) /\
    isStreaming (esp32Status s') = isStreaming (esp32Status s) /\
    lastSeen (esp32Status s') = Some now.
Proof.
  intros Hbuf Hparsed Hty Hnd.
  assert (Hdispatch :
    handleESP32Message now data s =
    tryCatch (handleDeviceInfo now (JObj fs))
             (fun e => logAt LError ("ESP32 message handling error: " +:+ e))
             (setStatus (setLastSeen (Some now) (esp32Status s)) s)).
  { unfold handleESP32Message, tryCatch, bind, updStatus, modify.
    rewrite Hbuf, Hparsed. unfold jprop. rewrite Hty. reflexivity. }
  rewrite Hdispatch. clear Hdispatch.
  unfold handleDeviceInfo, tryCatch, bind, updStatus, modify, gets.
  cbn [esp32Status setStatus deviceInfo setDeviceInfo setSensorTypes].
  fold (deviceInfoOf (JObj fs)).
  fold (deviceInfoMessage now (deviceInfoOf (JObj fs))).
  rewrite broadcastToClients_spec by done.
  eexists. split; [reflexivity|]. done.
Qed.

Lemma device_info_recorded_and_broadcast_witness :
  let fs := [("type", JStr "device-info"); ("deviceName", JStr "S1");
             ("sensorTypes", JArr [JStr "temp"])] in
  let data := mkFrame false 0 "" (Some (JObj fs)) in
  let s := runEvents [(0, EvConnection "/ws" (Some "alice"));
                      (1, EvConnection "/esp32" None)] initialState in
  exists s',
    handleESP32Message 2 data s = Ret tt s' /\
    jprop (deviceInfo (esp32Status s')) "deviceName" = JStr "S1" /\
    jprop (deviceInfo (esp32Status s')) "firmwareVersion" = JStr "unknown" /\
    sensorTypes (esp32Status s') = JArr [JStr "temp"] /\
    trace s' = trace s ++ [ESend 0%nat (deviceInfoMessage 2 (deviceInfoOf (JObj fs)))].
Proof.
  intros fs data s.
  destruct (device_info_recorded_and_broadcast 2 data fs s eq_refl eq_refl eq_refl)
    as (s' & Hrun & Hinfo & Htypes & Htrace & _).
  - apply (bool_decide_unpack _). vm_compute. exact I.
  - exists s'. split; [exact Hrun|]. rewrite Hinfo, Htypes, Htrace.
    split_and!; reflexivity.
Defined.

Lemma objGet_spread_empty k fs :
  NoDup fs.*1 -> objGet k (spread (JObj fs) []) = objGet k fs.
Proof.
  intros Hnd. destruct (objGet k fs) as [v|] eqn:Hk.
  - by apply objGet_spread_present.
  - apply objGet_None in Hk. by rewrite objGet_spread_absent.
Qed.

(** X10. A [status-update] message sets [isStreaming] to the message's
    value when that is truthy and to [false] otherwise, overwrites the
    record's [batteryLevel], [signalStrength] and [status] with the
    message's (undefined when the message has none; ["online"] for a missing
    status) and keeps every other field of the record; [connected] is as
    before. The new status is then broadcast, unless the message has an own
    [toString] property: the info line that prints the message then throws,
    nothing is broadcast and the error is logged, with the status already
    changed. *)
Theorem status_update_merges_record now data fs s :
  isBuffer data = false ->
  parsed data = Some (JObj fs) ->
  objGet "type" fs = Some (JStr "status-update") ->
  infoShaped (deviceInfo (esp32Status s)) ->
  NoDup (clients s).*1 ->
  exists s',
    handleESP32Message now data s = Ret tt s' /\
    isStreaming (esp32Status s') = jor (jprop (JObj fs) "isStreaming") (JBool false) /\
    jprop (deviceInfo (esp32Status s')) "batteryLevel" = jprop (JObj fs) "batteryLevel" /\
    jprop (deviceInfo (esp32Status s')) "signalStrength" = jprop (JObj fs) "signalStrength" /\
    jprop (deviceInfo (esp32Status s')) "status"
      = jor (jprop (JObj fs) "status") (JStr "online") /\
    (forall k, k <> "batteryLevel" -> k <> "signalStrength" -> k <> "status" ->
       jprop (deviceInfo (esp32Status s')) k = jprop (deviceInfo (esp32Status s)) k) /\
    infoShaped (deviceInfo (esp32Status s')) /\
    connected (esp32Status s') = connected (esp32Status s) /\
    if convertible (JObj fs)
    then trace s' = trace s ++
                    map (fun e => ESend e.2 (statusUpdateMessage now (esp32Status s')))
                        (List.filter (delivered (sockets s)) (clients s))
    else trace s' = trace s /\
         clients s' = clients s /\
         logs s' = logs s ++ [(LError, "Error handling status update: " +:+ conversionError)].
Proof.
  intros Hbuf Hparsed Hty Hshape Hnd.
  assert (Hdispatch :
    handleESP32Message now data s =
    tryCatch (handleStatusUpdate now (JObj fs))
             (fun e => logAt LError ("ESP32 message handling error: " +:+ e))
             (setStatus (setLastSeen (Some now) (esp32Status s)) s)).
  { unfold handleESP32Message, tryCatch, bind, updStatus, modify.
    rewrite Hbuf, Hparsed. unfold jprop. rewrite Hty. reflexivity. }
  rewrite Hdispatch. clear Hdispatch.
  assert (Hold : forall k, default JUndefined (objGet k (spread (deviceInfo (esp32Status s)) []))
                           = jprop (deviceInfo (esp32Status s)) k).
  { intros k. destruct (deviceInfo (esp32Status s)) as [ | | | | | | | | | info]; try done.
    simpl in Hshape. unfold jprop. by rewrite objGet_spread_empty. }
  unfold handleStatusUpdate, tryCatch, bind, updStatus, modify, gets, template.
  cbn [esp32Status setStatus deviceInfo setDeviceInfo setIsStreaming isStreaming].
  destruct (convertible (JObj fs)) eqn:Hconv; unfold ret, throw, logAt, modify.
  - match goal with
    | |- context [broadcastToClients (JObj [("type", _); ("status", statusJ ?st); _]) _] =>
        fold (statusUpdateMessage now st)
    end.
    rewrite broadcastToClients_spec by done.
    eexists. split; [reflexivity|]. cbn [esp32Status afterBroadcast isStreaming deviceInfo
      connected trace sockets clients setStatus setDeviceInfo setLastSeen setIsStreaming].
    split_and!; try done.
    + unfold jprop at 1. rewrite objGet_objSet_ne by done.
      rewrite objGet_objSet_ne by done. by rewrite objGet_objSet.
    + unfold jprop at 1. rewrite objGet_objSet_ne by done. by rewrite objGet_objSet.
    + unfold jprop at 1. by rewrite objGet_objSet.
    + intros k H1 H2 H3. unfold jprop at 1.
      rewrite !objGet_objSet_ne by congruence. apply Hold.
    + simpl. do 3 apply objSet_NoDup.
      apply spread_NoDup. simpl. apply NoDup_nil_2.
  - eexists. split; [reflexivity|]. cbn [esp32Status isStreaming deviceInfo
      connected trace logs sockets clients setStatus setDeviceInfo setLastSeen
      setIsStreaming setLogs].
    split_and!; try done.
    + unfold jprop at 1. rewrite objGet_objSet_ne by done.
      rewrite objGet_objSet_ne by done. by rewrite objGet_objSet.
    + unfold jprop at 1. rewrite objGet_objSet_ne by done. by rewrite objGet_objSet.
    + unfold jprop at 1. by rewrite objGet_objSet.
    + intros k H1 H2 H3. unfold jprop at 1.
      rewrite !objGet_objSet_ne by congruence. apply Hold.
    + simpl. do 3 apply objSet_NoDup.
      apply spread_NoDup. simpl. apply NoDup_nil_2.
Qed.

Lemma status_update_merges_record_witness :
  let info := mkFrame false 0 ""
                (Some (JObj [("type", JStr "device-info"); ("deviceName", JStr "S1");
                             ("batteryLevel", JNum 80)])) in
  let fs := [("type", JStr "status-update"); ("isStreaming", JBool true)] in
  let data := mkFrame false 0 "" (Some (JObj fs)) in
  let s := runEvents [(0, EvConnection "/esp32" None); (1, EvMessage 0%nat info)]
                     initialState in
  exists s',
    handleESP32Message 2 data s = Ret tt s' /\
    isStreaming (esp32Status s') = JBool true /\
    jprop (deviceInfo (esp32Status s)) "batteryLevel" = JNum 80 /\
    jprop (deviceInfo (esp32Status s')) "batteryLevel" = JUndefined /\
    jprop (deviceInfo (esp32Status s')) "status" = JStr "online" /\
    jprop (deviceInfo (esp32Status s')) "deviceName" = JStr "S1".
Proof.
  intros info fs data s.
  destruct (status_update_merges_record 2 data fs s eq_refl eq_refl eq_refl)
    as (s' & Hrun & Hstream & Hbat & _ & Hstatus & Hkeep & _).
  - apply (bool_decide_unpack _). vm_compute. exact I.
  - apply NoDup_nil_2.
  - exists s'. split; [exact Hrun|].
    rewrite Hstream, Hbat, Hstatus, Hkeep by discriminate.
    split_and!; reflexivity.
Defined.

(** ** History queries *)

(** X11. Building the filter of a history query throws exactly when the
    request has a truthy start or end date that cannot be converted to a
    primitive. Otherwise the filter pins [deviceId] to "esp32-main"; it
    restricts [sensorType] exactly when the request names a truthy sensor
    type other than "all"; and it restricts [timestamp] exactly when the
    request has a truthy start or end date, with [$gte] for the start and
    [$lte] for the end. *)
Theorem history_query_filter message :
  let sensorType := jprop message "sensorType" in
  let startDate := jprop message "startDate" in
  let endDate := jprop message "endDate" in
  let unusable x := truthy x && negb (convertible x) in
  if unusable startDate || unusable endDate
  then buildQuery message = inl conversionError
  else exists query,
         buildQuery message = inr query /\
         jprop query "deviceId" = JStr "esp32-main" /\
         jprop query "sensorType" =
           (if truthy sensorType && negb (isStr sensorType "all")
            then sensorType else JUndefined) /\
         jprop query "timestamp" =
           (if truthy startDate || truthy endDate
            then JObj ((if truthy startDate then [("$gte", JDateOf startDate)] else []) ++
                       (if truthy endDate then [("$lte", JDateOf endDate)] else []))
            else JUndefined).
Proof.
  intros sensorType startDate endDate unusable. subst unusable. cbv beta.
  unfold buildQuery, withDate, newDate.
  fold sensorType startDate endDate.
  destruct (truthy sensorType && negb (isStr sensorType "all"));
    destruct (truthy startDate); destruct (convertible startDate);
    destruct (truthy endDate); destruct (convertible endDate); simpl;
    first [reflexivity | eexists; split; [reflexivity|]; done].
Qed.

(** X12. A [get-sensor-data] request whose filter can be built issues
    exactly one query, with the limit 100 when the request has no [limit]
    and the request's own [limit] otherwise, and suspends; when building the
    filter throws, no query is issued, nothing is suspended and the error
    reply is sent at once. When the query settles, the reply, which is the
    found readings with the echoed parameters or the error message when the
    query failed, is sent through the registry: once, on the connection
    registered for the requesting user, when that connection is open and
    its send goes out, and to nobody otherwise. *)
Theorem history_request_answered_once now ws userId data fs s :
  parsed data = Some (JObj fs) ->
  objGet "type" fs = Some (JStr "get-sensor-data") ->
  let suspended := mkPendingQuery userId (queryEcho (JObj fs)) in
  exists s1,
    handleClientMessage now ws userId data s = Ret tt s1 /\
    match buildQuery (JObj fs) with
    | inr query =>
        trace s1 = trace s ++ [EFind query (limitOf (JObj fs))] /\
        pendingQueries s1 = pendingQueries s ++ [suspended] /\
        clients s1 = clients s
    | inl e =>
        trace s1 = trace s ++ registryDelivery s userId historyError /\
        pendingQueries s1 = pendingQueries s /\
        (LError, "Error getting sensor data: " +:+ e) ∈ logs s1
    end /\
    forall s2 i result,
      pendingQueries s2 !! i = Some suspended ->
      exists s3,
        resumeGetSensorData i result s2 = Ret tt s3 /\
        trace s3 = trace s2 ++
                   registryDelivery s2 userId
                     match result with
                     | inl found => historyReply found (queryEcho (JObj fs))
                     | inr _ => historyError
                     end /\
        pendingQueries s3 = delete i (pendingQueries s2).
Proof.
  intros Hparsed Hty suspended.
  assert (Hdispatch :
    handleClientMessage now ws userId data s =
    tryCatch (handleGetSensorData userId (JObj fs))
             (fun e => logAt LError ("Client message handling error: " +:+ e)) s).
  { unfold handleClientMessage, tryCatch. rewrite Hparsed.
    unfold jprop. rewrite Hty. reflexivity. }
  rewrite Hdispatch. clear Hdispatch.
  assert (Hresume : forall s2 i result,
    pendingQueries s2 !! i = Some suspended ->
    exists s3,
      resumeGetSensorData i result s2 = Ret tt s3 /\
      trace s3 = trace s2 ++
                 registryDelivery s2 userId
                   match result with
                   | inl found => historyReply found (queryEcho (JObj fs))
                   | inr _ => historyError
                   end /\
      pendingQueries s3 = delete i (pendingQueries s2)).
  { intros s2 i result Hi.
    unfold resumeGetSensorData, bind, gets. rewrite Hi. unfold modify.
    subst suspended. cbn [pqUser pqEcho]. unfold registryDelivery.
    destruct result as [found|e].
    - unfold tryCatch, bind. rewrite sendToUser_eq.
      cbn [clients setPendingQueries].
      destruct (mapGet userId (clients s2)) as [h|];
        rewrite ?sockOf_setPendingQueries;
        [destruct (isOpen (readyState (sockOf s2 h)));
           [destruct (sendThrows (sockOf s2 h))|]|];
        (eexists; split; [reflexivity|]); simpl; rewrite ?app_nil_r; done.
    - unfold queryFailed, bind, logAt, modify. rewrite sendToUser_eq.
      cbn [clients setPendingQueries setLogs].
      destruct (mapGet userId (clients s2)) as [h|];
        rewrite ?sockOf_setLogs, ?sockOf_setPendingQueries;
        [destruct (isOpen (readyState (sockOf s2 h)));
           [destruct (sendThrows (sockOf s2 h))|]|];
        (eexists; split; [reflexivity|]); simpl; rewrite ?app_nil_r; done. }
  unfold handleGetSensorData, tryCatch.
  destruct (buildQuery (JObj fs)) as [e|query].
  - unfold throw, queryFailed, bind, logAt, modify. rewrite sendToUser_eq.
    cbn [clients setLogs]. unfold registryDelivery.
    destruct (mapGet userId (clients s)) as [h|];
      rewrite ?sockOf_setLogs;
      [destruct (isOpen (readyState (sockOf s h)));
         [destruct (sendThrows (sockOf s h))|]|];
      (eexists; split; [reflexivity|]); simpl; rewrite ?app_nil_r;
      (split; [|exact Hresume]); split_and!; try done;
      rewrite ?elem_of_app, ?list_elem_of_singleton; naive_solver.
  - unfold bind, emit, modify. simpl.
    eexists. split; [reflexivity|]. simpl. split; [done | exact Hresume].
Qed.

Lemma history_request_answered_once_witness :
  let fs := [("type", JStr "get-sensor-data"); ("sensorType", JStr "temp")] in
  let bad := [("type", JStr "get-sensor-data");
              ("startDate", JObj [("toString", JNum 1)])] in
  let s := runEvents [(0, EvConnection "/ws" (Some "alice"));
                      (1, EvConnection "/ws" (Some "bob"))] initialState in
  (exists s1,
     handleClientMessage 2 0%nat "alice" (mkFrame false 0 "" (Some (JObj fs))) s
       = Ret tt s1 /\
     trace s1 = trace s ++
                [EFind (JObj [("deviceId", JStr "esp32-main"); ("sensorType", JStr "temp")])
                       (JNum 100)] /\
     forall result, exists s3,
       resumeGetSensorData 0 result s1 = Ret tt s3 /\
       trace s3 = trace s1 ++
                  [ESend 0%nat match result with
                               | inl found => historyReply found (queryEcho (JObj fs))
                               | inr _ => historyError
                               end]) /\
  (exists s1,
     handleClientMessage 2 0%nat "alice" (mkFrame false 0 "" (Some (JObj bad))) s
       = Ret tt s1 /\
     trace s1 = trace s ++ [ESend 0%nat historyError] /\
     pendingQueries s1 = []).
Proof.
  intros fs bad s. split.
  - destruct (history_request_answered_once 2 0%nat "alice"
                (mkFrame false 0 "" (Some (JObj fs))) fs s eq_refl eq_refl)
      as (s1 & Hrun & (Htrace & Hpending & Hclients) & Hresume).
    exists s1. split; [exact Hrun|]. split; [exact Htrace|].
    intros result.
    assert (Hs : sockets s1 = sockets s).
    { pose proof (f_equal (fun o => sockets (finalState o)) Hrun) as H.
      cbn beta in H. cbn [finalState] in H. rewrite <- H. vm_compute. reflexivity. }
    destruct (Hresume s1 0%nat result) as (s3 & Hr & Ht & _).
    + rewrite Hpending. reflexivity.
    + exists s3. split; [exact Hr|]. rewrite Ht. f_equal.
      unfold registryDelivery, sockOf. rewrite Hclients, Hs. reflexivity.
  - destruct (history_request_answered_once 2 0%nat "alice"
                (mkFrame false 0 "" (Some (JObj bad))) bad s eq_refl eq_refl)
      as (s1 & Hrun & (Htrace & Hpending & _) & _).
    exists s1. split; [exact Hrun|]. split; [|exact Hpending].
    rewrite Htrace. reflexivity.
Defined.

(** ** Credentials at the handshake *)

Lemma split_cons_sep sep rest :
  Upgrade.split sep (String sep rest) = EmptyString :: Upgrade.split sep rest.
Proof. simpl. by rewrite Ascii.eqb_refl. Qed.

Lemma split_prefix sep a rest :
  lacks sep a = true ->
  Upgrade.split sep (a +:+ String sep rest) = a :: Upgrade.split sep rest.
Proof.
  induction a as [|c a IH]; intros Hl.
  - apply split_cons_sep.
  - simpl in Hl. apply andb_true_iff in Hl as [Hc Hl]. apply negb_true_iff in Hc.
    change (String c a +:+ String sep rest) with (String c (a +:+ String sep rest)).
    cbn [Upgrade.split]. rewrite Hc, IH by done. reflexivity.
Qed.

(** X13. Where the token of a request is taken from: a non-empty [token]
    query parameter wins; otherwise a non-empty protocol header; otherwise
    the piece of the authorization header between its first and its second
    space; a header without a space, or no header, gives no token. *)
Theorem token_precedence request u :
  Upgrade.url request = Some u ->
  (forall t, Upgrade.tokenParam u = Some t -> t <> "" ->
             Upgrade.extractToken request = Some t) /\
  (Upgrade.nonEmpty (Upgrade.tokenParam u) = None ->
   forall t, Upgrade.secWebsocketProtocol request = Some t -> t <> "" ->
             Upgrade.extractToken request = Some t) /\
  (Upgrade.nonEmpty (Upgrade.tokenParam u) = None ->
   Upgrade.nonEmpty (Upgrade.secWebsocketProtocol request) = None ->
   (forall scheme rest,
      lacks " " scheme = true ->
      Upgrade.authorization request = Some (scheme +:+ String " " rest) ->
      Upgrade.extractToken request = Upgrade.nonEmpty (head (Upgrade.split " " rest))) /\
   (forall a, lacks " " a = true -> Upgrade.authorization request = Some a ->
              Upgrade.extractToken request = None) /\
   (Upgrade.authorization request = None -> Upgrade.extractToken request = None)).
Proof.
  intros Hurl. unfold Upgrade.extractToken. rewrite Hurl. split_and!.
  - intros t Ht Hne. rewrite Ht. simpl. by destruct (String.eqb_spec t "").
  - intros Hq t Ht Hne. rewrite Hq, Ht. simpl. by destruct (String.eqb_spec t "").
  - intros Hq Hp. rewrite Hq, Hp. split_and!.
    + intros scheme rest Hl Ha. rewrite Ha.
      rewrite split_prefix by done. simpl.
      by destruct (Upgrade.split " " rest).
    + intros a Hl Ha. rewrite Ha.
      assert (Hs : Upgrade.split " " a = [a]).
      { clear -Hl. induction a as [|c a IH]; [done|].
        simpl in Hl. apply andb_true_iff in Hl as [Hc Hl]. apply negb_true_iff in Hc.
        cbn [Upgrade.split]. rewrite Hc, IH by done. reflexivity. }
      by rewrite Hs.
    + intros Ha. by rewrite Ha.
Qed.

Lemma token_precedence_witness :
  let u := Upgrade.mkUrl "/ws" (Some "") in
  let request := Upgrade.mkRequest (Some u) None None (Some "Bearer abc def") in
  Upgrade.extractToken request = Some "abc".
Proof.
  intros u request.
  destruct (token_precedence request u eq_refl) as (_ & _ & H).
  destruct (H eq_refl eq_refl) as (Hauth & _).
  apply (Hauth "Bearer" "abc def"); reflexivity.
Defined.

(** X14. On a path other than the device path, the upgrade succeeds exactly
    when the origin is allowed, a token is found, the verifier accepts it
    with a payload that has a truthy [id], and the user of that [id]
    exists; the verifier is then called once and the user looked up once.
    Without an allowed origin or without a token the request is answered
    401 and the verifier is never called; and no request on such a path is
    upgraded without a user. *)
Theorem client_upgrade_characterised
    nodeEnv corsAllowedOrigins serverHost serverPort jwtVerify findById request u :
  Upgrade.url request = Some u ->
  String.eqb (Upgrade.pathname u) "/esp32" = false ->
  let upgrade := Upgrade.handleUpgrade nodeEnv corsAllowedOrigins serverHost serverPort
                   jwtVerify findById request in
  let allowed := Upgrade.isOriginAllowed nodeEnv corsAllowedOrigins serverHost serverPort
                   (Upgrade.origin request) in
  (forall user calls,
     upgrade = (Upgrade.Upgraded (Some user), calls) <->
     allowed = true /\
     exists token decoded,
       Upgrade.extractToken request = Some token /\
       jwtVerify token = inr decoded /\
       truthy (optChain decoded "id") = true /\
       findById (jprop decoded "id") = inr (Some user) /\
       calls = [Upgrade.JwtVerify token; Upgrade.FindById (jprop decoded "id")]) /\
  (allowed = false \/ Upgrade.extractToken request = None ->
   exists e, upgrade = (Upgrade.Unauthorized e, [])) /\
  (forall calls, upgrade <> (Upgrade.Upgraded None, calls)) /\
  (forall e calls, upgrade <> (Upgrade.Destroyed e, calls)).
Proof.
  intros Hurl Hpath upgrade allowed. subst upgrade allowed.
  unfold Upgrade.handleUpgrade, Upgrade.verifyClient. rewrite Hurl, Hpath.
  destruct (Upgrade.isOriginAllowed _ _ _ _ _) eqn:Hallowed; simpl.
  2: { split_and!; try done.
       - intros user calls. split; [done | by intros [? _]].
       - intros _. by eexists. }
  destruct (Upgrade.extractToken request) as [token|] eqn:Htoken.
  2: { split_and!; try done.
       - intros user calls. split; [done | by intros (_ & ? & ? & ? & _)].
       - intros _. by eexists. }
  destruct (jwtVerify token) as [e|decoded] eqn:Hjwt.
  { split_and!; try done.
    - intros user calls. split; [done|].
      intros (_ & t & d & [= <-] & Hj & _). congruence.
    - by intros [|]. }
  destruct (truthy (optChain decoded "id")) eqn:Hid; simpl.
  2: { split_and!; try done.
       - intros user calls. split; [done|].
         intros (_ & t & d & [= <-] & Hj & Ht & _). congruence.
       - by intros [|]. }
  destruct (findById (jprop decoded "id")) as [e|[user0|]] eqn:Hfind.
  - split_and!; try done.
    + intros user calls. split; [done|].
      intros (_ & t & d & [= <-] & Hj & Ht & Hf & _). congruence.
    + by intros [|].
  - split_and!; try done.
    + intros user calls. split.
      * intros [= <- <-]. split; [done|]. by exists token, decoded.
      * intros (_ & t & d & [= <-] & Hj & Ht & Hf & ->).
        rewrite Hjwt in Hj. injection Hj as <-. rewrite Hfind in Hf. by injection Hf as <-.
    + by intros [|].
  - split_and!; try done.
    + intros user calls. split; [done|].
      intros (_ & t & d & [= <-] & Hj & Ht & Hf & _). congruence.
    + by intros [|].
Qed.

Lemma client_upgrade_characterised_witness :
  let request := Upgrade.mkRequest (Some (Upgrade.mkUrl "/ws" (Some "t0k3n")))
                                   (Some "http://localhost:3000") None None in
  let verify := fun t : string =>
                  if String.eqb t "t0k3n"
                  then @inr string JValue (JObj [("id", JStr "u1")])
                  else inl "invalid signature" in
  let find := fun _ : JValue => @inr string (option string) (Some "u1") in
  Upgrade.handleUpgrade (Some "production") None "localhost" "8080" verify find request
  = (Upgrade.Upgraded (Some "u1"),
     [Upgrade.JwtVerify "t0k3n"; Upgrade.FindById (JStr "u1")]).
Proof.
  intros request verify find.
  destruct (client_upgrade_characterised (Some "production") None "localhost" "8080"
              verify find request (Upgrade.mkUrl "/ws" (Some "t0k3n")) eq_refl eq_refl)
    as (Hiff & _).
  apply Hiff. split; [reflexivity|].
  exists "t0k3n", (JObj [("id", JStr "u1")]). split_and!; reflexivity.
Defined.

(** ** Liveness supervision *)

Lemma heartbeatSocket_flag k : isAlive (heartbeatSocket k) = Some false.
Proof.
  unfold heartbeatSocket, startClosing.
  destruct (isAlive k) as [[]|] eqn:Ha; try done.
  destruct (readyState k); simpl; done.
Qed.

(** X15. Two heartbeat cycles with nothing in between, from a reachable
    state: every registered client, whatever its flag was, has had
    [terminate()] called on it by the end of the second cycle; the cycles
    change neither the registry nor the device slot nor the device status. *)
Theorem two_silent_cycles_terminate s now1 now2 u h :
  reachable s ->
  (u, h) ∈ clients s ->
  exists s1 s2 new,
    step now1 EvHeartbeat s = Ret tt s1 /\
    step now2 EvHeartbeat s1 = Ret tt s2 /\
    trace s2 = trace s ++ new /\
    ETerminate h ∈ new /\
    clients s2 = clients s /\
    esp32Client s2 = esp32Client s /\
    esp32Status s2 = esp32Status s.
Proof.
  intros Hreach Hin. pose proof (reachable_wf s Hreach) as Hwf.
  destruct (wf_clients s Hwf u h Hin) as (k & Hk & _).
  destruct (heartbeat_spec s Hwf) as (extra1 & Hrun1).
  set (s1 := setTrace (trace (afterHeartbeatLoop (clients s) s) ++ extra1)
                      (afterHeartbeatLoop (clients s) s)) in *.
  assert (Hreach1 : reachable s1).
  { change s1 with (finalState (Ret tt s1)). rewrite <- Hrun1.
    apply (reach_step s now1 EvHeartbeat Hreach). }
  pose proof (reachable_wf s1 Hreach1) as Hwf1.
  destruct (heartbeat_spec s1 Hwf1) as (extra2 & Hrun2).
  assert (Hflag : isAlive (sockAt (sockets s1) h) = Some false).
  { unfold sockAt, s1. cbn. rewrite lookup_heartbeat by apply Hwf.
    rewrite bool_decide_eq_true_2, Hk; [apply heartbeatSocket_flag|].
    change h with ((u, h).2). by apply list_elem_of_fmap_2. }
  assert (Ht1 : trace s1 = trace s ++ flat_map (heartbeatEffects (sockets s)) (clients s)
                            ++ extra1).
  { unfold s1. cbn. by rewrite app_assoc. }
  exists s1, (setTrace (trace (afterHeartbeatLoop (clients s1) s1) ++ extra2)
                       (afterHeartbeatLoop (clients s1) s1)),
         (flat_map (heartbeatEffects (sockets s)) (clients s) ++ extra1 ++
          flat_map (heartbeatEffects (sockets s1)) (clients s) ++ extra2).
  split; [exact Hrun1|]. split; [exact Hrun2|].
  split_and!; try reflexivity.
  - cbn [trace setTrace afterHeartbeatLoop]. rewrite Ht1.
    change (clients s1) with (clients s). by rewrite <- !app_assoc.
  - apply elem_of_app. right. apply elem_of_app. right. apply elem_of_app. left.
    apply list_elem_of_In, in_flat_map. exists (u, h).
    split; [by apply list_elem_of_In|].
    unfold heartbeatEffects. cbn [snd]. rewrite Hflag. left. reflexivity.
Qed.

Lemma two_silent_cycles_terminate_witness :
  let s := runEvents [(0, EvConnection "/ws" (Some "alice"));
                      (1, EvConnection "/ws" (Some "bob"))] initialState in
  exists s1 s2 new,
    step 30000 EvHeartbeat s = Ret tt s1 /\
    step 60000 EvHeartbeat s1 = Ret tt s2 /\
    trace s2 = trace s ++ new /\
    ETerminate 1%nat ∈ new /\
    clients s2 = clients s.
Proof.
  intros s.
  destruct (two_silent_cycles_terminate s 30000 60000 "bob" 1%nat)
    as (s1 & s2 & new & H1 & H2 & H3 & H4 & H5 & _).
  - apply reachable_runEvents, reach_init.
  - vm_compute. right. left.
  - exists s1, s2, new. done.
Defined.

(** X16. The close event of any socket that has the device listeners,
    whether or not it is the one in the slot, empties the slot, clears
    [connected] and [isStreaming] and broadcasts the disconnected status;
    [lastSeen] and the device record are kept. *)
Theorem device_close_clears_slot now h s :
  wiring (sockOf s h) = DeviceSocket ->
  readyState (sockOf s h) <> CLOSED ->
  NoDup (clients s).*1 ->
  exists s',
    step now (EvClose h) s = Ret tt s' /\
    esp32Client s' = None /\
    connected (esp32Status s') = false /\
    isStreaming (esp32Status s') = JBool false /\
    lastSeen (esp32Status s') = lastSeen (esp32Status s) /\
    deviceInfo (esp32Status s') = deviceInfo (esp32Status s) /\
    readyState (sockOf s' h) = CLOSED /\
    trace s' = trace s ++
               map (fun e => ESend e.2 (disconnectedStatus now))
                   (List.filter (delivered (sockets s')) (clients s)).
Proof.
  intros Hw Hr Hnd.
  assert (Hrun : step now (EvClose h) s =
                 (updSocket h (setReadyState CLOSED) ;;; handleESP32Disconnect now) s).
  { unfold step, onSocket. unfold bind at 1. unfold gets. rewrite Hw.
    by destruct (readyState (sockOf s h)). }
  rewrite Hrun. unfold handleESP32Disconnect, bind, updSocket, updStatus, modify.
  fold (disconnectedStatus now).
  rewrite broadcastToClients_spec by done.
  eexists. split; [reflexivity|]. cbn. split_and!; try done.
  unfold sockOf. cbn. rewrite lookup_alter_eq.
  unfold sockOf in Hr. destruct (sockets s !! h); done.
Qed.

Lemma device_close_clears_slot_witness :
  let s := runEvents [(0, EvConnection "/ws" (Some "alice"));
                      (1, EvConnection "/esp32" None);
                      (2, EvConnection "/esp32" None)] initialState in
  exists s',
    step 3 (EvClose 1%nat) s = Ret tt s' /\
    esp32Client s = Some 2%nat /\
    esp32Client s' = None /\
    connected (esp32Status s') = false /\
    readyState (sockOf s' 2%nat) = OPEN.
Proof.
  intros s.
  destruct (device_close_clears_slot 3 1%nat s)
    as (s' & Hrun & Hslot & Hconn & _).
  - reflexivity.
  - vm_compute. discriminate.
  - apply (bool_decide_unpack _). vm_compute. exact I.
  - exists s'. split_and!; [exact Hrun | reflexivity | exact Hslot | exact Hconn |].
    injection Hrun as <-. reflexivity.
Defined.

(** X17. The staleness check does nothing at all when the status says
    disconnected, when no frame was ever seen, or when the last frame is at
    most the timeout old (the comparison is strict): no repeated offline
    broadcast follows a first one. *)
Theorem staleness_check_noop now s :
  connected (esp32Status s) = false \/
  lastSeen (esp32Status s) = None \/
  (exists seen, lastSeen (esp32Status s) = Some seen /\ now - seen <= esp32TimeoutInterval) ->
  step now EvStatusCheck s = Ret tt s.
Proof.
  intros H. unfold step, checkESP32Status, bind, gets.
  destruct (connected (esp32Status s)) eqn:Hc; [|by destruct (lastSeen (esp32Status s))].
  destruct H as [H | [H | (seen & H & Hle)]]; [done | by rewrite H |].
  rewrite H. assert (Hgt : (now - seen >? esp32TimeoutInterval) = false).
  { rewrite Z.gtb_ltb. by apply Z.ltb_ge. }
  by rewrite Hgt.
Qed.

Lemma staleness_check_noop_witness :
  let s := runEvents [(0, EvConnection "/esp32" None)] initialState in
  step 60000 EvStatusCheck s = Ret tt s /\
  step 90000 EvStatusCheck (runEvents [(60001, EvStatusCheck)] s)
    = Ret tt (runEvents [(60001, EvStatusCheck)] s).
Proof.
  intros s. split.
  - apply (staleness_check_noop 60000 s). right. right. exists 0. split; [reflexivity|].
    vm_compute. discriminate.
  - apply (staleness_check_noop 90000). left. reflexivity.
Defined.

(** ** Invariants of the running service *)

(** X18. In every reachable state the registry has one entry per user, no
    connection object is registered under two users, every registered
    socket carries the listeners of the user it is registered under and is
    open or closing, and no connection object is in the connecting state. *)
Theorem registry_invariant s :
  reachable s ->
  NoDup (clients s).*1 /\
  NoDup (clients s).*2 /\
  (forall u h, (u, h) ∈ clients s ->
     mapGet u (clients s) = Some h /\
     wiring (sockOf s h) = ClientSocket u /\
     (readyState (sockOf s h) = OPEN \/ readyState (sockOf s h) = CLOSING)) /\
  (forall h, readyState (sockOf s h) <> CONNECTING).
Proof.
  intros Hreach. pose proof (reachable_wf s Hreach) as Hwf.
  split; [apply Hwf|]. split; [apply Hwf|].
  split; [|intros h; by apply wf_not_connecting].
  intros u h Hin. destruct (wf_clients s Hwf u h Hin) as (k & Hk & Hw & Hr).
  destruct (wf_sockets s Hwf h k Hk) as [_ Hnc].
  split; [apply mapGet_elem; [apply Hwf | done]|].
  unfold sockOf. rewrite Hk. simpl. split; [done|].
  destruct (readyState k); auto; done.
Qed.

Lemma registry_invariant_witness :
  let s := runEvents [(0, EvConnection "/ws" (Some "alice"));
                      (1, EvConnection "/ws" (Some "bob"));
                      (2, EvConnection "/ws" (Some "alice"));
                      (3, EvClose 0%nat)] initialState in
  NoDup (clients s).*1 /\ NoDup (clients s).*2 /\
  forall h, readyState (sockOf s h) <> CONNECTING.
Proof.
  intros s.
  destruct (registry_invariant s) as (H1 & H2 & _ & H4).
  - apply reachable_runEvents, reach_init.
  - split; [exact H1|]. split; [exact H2 | exact H4].
Defined.

Global Instance seenStays_preorder : PreOrder seenStays.
Proof. split; unfold seenStays; [intros s | intros s1 s2 s3]; auto. Qed.

Lemma presenceKept_seenStays s s' : presenceKept s s' -> seenStays s s'.
Proof. intros [_ H]. unfold seenStays. by rewrite H. Qed.

Ltac seen_leaf :=
  first [ intros; apply presenceKept_seenStays, sendFrame_presenceKept; assumption
        | unfold seenStays; simpl; first [done | intros _; by eexists] ].

Lemma heartbeatLoop_seenStays entries : mrel seenStays (heartbeatLoop entries).
Proof.
  induction entries as [|[u h] rest IH]; simpl; [apply mrel_ret; apply _|].
  mrel_go seen_leaf. exact IH.
Qed.

Lemma handleESP32Message_seenStays now data : mrel seenStays (handleESP32Message now data).
Proof.
  intros s. transitivity (setStatus (setLastSeen (Some now) (esp32Status s)) s).
  - unfold seenStays. simpl. intros _. by eexists.
  - apply presenceKept_seenStays, handleESP32Message_presence.
Qed.

Lemma handleClientMessage_seenStays now ws userId data :
  mrel seenStays (handleClientMessage now ws userId data).
Proof.
  unfold handleClientMessage, handleGetSensorData, queryFailed, handleControlESP32.
  mrel_go seen_leaf.
Qed.

Lemma step_seenStays now ev : mrel seenStays (step now ev).
Proof.
  destruct ev; unfold step.
  - unfold onConnection, handleESP32Connection, handleClientConnection, addClient.
    mrel_go seen_leaf.
  - unfold onSocket. mrel_go seen_leaf;
      first [apply handleESP32Message_seenStays | apply handleClientMessage_seenStays].
  - unfold onSocket. mrel_go seen_leaf.
  - unfold onSocket, handleESP32Disconnect. mrel_go seen_leaf.
  - unfold onSocket, handleESP32Disconnect. mrel_go seen_leaf.
  - unfold heartbeat. mrel_go seen_leaf. apply heartbeatLoop_seenStays.
  - unfold checkESP32Status. mrel_go seen_leaf.
  - unfold resumeSensorData. mrel_go seen_leaf.
  - unfold resumeGetSensorData, queryFailed. mrel_go seen_leaf.
  - mrel_go seen_leaf.
Qed.

Lemma registration_step now path user s :
  String.eqb path "/esp32" = true ->
  connected (esp32Status (finalState (step now (EvConnection path user) s))) = true /\
  lastSeen (esp32Status (finalState (step now (EvConnection path user) s))) = Some now.
Proof.
  intros Hpath. unfold step. rewrite onConnection_eq, Hpath.
  destruct (handleESP32Connection_spec now (nextHandle s) (allocated s))
    as (s' & -> & _ & Hc & Hl & _). done.
Qed.

(** X19. No handler resets [lastSeen] to [null], and in every reachable
    state a status that says connected has a [lastSeen]: the guard
    [connected && lastSeen] of the staleness check never hides a connected
    device. *)
Theorem connected_has_last_seen s :
  reachable s ->
  (connected (esp32Status s) = true -> is_Some (lastSeen (esp32Status s))) /\
  forall now ev,
    is_Some (lastSeen (esp32Status s)) ->
    is_Some (lastSeen (esp32Status (finalState (step now ev s)))).
Proof.
  intros Hreach. split; [|intros now ev; apply step_seenStays].
  induction Hreach as [|s now ev Hs IH]; [done|].
  intros Hc. destruct (registersDevice ev) eqn:Hev.
  - destruct ev; try done. simpl in Hev.
    destruct (registration_step now path user s Hev) as [_ ->]. by eexists.
  - apply step_seenStays, IH. by apply (step_connStays now ev Hev).
Qed.

Lemma connected_has_last_seen_witness :
  let s := runEvents [(5, EvConnection "/esp32" None); (9, EvHeartbeat)] initialState in
  is_Some (lastSeen (esp32Status s)).
Proof.
  intros s.
  destruct (connected_has_last_seen s) as [H _].
  - apply reachable_runEvents, reach_init.
  - apply H. reflexivity.
Defined.

(** ** The command relay when the device send fails *)

(** X20. A [control-esp32] message from a user whose registered connection
    is open and sends, while the device connection is open but its send
    throws: the failure is logged by [sendToESP32], nothing reaches the
    device, and the requester is still sent the [command-sent]
    acknowledgment. The info line that closes the handler says that the
    command was sent; for a command that cannot be converted to a string it
    throws, which adds a second error to the log. *)
Theorem command_acknowledged_though_not_sent now ws userId h d data fs s :
  parsed data = Some (JObj fs) ->
  objGet "type" fs = Some (JStr "control-esp32") ->
  mapGet userId (clients s) = Some h ->
  readyState (sockOf s h) = OPEN ->
  sendThrows (sockOf s h) = false ->
  esp32Client s = Some d ->
  readyState (sockOf s d) = OPEN ->
  sendThrows (sockOf s d) = true ->
  handleClientMessage now ws userId data s =
  Ret tt (let s1 := setTrace (trace s ++ [ESend h (commandSent now (JObj fs))])
                      (setLogs (logs s ++ [(LError, "Error sending to ESP32: send failed")])
                         s) in
          if convertible (jprop (JObj fs) "command") then s1
          else setLogs (logs s1 ++
                        [(LError, "Error controlling ESP32: " +:+ conversionError)]) s1).
Proof.
  intros Hparsed Hty Hreg Hopen Hsend Hd Hdopen Hdsend.
  assert (Hdispatch :
    handleClientMessage now ws userId data s =
    tryCatch (handleControlESP32 now userId (JObj fs))
             (fun e => logAt LError ("Client message handling error: " +:+ e)) s).
  { unfold handleClientMessage, tryCatch. rewrite Hparsed.
    unfold jprop. rewrite Hty. reflexivity. }
  rewrite Hdispatch. clear Hdispatch.
  unfold handleControlESP32, tryCatch, bind, gets.
  rewrite Hd, Hdopen. simpl.
  rewrite sendToESP32_eq, Hd, Hdopen, Hdsend. simpl.
  rewrite sendToUser_eq. cbn [clients setLogs].
  rewrite Hreg, !sockOf_setLogs, Hopen, Hsend.
  cbv zeta. unfold template, ret, throw, logAt, modify. cbn [isOpen].
  by destruct (convertible _).
Qed.

Lemma command_acknowledged_though_not_sent_witness :
  let fs := [("type", JStr "control-esp32"); ("command", JStr "led-on")] in
  let data := mkFrame false 0 "" (Some (JObj fs)) in
  let s0 := finalState (step 1 (EvConnection "/esp32" None)
              (finalState (step 0 (EvConnection "/ws" (Some "alice")) initialState))) in
  let s := setSockets (alter (setSendThrows true) 1%nat (sockets s0)) s0 in
  handleClientMessage 2 0%nat "alice" data s =
  Ret tt (setTrace (trace s ++ [ESend 0%nat (commandSent 2 (JObj fs))])
            (setLogs (logs s ++ [(LError, "Error sending to ESP32: send failed")]) s)).
Proof.
  intros fs data s0 s.
  rewrite (command_acknowledged_though_not_sent 2 0%nat "alice" 0%nat 1%nat data fs s);
    vm_compute; reflexivity.
Defined.

(** ** Broadcasts *)

Lemma filter_filter_sub (A : Type) (f g : A -> bool) (l : list A) :
  (forall x, f x = true -> g x = true) ->
  List.filter f (List.filter g l) = List.filter f l.
Proof.
  intros H. induction l as [|x l IH]; simpl; [done|].
  destruct (g x) eqn:Hg; simpl.
  - by rewrite IH.
  - destruct (f x) eqn:Hf; [|done]. apply H in Hf. congruence.
Qed.

Lemma filter_filter_none (A : Type) (f g : A -> bool) (l : list A) :
  (forall x, g x = true -> f x = false) ->
  List.filter f (List.filter g l) = [].
Proof.
  intros H. induction l as [|x l IH]; simpl; [done|].
  destruct (g x) eqn:Hg; simpl; [|done]. by rewrite (H x Hg).
Qed.

Lemma filter_fst_NoDup (f : string * nat -> bool) (l : list (string * nat)) :
  NoDup l.*1 -> NoDup (List.filter f l).*1.
Proof.
  intros H. eapply sublist_NoDup; [exact H|].
  apply fmap_sublist. clear H. induction l as [|x l IH]; simpl; [done|].
  destruct (f x); [by apply sublist_skip | by apply sublist_cons].
Qed.

Lemma delivered_kept σ e : delivered σ e = true -> negb (failing σ e) = true.
Proof. intros H. by rewrite (delivered_not_failing σ e H). Qed.

(** X21. A broadcast removes exactly the entries whose send threw and leaves
    the entries it skipped (their socket is not open) registered; a second
    broadcast, of any message, right after it reaches the same number of
    clients, removes no entry and logs nothing. *)
Theorem broadcast_settles_registry data data' s :
  NoDup (clients s).*1 ->
  exists n s1 s2,
    broadcastToClients data s = Ret n s1 /\
    broadcastToClients data' s1 = Ret n s2 /\
    (forall e, e ∈ clients s1 <-> e ∈ clients s /\ failing (sockets s) e = false) /\
    clients s2 = clients s1 /\
    logs s2 = logs s1 /\
    trace s2 = trace s ++
               map (fun e => ESend e.2 data)
                   (List.filter (delivered (sockets s)) (clients s)) ++
               map (fun e => ESend e.2 data')
                   (List.filter (delivered (sockets s)) (clients s)).
Proof.
  intros Hnd.
  assert (Hnd1 : NoDup (clients (afterBroadcast data s)).*1)
    by (simpl; by apply filter_fst_NoDup).
  eexists _, _, _. split; [by apply broadcastToClients_spec|].
  split; [|split_and!].
  - rewrite (broadcastToClients_spec data' _ Hnd1). cbn [afterBroadcast sockets clients].
    by rewrite filter_filter_sub by apply delivered_kept.
  - intros e. cbn [afterBroadcast clients].
    rewrite !list_elem_of_In, List.filter_In, negb_true_iff. done.
  - cbn [afterBroadcast clients sockets].
    apply filter_all. intros e He.
    apply list_elem_of_In, List.filter_In in He. tauto.
  - cbn [afterBroadcast clients sockets logs].
    rewrite filter_filter_none; [simpl; by rewrite app_nil_r|].
    intros e. by rewrite negb_true_iff.
  - cbn [afterBroadcast clients sockets trace].
    rewrite filter_filter_sub by apply delivered_kept.
    by rewrite <- app_assoc.
Qed.

Lemma broadcast_settles_registry_witness :
  let s0 := runEvents [(0, EvConnection "/ws" (Some "alice"));
                       (1, EvConnection "/ws" (Some "bob"));
                       (2, EvConnection "/ws" (Some "carol"))] initialState in
  let s := setSockets (alter (setSendThrows true) 1%nat
                         (alter startClosing 2%nat (sockets s0))) s0 in
  exists s1 s2,
    broadcastToClients (JStr "a") s = Ret 1%nat s1 /\
    broadcastToClients (JStr "b") s1 = Ret 1%nat s2 /\
    clients s1 = [("alice", 0%nat); ("carol", 2%nat)] /\
    clients s2 = clients s1.
Proof.
  intros s0 s.
  destruct (broadcast_settles_registry (JStr "a") (JStr "b") s)
    as (n & s1 & s2 & H1 & H2 & _ & H4 & _).
  - apply (bool_decide_unpack _). vm_compute. exact I.
  - pose proof (f_equal (fun o => match o with Ret k _ => k | Throw _ _ => 0%nat end) H1) as Hn.
    pose proof (f_equal (fun o => clients (finalState o)) H1) as Hc.
    vm_compute in Hn. cbn beta in Hc. cbn [finalState] in Hc.
    assert (Hc' : clients (finalState (broadcastToClients (JStr "a") s)) =
                  [("alice", 0%nat); ("carol", 2%nat)]) by (vm_compute; reflexivity).
    rewrite Hc' in Hc. subst n. exists s1, s2. split_and!; [exact H1 | exact H2 | by symmetry | exact H4].
Defined.

(** ** Saves that settle out of order *)

(** X22. Two saves are awaited, no client's send throws, and the later
    save settles first. The broadcasts go out, and the readings are stored,
    in the order in which the saves settle, not in the order in which the
    readings arrived. *)
Theorem sensor_broadcasts_follow_settle_order p1 p2 f1 f2 s :
  pendingSaves s !! 0%nat = Some p1 ->
  pendingSaves s !! 1%nat = Some p2 ->
  NoDup (clients s).*1 ->
  (forall e, e ∈ clients s -> failing (sockets s) e = false) ->
  exists s1 s2,
    resumeSensorData 1 f2 s = Ret tt s1 /\
    resumeSensorData 0 f1 s1 = Ret tt s2 /\
    trace s2 = trace s ++ settledSends s p2 ++ settledSends s p1 /\
    db s2 = db s ++ settledStore f2 p2 ++ settledStore f1 p1 /\
    pendingSaves s2 = drop 2 (pendingSaves s).
Proof.
  intros H0 H1 Hnd Hok.
  destruct (resumeSensorData_spec 1 f2 p2 s H1 Hnd)
    as (s1 & Hrun1 & Ht1 & Hdb1 & Hp1 & Hc1 & Hk1 & _).
  assert (Hc : clients s1 = clients s).
  { rewrite Hc1. apply filter_all. intros e He. by rewrite (Hok e He). }
  assert (H0' : pendingSaves s1 !! 0%nat = Some p1).
  { rewrite Hp1. destruct (pendingSaves s) as [|q [|q' l]]; simpl in *; congruence. }
  destruct (resumeSensorData_spec 0 f1 p1 s1 H0')
    as (s2 & Hrun2 & Ht2 & Hdb2 & Hp2 & _); [by rewrite Hc|].
  exists s1, s2. split_and!; [done | done | | |].
  - rewrite Ht2, Ht1. unfold settledSends. by rewrite Hc, Hk1, <- app_assoc.
  - by rewrite Hdb2, Hdb1, <- app_assoc.
  - rewrite Hp2, Hp1. by destruct (pendingSaves s) as [|q [|q' l]].
Qed.

Lemma sensor_broadcasts_follow_settle_order_witness :
  let frame v := mkFrame false 0 ""
                   (Some (JObj [("type", JStr "sensor-data"); ("sensorType", JStr "temp");
                                ("data", JNum v)])) in
  let s := runEvents [(0, EvConnection "/ws" (Some "alice"));
                      (1, EvConnection "/esp32" None);
                      (2, EvMessage 1%nat (frame 20));
                      (3, EvMessage 1%nat (frame 21))] initialState in
  exists p1 p2 s1 s2,
    pendingSaves s = [p1; p2] /\
    resumeSensorData 1 None s = Ret tt s1 /\
    resumeSensorData 0 None s1 = Ret tt s2 /\
    db s2 = [psDoc p2; psDoc p1] /\
    trace s2 = trace s ++ [ESend 0%nat (sensorBroadcast (psSensorData p2));
                           ESend 0%nat (sensorBroadcast (psSensorData p1))].
Proof.
  intros frame s.
  assert (Hp : exists p1 p2, pendingSaves s = [p1; p2]) by (vm_compute; by eexists _, _).
  destruct Hp as (p1 & p2 & Hp). exists p1, p2.
  destruct (sensor_broadcasts_follow_settle_order p1 p2 None None s)
    as (s1 & s2 & H1 & H2 & Ht & Hdb & _).
  - by rewrite Hp.
  - by rewrite Hp.
  - apply (bool_decide_unpack _). vm_compute. exact I.
  - intros e He. assert (Hc : clients s = [("alice", 0%nat)]) by (vm_compute; reflexivity).
    rewrite Hc in He. apply list_elem_of_singleton in He as ->. vm_compute. reflexivity.
  - exists s1, s2. split_and!; [done | done | done | |].
    + rewrite Hdb. vm_compute. reflexivity.
    + rewrite Ht. f_equal.
Defined.

(** ** Accounting of the saves *)

Global Instance savesCover_preorder : PreOrder savesCover.
Proof. split; unfold savesCover; [intros s | intros s1 s2 s3]; lia. Qed.

Lemma savesIssued_prefix (t t' : list Effect) :
  t `prefix_of` t' ->
  (length (List.filter isSave t) <= length (List.filter isSave t'))%nat.
Proof. intros [k ->]. rewrite List.filter_app, length_app. lia. Qed.

Lemma sendFrame_savesCover s s' : sendFrame s s' -> savesCover s s'.
Proof.
  intros H. unfold savesCover, savesHeld, savesIssued.
  rewrite (sf_db _ _ H), (sf_saves _ _ H).
  pose proof (savesIssued_prefix _ _ (sf_trace _ _ H)). lia.
Qed.

Ltac saves_leaf :=
  first [ intros; apply sendFrame_savesCover; assumption
        | unfold savesCover, savesHeld, savesIssued; simpl;
          rewrite ?List.filter_app, ?length_app; simpl; lia ].

Lemma saveSensorDataToDatabase_savesCover sensorData :
  mrel savesCover (saveSensorDataToDatabase sensorData).
Proof.
  intros s. unfold saveSensorDataToDatabase, tryCatch, bind, gets, emit, modify.
  cbn [finalState]. unfold savesCover, savesHeld, savesIssued. simpl.
  rewrite List.filter_app, !length_app. simpl. lia.
Qed.

Lemma resumeSensorData_savesCover i failure : mrel savesCover (resumeSensorData i failure).
Proof.
  intros s. unfold resumeSensorData, bind at 1, gets.
  destruct (pendingSaves s !! i) as [p|] eqn:Hi; [|reflexivity].
  cbv zeta.
  assert (H : mrel savesCover
    (tryCatch (broadcastToClients (sensorBroadcast (psSensorData p)) ;;;
               template (jprop (JObj (psSensorData p)) "sensorType"))
              (fun e => logAt LError ("Error handling sensor data: " +:+ e))))
    by mrel_go saves_leaf.
  pose proof (length_delete (pendingSaves s) i (mk_is_Some _ _ Hi)) as Hlen.
  apply lookup_lt_Some in Hi.
  set (s0 := setPendingSaves (delete i (pendingSaves s)) s).
  destruct failure as [e|];
    [|destruct (convertible (jprop (JObj (psSensorData p)) "sensorType")) eqn:Hconv].
  - transitivity
      (setLogs (logs s0 ++ [(LError, "Failed to save sensor data to database: " +:+ e)]) s0).
    + unfold savesCover, savesHeld, savesIssued. simpl. lia.
    + apply H.
  - transitivity (setDb (db s0 ++ [psDoc p]) s0).
    + unfold savesCover, savesHeld, savesIssued. simpl. rewrite length_app. simpl. lia.
    + unfold bind at 1, modify. fold s0.
      unfold bind at 1, tryCatch at 1, bind at 1, modify, template at 1.
      rewrite Hconv. apply H.
  - transitivity
      (setLogs (logs s0 ++ [(LError, "Failed to save sensor data to database: "
                                     +:+ conversionError)])
               (setDb (db s0 ++ [psDoc p]) s0)).
    + unfold savesCover, savesHeld, savesIssued. simpl. rewrite length_app. simpl. lia.
    + unfold bind at 1, modify. fold s0.
      unfold bind at 1, tryCatch at 1, bind at 1, modify, template at 1.
      rewrite Hconv. apply H.
Qed.

Lemma handleESP32Message_savesCover now data : mrel savesCover (handleESP32Message now data).
Proof.
  unfold handleESP32Message, handleDeviceInfo, handleSensorData, handleStatusUpdate.
  mrel_go saves_leaf; apply saveSensorDataToDatabase_savesCover.
Qed.

Lemma heartbeatLoop_savesCover entries : mrel savesCover (heartbeatLoop entries).
Proof.
  induction entries as [|[u h] rest IH]; simpl; [apply mrel_ret; apply _|].
  mrel_go saves_leaf. exact IH.
Qed.

Lemma handleClientMessage_savesCover now ws userId data :
  mrel savesCover (handleClientMessage now ws userId data).
Proof.
  unfold handleClientMessage, handleGetSensorData, queryFailed, handleControlESP32.
  mrel_go saves_leaf.
Qed.

Lemma step_savesCover now ev : mrel savesCover (step now ev).
Proof.
  destruct ev; unfold step.
  - unfold onConnection, handleESP32Connection, handleClientConnection, addClient.
    mrel_go saves_leaf.
  - unfold onSocket. mrel_go saves_leaf;
      first [apply handleESP32Message_savesCover | apply handleClientMessage_savesCover].
  - unfold onSocket. mrel_go saves_leaf.
  - unfold onSocket, handleESP32Disconnect. mrel_go saves_leaf.
  - unfold onSocket, handleESP32Disconnect. mrel_go saves_leaf.
  - unfold heartbeat. mrel_go saves_leaf. apply heartbeatLoop_savesCover.
  - unfold checkESP32Status. mrel_go saves_leaf.
  - apply resumeSensorData_savesCover.
  - unfold resumeGetSensorData, queryFailed. mrel_go saves_leaf.
  - mrel_go saves_leaf.
Qed.

(** X23. In every reachable state the stored readings and the saves still
    awaited together number at most the [save()] calls made so far: the
    store never holds more readings than [save()] was called, and settling
    a save never leaves more saves awaited than were issued. *)
Theorem stored_readings_accounted s :
  reachable s ->
  (length (db s) + length (pendingSaves s) <= savesIssued s)%nat.
Proof.
  induction 1 as [|s now ev Hs IH]; [simpl; lia|].
  pose proof (step_savesCover now ev s) as H.
  unfold savesCover, savesHeld in H. lia.
Qed.

Lemma stored_readings_accounted_witness :
  let frame := mkFrame false 0 ""
                 (Some (JObj [("type", JStr "sensor-data"); ("sensorType", JStr "temp")])) in
  let s := runEvents [(0, EvConnection "/esp32" None);
                      (1, EvMessage 0%nat frame);
                      (2, EvMessage 0%nat frame);
                      (3, EvSaveSettled 0%nat (Some "timeout"));
                      (4, EvSaveSettled 0%nat None);
                      (5, EvSaveSettled 0%nat None)] initialState in
  (length (db s) + length (pendingSaves s) <= savesIssued s)%nat /\
  length (db s) = 1%nat /\ savesIssued s = 2%nat.
Proof.
  intros frame s. split.
  - apply stored_readings_accounted, reachable_runEvents, reach_init.
  - split; vm_compute; reflexivity.
Defined.

(** ** Cleanup *)

Lemma startClosing_idem k : startClosing (startClosing k) = startClosing k.
Proof. unfold startClosing. destruct (readyState k) eqn:Hr; simpl; by rewrite ?Hr. Qed.

Lemma startClosing_not_open k : isOpen (readyState (startClosing k)) = false.
Proof. unfold startClosing. destruct (readyState k) eqn:Hr; simpl; by rewrite ?Hr. Qed.

Lemma closeLoop_spec l :
  forall s,
    closeLoop l s =
    Ret tt (mkState (clients s) (esp32Client s) (esp32Status s)
                    (foldl (fun σ e => alter startClosing e.2 σ) (sockets s) l)
                    (nextHandle s) (pendingSaves s) (pendingQueries s) (db s)
                    (trace s ++ map (fun e => EClose e.2 None) l) (logs s)).
Proof.
  induction l as [|[u h] l IH]; intros s.
  - simpl. unfold ret. rewrite app_nil_r. by destruct s.
  - simpl closeLoop. unfold bind at 1, wsClose, bind, emit, updSocket, modify.
    rewrite IH. simpl. by rewrite <- app_assoc.
Qed.

Lemma lookup_closeAll (l : list (string * nat)) :
  forall (σ : gmap nat Socket) (h : nat),
    foldl (fun σ e => alter startClosing e.2 σ) σ l !! h =
    if bool_decide (h ∈ l.*2) then startClosing <$> σ !! h else σ !! h.
Proof.
  induction l as [|[u h1] l IH]; intros σ h; [done|].
  rewrite fmap_cons. cbn [foldl snd]. rewrite IH.
  destruct (decide (h = h1)) as [->|Hne].
  - rewrite (bool_decide_eq_true_2 (h1 ∈ h1 :: l.*2)) by left.
    rewrite lookup_alter_eq.
    destruct (bool_decide (h1 ∈ l.*2)); [|done].
    destruct (σ !! h1); simpl; [|done]. by rewrite startClosing_idem.
  - rewrite lookup_alter_ne by done.
    destruct (bool_decide (h ∈ l.*2)) eqn:Hd.
    + apply bool_decide_eq_true_1 in Hd.
      by rewrite bool_decide_eq_true_2 by by right.
    + apply bool_decide_eq_false_1 in Hd.
      rewrite bool_decide_eq_false_2; [done|].
      intros [?|?]%elem_of_cons; done.
Qed.

Lemma shutdown_spec s :
  exists s',
    shutdown s = Ret tt s' /\
    trace s' = trace s ++ shutdownCloses s /\
    clients s' = clients s /\
    esp32Client s' = esp32Client s /\
    esp32Status s' = esp32Status s /\
    logs s' = logs s /\
    forall h,
      sockets s' !! h =
      if bool_decide (esp32Client s = Some h \/ h ∈ (clients s).*2)
      then startClosing <$> sockets s !! h
      else sockets s !! h.
Proof.
  unfold shutdown, bind at 1, gets. unfold shutdownCloses.
  destruct (esp32Client s) as [d|] eqn:Hd.
  - unfold bind at 1, wsClose, bind at 1, emit, updSocket, modify, bind, gets.
    cbn [clients setSockets setTrace]. rewrite closeLoop_spec.
    eexists. split; [reflexivity|]. cbn [trace clients esp32Client esp32Status logs sockets
                                          setSockets setTrace].
    split_and!; try done.
    + by rewrite <- app_assoc.
    + intros h. rewrite lookup_closeAll.
      destruct (decide (h = d)) as [->|Hne].
      * rewrite lookup_alter_eq. rewrite (bool_decide_eq_true_2 (_ \/ _)) by by left.
        destruct (bool_decide (d ∈ (clients s).*2)); [|done].
        destruct (sockets s !! d); simpl; [|done]. by rewrite startClosing_idem.
      * rewrite lookup_alter_ne by done.
        destruct (bool_decide (h ∈ (clients s).*2)) eqn:Hin.
        -- apply bool_decide_eq_true_1 in Hin.
           by rewrite bool_decide_eq_true_2 by by right.
        -- apply bool_decide_eq_false_1 in Hin.
           rewrite bool_decide_eq_false_2; [done|].
           intros [[= ->]|?]; done.
  - unfold bind, ret, gets. rewrite closeLoop_spec.
    eexists. split; [reflexivity|]. simpl.
    split_and!; try done.
    intros h. rewrite lookup_closeAll.
    destruct (bool_decide (h ∈ (clients s).*2)) eqn:Hin.
    + apply bool_decide_eq_true_1 in Hin.
      by rewrite bool_decide_eq_true_2 by by right.
    + apply bool_decide_eq_false_1 in Hin.
      rewrite bool_decide_eq_false_2; [done|].
      intros [?|?]; done.
Qed.

(** X24. [shutdown] always returns. It calls [close()] once on the device
    connection, if the slot holds one, and then once on every registered
    client connection, in registry order; each of these connections that was
    open or connecting is closing afterwards and none of them is open; every
    other connection object is untouched. The registry, the device slot and
    the device status are as before: [connected] is not cleared and no
    entry is removed by [shutdown] itself. *)
Theorem shutdown_closes_every_connection s :
  exists s',
    shutdown s = Ret tt s' /\
    trace s' = trace s ++ shutdownCloses s /\
    clients s' = clients s /\
    esp32Client s' = esp32Client s /\
    esp32Status s' = esp32Status s /\
    (forall h, closedByShutdown s h ->
       sockets s' !! h = startClosing <$> sockets s !! h /\
       isOpen (readyState (sockOf s' h)) = false) /\
    (forall h, ~ closedByShutdown s h -> sockets s' !! h = sockets s !! h).
Proof.
  destruct (shutdown_spec s) as (s' & Hrun & Ht & Hc & Hd & Hst & _ & Hk).
  exists s'. split_and!; try done.
  - intros h Hh. unfold sockOf. rewrite Hk, bool_decide_eq_true_2 by done.
    split; [done|]. destruct (sockets s !! h); simpl; [|done].
    apply startClosing_not_open.
  - intros h Hh. by rewrite Hk, bool_decide_eq_false_2.
Qed.

(** X25. After [shutdown], and before any close event arrives, nothing is
    sent any more: a broadcast reaches no client and changes nothing, and
    [sendToESP32] returns [false] without sending. *)
Theorem nothing_sent_after_shutdown data s s' :
  NoDup (clients s).*1 ->
  shutdown s = Ret tt s' ->
  (exists s'', broadcastToClients data s' = Ret 0%nat s'' /\
               trace s'' = trace s' /\ clients s'' = clients s' /\ logs s'' = logs s') /\
  sendToESP32 data s' = Ret false s'.
Proof.
  intros Hnd Hrun.
  destruct (shutdown_spec s) as (t & Hrun' & Ht & Hc & Hd & Hst & _ & Hk).
  rewrite Hrun in Hrun'. injection Hrun' as <-.
  assert (Hclosed : forall h, esp32Client s = Some h \/ h ∈ (clients s).*2 ->
                              isOpen (readyState (sockOf s' h)) = false).
  { intros h Hh. unfold sockOf. rewrite Hk, bool_decide_eq_true_2 by done.
    destruct (sockets s !! h); simpl; [|done]. apply startClosing_not_open. }
  assert (Hatt : forall e, e ∈ clients s' -> attempted (sockets s') e = false).
  { intros [u h] He. rewrite Hc in He. unfold attempted. simpl.
    apply (Hclosed h). right. by apply (list_elem_of_fmap_2' snd _ (u, h)). }
  split.
  - rewrite broadcastToClients_spec by by rewrite Hc.
    assert (Hdel : List.filter (delivered (sockets s')) (clients s') = []).
    { apply filter_none. intros e He. unfold delivered. by rewrite (Hatt e He). }
    assert (Hfail : List.filter (failing (sockets s')) (clients s') = []).
    { apply filter_none. intros e He. unfold failing. by rewrite (Hatt e He). }
    rewrite Hdel. eexists. split; [reflexivity|].
    cbn [afterBroadcast trace clients logs]. rewrite Hdel, Hfail. simpl.
    rewrite !app_nil_r. split_and!; try done.
    apply filter_all. intros e He. unfold failing. by rewrite (Hatt e He).
  - rewrite sendToESP32_eq. destruct (esp32Client s') as [d|] eqn:Hdev; [|done].
    rewrite (Hclosed d); [done|]. left. congruence.
Qed.

Lemma nothing_sent_after_shutdown_witness :
  let s := runEvents [(0, EvConnection "/ws" (Some "alice"));
                      (1, EvConnection "/esp32" None);
                      (2, EvConnection "/ws" (Some "bob"))] initialState in
  let s' := finalState (shutdown s) in
  trace s' = trace s ++ [EClose 1%nat None; EClose 0%nat None; EClose 2%nat None] /\
  (exists s'', broadcastToClients (JStr "late") s' = Ret 0%nat s'' /\ trace s'' = trace s') /\
  sendToESP32 (JStr "late") s' = Ret false s'.
Proof.
  intros s s'.
  destruct (nothing_sent_after_shutdown (JStr "late") s s') as [(s'' & H1 & H2 & _) H3].
  - apply (bool_decide_unpack _). vm_compute. exact I.
  - vm_compute. reflexivity.
  - split_and!; [vm_compute; reflexivity | by exists s'' | exact H3].
Defined.

(** ** Replies of the client router *)

(** X26. A client [ping] is answered with [pong] on the socket it arrived
    on, without going through the registry. When that send throws, the
    router logs the error and the user stays registered, unlike a failed
    send of [sendToUser]. *)
Theorem client_ping_answered_on_its_socket now ws userId data fs s :
  parsed data = Some (JObj fs) ->
  objGet "type" fs = Some (JStr "ping") ->
  readyState (sockOf s ws) = OPEN ->
  handleClientMessage now ws userId data s =
  if sendThrows (sockOf s ws)
  then Ret tt (setLogs (logs s ++ [(LError, "Client message handling error: send failed")]) s)
  else Ret tt (setTrace (trace s ++ [ESend ws (JObj [("type", JStr "pong");
                                                     ("timestamp", JNum now)])]) s).
Proof.
  intros Hparsed Hty Hopen.
  assert (Hdispatch :
    handleClientMessage now ws userId data s =
    tryCatch (wsSend ws (JObj [("type", JStr "pong"); ("timestamp", JNum now)]))
             (fun e => logAt LError ("Client message handling error: " +:+ e)) s).
  { unfold handleClientMessage, tryCatch. rewrite Hparsed.
    unfold jprop. rewrite Hty. reflexivity. }
  rewrite Hdispatch. unfold tryCatch, wsSend. rewrite Hopen.
  by destruct (sendThrows (sockOf s ws)).
Qed.

Lemma client_ping_answered_on_its_socket_witness :
  let fs := [("type", JStr "ping")] in
  let data := mkFrame false 0 "" (Some (JObj fs)) in
  let s0 := runEvents [(0, EvConnection "/ws" (Some "alice"))] initialState in
  let s := setSockets (alter (setSendThrows true) 0%nat (sockets s0)) s0 in
  handleClientMessage 1 0%nat "alice" data s =
  (if sendThrows (sockOf s 0%nat)
   then Ret tt (setLogs (logs s ++ [(LError, "Client message handling error: send failed")]) s)
   else Ret tt (setTrace (trace s ++ [ESend 0%nat (JObj [("type", JStr "pong");
                                                         ("timestamp", JNum 1)])]) s)) /\
  sendThrows (sockOf s 0%nat) = true /\
  clients s = [("alice", 0%nat)].
Proof.
  intros fs data s0 s. split.
  - apply (client_ping_answered_on_its_socket 1 0%nat "alice" data fs s);
      vm_compute; reflexivity.
  - split; vm_compute; reflexivity.
Defined.

(** X27. A [get-esp32-status] request is answered through the registry: the
    [esp32-status-response], carrying the current device status, goes to
    the socket registered for the user, whichever socket the request
    arrived on; when that send throws, the user is removed from the
    registry. *)
Theorem status_request_answered_through_registry now ws userId h data fs s :
  parsed data = Some (JObj fs) ->
  objGet "type" fs = Some (JStr "get-esp32-status") ->
  mapGet userId (clients s) = Some h ->
  readyState (sockOf s h) = OPEN ->
  handleClientMessage now ws userId data s =
  if sendThrows (sockOf s h)
  then Ret tt (setClients (mapDelete userId (clients s))
                 (setLogs (logs s ++ [sendErrorLog (userId, h)]) s))
  else Ret tt (setTrace (trace s ++ [ESend h (JObj [("type", JStr "esp32-status-response");
                                                    ("status", statusJ (esp32Status s))])]) s).
Proof.
  intros Hparsed Hty Hreg Hopen.
  assert (Hdispatch :
    handleClientMessage now ws userId data s =
    tryCatch (st <- gets esp32Status ;;
              sendToUser userId (JObj [("type", JStr "esp32-status-response");
                                       ("status", statusJ st)]) ;;;
              ret tt)
             (fun e => logAt LError ("Client message handling error: " +:+ e)) s).
  { unfold handleClientMessage, tryCatch. rewrite Hparsed.
    unfold jprop. rewrite Hty. reflexivity. }
  rewrite Hdispatch. unfold tryCatch, bind, gets.
  rewrite sendToUser_eq, Hreg, Hopen.
  by destruct (sendThrows (sockOf s h)).
Qed.

Lemma status_request_answered_through_registry_witness :
  let fs := [("type", JStr "get-esp32-status")] in
  let data := mkFrame false 0 "" (Some (JObj fs)) in
  let s := runEvents [(0, EvConnection "/ws" (Some "alice"));
                      (1, EvConnection "/ws" (Some "alice"))] initialState in
  handleClientMessage 2 0%nat "alice" data s =
  (if sendThrows (sockOf s 1%nat)
   then Ret tt (setClients (mapDelete "alice" (clients s))
                  (setLogs (logs s ++ [sendErrorLog ("alice", 1%nat)]) s))
   else Ret tt (setTrace (trace s ++
                          [ESend 1%nat (JObj [("type", JStr "esp32-status-response");
                                              ("status", statusJ (esp32Status s))])]) s)) /\
  sendThrows (sockOf s 1%nat) = false /\
  wiring (sockOf s 0%nat) = ClientSocket "alice" /\
  readyState (sockOf s 0%nat) = CLOSING.
Proof.
  intros fs data s. split.
  - apply (status_request_answered_through_registry 2 0%nat "alice" 1%nat data fs s);
      vm_compute; reflexivity.
  - split_and!; vm_compute; reflexivity.
Defined.
